(** * The request-serving core of the air web framework

    A shallow embedding of [server.go] (listener host policy, the pooled
    request/response lifecycle, the two-tier gas chain), of the response
    source (the [Response] methods and the [responseWriter] wrapper) and
    of [minifier.go].

    Conventions.

    - Go values that are mutated in place through pointers live in one
      [World]: the pooled [Request] and [Response], the inbound
      [*http.Request], the [http.ResponseWriter] handed to [ServeHTTP] and
      the ambient program state [E] that handlers and closures may touch.
      A Go function with side effects becomes a function into a new
      [World]; one that also returns an [error] returns [option Err].
    - A call that may panic ends in a [Result]: it returned, or it
      panicked with a value, and the [World] is the one at that point.
      Handlers and gases are such calls.  The [ErrorHandler] and the
      deferred closures are taken to return.
    - [func()] values stored in [Response.deferredFuncs] are taken from a
      type [A] of closures; calling one is [call : A -> World -> World].
    - Functions of the Go standard library and of third-party packages are
      not part of the repository.  They are fields of [Runtime] (and of
      [minifier]) and every theorem holds for all of them. *)

From stdpp Require Import gmap strings list.
From Stdlib Require Import ZArith Lia Ascii.

Local Open Scope string_scope.
Local Open Scope list_scope.

(** ** Basic data *)

(** A Go [error], identified by its message. *)
Definition Err := string.

(** A Go [[]byte]. *)
Definition bytes := list Byte.byte.

(** [[]byte(s)] *)
Definition bytes_of_string (s : string) : bytes := String.list_byte_of_string s.

(** How a call ends: it returns [r], or it panics with the value [v]. *)
Inductive Result (R : Type) :=
  | Returned (r : R)
  | Panicked (v : string).
Arguments Returned {R} _.
Arguments Panicked {R} _.

(** What a function with the result type [error] ends in. *)
Abbreviation Outcome := (Result (option Err)).

(** The values of the run-time panics of Go that the code can meet: a
    method called on a nil interface value, and an index outside a slice. *)
Definition nil_dereference : string :=
  "runtime error: invalid memory address or nil pointer dereference".
Definition index_out_of_range : string := "runtime error: index out of range".

(** [int64] arithmetic wraps around. *)
Definition wrap64 (z : Z) : Z := ((z + 2 ^ 63) mod 2 ^ 64 - 2 ^ 63)%Z.

Definition StatusOK : Z := 200.
Definition StatusNoContent : Z := 204.
Definition StatusMultipleChoices : Z := 300.
Definition StatusFound : Z := 302.
Definition StatusBadRequest : Z := 400.
Definition StatusInternalServerError : Z := 500.
Definition MethodHead : string := "HEAD".

(** *** [http.Header]

    A [map[string][]string].  The keys used by the repository are already
    in canonical form, so [Get], [Set] and [Del] are plain map operations. *)
Abbreviation Header := (gmap string (list string)).

Definition Header_Get (h : Header) (k : string) : string :=
  match h !! k with
  | Some (v :: _) => v
  | _ => ""
  end.

Definition Header_Set (h : Header) (k v : string) : Header := <[k := [v]]> h.

Definition Header_Del (h : Header) (k : string) : Header := delete k h.

(** *** Slices

    A Go slice is a window on a backing array: [elems] are the elements
    inside the window, [spare] the cells of the array behind it. *)
Record slice (T : Type) := Slice { elems : list T; spare : list T }.
Arguments Slice {T} _ _.
Arguments elems {T} _.
Arguments spare {T} _.

(** [len(s)] and [cap(s)] *)
Definition len {T} (s : slice T) : nat := length (elems s).
Definition cap {T} (s : slice T) : nat := length (elems s) + length (spare s).

(** The zero value, [nil]. *)
Definition nil_slice {T} : slice T := Slice [] [].

(** [s[:0]]: the same array, an empty window. *)
Definition reslice0 {T} (s : slice T) : slice T := Slice [] (elems s ++ spare s).

(** [append(s, x)]: into the next spare cell, or onto a fresh array when
    there is none (the growth factor of the Go runtime is not modelled,
    the fresh array has no spare cell). *)
Definition slice_append {T} (s : slice T) (x : T) : slice T :=
  Slice (elems s ++ [x]) (tail (spare s)).

(** ** The objects of one request *)

(** The inbound [*http.Request]. *)
Record HTTPRequest := mkHTTPRequest {
  Method : string;
  Host : string;
  hrHeader : Header
}.

(** The [http.ResponseWriter] that [net/http] hands to [ServeHTTP].  It
    owns the response header map; [rwStatus] lists the statuses its
    [WriteHeader] received and [rwBody] the bytes its [Write] accepted. *)
Record RawWriter := mkRawWriter {
  rwHeader : Header;
  rwStatus : list Z;
  rwBody : bytes
}.

(** A [*sync.Once]: whether its function already ran. *)
Record Once := mkOnce { done_ : bool }.

(** Pointers to pooled objects. *)
Definition ptr := nat.

(** A route parameter of [Request.params]. *)
Record RequestParam := mkRequestParam {
  Name : string;
  Values : list string
}.

(** [Request]: the fields [server.go] touches.  [self] is the address of
    the object, [res] the back-reference to the paired [Response]. *)
Record Request := mkRequest {
  req_self : ptr;
  res : option ptr;
  params : slice RequestParam;
  routeParamNames : option (list string);
  routeParamValues : option (list string);
  parseRouteParamsOnce : option Once;
  parseOtherParamsOnce : option Once;
  localizedString : option (gmap string string)
}.

Section Objects.

(** Closures registered as deferred functions. *)
Variable A : Type.

(** [Response]: the exported fields of the struct and the unexported ones
    [server.go] resets.  [Header], [hrw] and [ohrw] point into the
    [RawWriter] of the [World]. *)
Record Response := mkResponse {
  res_self : ptr;
  Status : Z;
  ContentLength : Z;
  Written : bool;
  Minified : bool;
  Gzipped : bool;
  req : option ptr;
  servingContent : bool;
  serveContentError : option Err;
  reverseProxying : bool;
  reverseProxyError : option Err;
  deferredFuncs : slice A
}.

(** Ambient program state. *)
Variable E : Type.

Record World := mkWorld {
  w_hreq : HTTPRequest;
  w_req : Request;
  w_res : Response;
  w_raw : RawWriter;
  w_env : E
}.

(** The response and the underlying writer: what a holder of the
    [responseWriter] wrapper can reach. *)
Definition Sink : Type := Response * RawWriter.

(** ** What the repository does not define

    The connection and the library functions that speak to the response
    through the [responseWriter] wrapper.  A library function sees the
    request, the [Response] (through the wrapper) and the underlying
    writer, never the ambient state. *)
Record Runtime := mkRuntime {
  (** result [(n, err)] of [Write] on the underlying connection *)
  conn_Write : RawWriter -> bytes -> Z * option Err;
  (** [http.ServeContent(hrw, hr, "", lm, content)] for a reader
      [content] over the given bytes, [lm] given by the [Last-Modified]
      header it is parsed from *)
  http_ServeContent : string -> bytes -> HTTPRequest -> Sink -> Sink;
  (** [http.ServeContent(hrw, hr, "", lm, nil)]: the library calls the
      methods of the content, which panics for a nil one, unless the
      preconditions of the request (its [If-Match], [If-None-Match] and
      the like) end the reply before the content is touched; the sink is
      the one at the return or at the panic *)
  http_ServeContent_nil : string -> HTTPRequest -> Sink -> Result unit * Sink;
  (** [http.Redirect(hrw, hr, url, code)] *)
  http_Redirect : string -> Z -> HTTPRequest -> Sink -> Sink;
  (** [io.Copy(hrw, content)] for a reader [content] over the given bytes *)
  io_Copy : bytes -> Sink -> option Err * Sink;
  (** calling a deferred closure *)
  call : A -> World -> World;
  (** [net.SplitHostPort(hostport)]: [(host, port, err)] *)
  net_SplitHostPort : string -> string * string * option Err
}.

End Objects.

Arguments mkResponse {A} _ _ _ _ _ _ _ _ _ _ _ _.
Arguments res_self {A} _.
Arguments Status {A} _.
Arguments ContentLength {A} _.
Arguments Written {A} _.
Arguments Minified {A} _.
Arguments Gzipped {A} _.
Arguments req {A} _.
Arguments servingContent {A} _.
Arguments serveContentError {A} _.
Arguments reverseProxying {A} _.
Arguments reverseProxyError {A} _.
Arguments deferredFuncs {A} _.
Arguments mkWorld {A E} _ _ _ _ _.
Arguments w_hreq {A E} _.
Arguments w_req {A E} _.
Arguments w_res {A E} _.
Arguments w_raw {A E} _.
Arguments w_env {A E} _.
Arguments mkRuntime {A E} _ _ _ _ _ _ _.
Arguments conn_Write {A E} _ _ _.
Arguments http_ServeContent {A E} _ _ _ _ _.
Arguments http_ServeContent_nil {A E} _ _ _ _.
Arguments http_Redirect {A E} _ _ _ _ _.
Arguments io_Copy {A E} _ _ _.
Arguments call {A E} _ _ _.
Arguments net_SplitHostPort {A E} _ _.

(** [Handler] and [Gas] of the framework. *)
Abbreviation Handler A E := (World A E -> Outcome * World A E).
Abbreviation Gas A E := (Handler A E -> Handler A E).

(** ** The minifier ([minifier.go]) *)

(** What a content minifier returns: [(out, nil)] or [(nil, err)]. *)
Definition MinifierFunc := bytes -> Err + bytes.

(** Result of [M.Minify] of the third-party minify package. *)
Inductive MinifyResult :=
  | MinifyOut (out : bytes)
  | ErrNotExist
  | MinifyErr (e : Err).

(** The [minifier] struct.  [registry] is the table [m.m] that [Init]
    fills through [m.m.Add]; the image codecs are those of [image/jpeg]
    and [image/png], [png_Encode] with the encoder [m.pngEncoder]. *)
Record minifier := mkMinifier {
  registry : string -> option MinifierFunc;
  Image : Type;
  jpeg_Decode : bytes -> Err + Image;
  jpeg_Encode : Image -> Err + bytes;
  png_Decode : bytes -> Err + Image;
  png_Encode : Image -> Err + bytes
}.

(** [m.m.Minify(mimeType, buf, r)]: the registered minifier, or
    [minify.ErrNotExist]. *)
Definition M_Minify (m : minifier) (mimeType : string) (b : bytes) : MinifyResult :=
  match registry m mimeType with
  | None => ErrNotExist
  | Some f => match f b with inl e => MinifyErr e | inr out => MinifyOut out end
  end.

Definition minifyJPEG (m : minifier) (b : bytes) : Err + bytes :=
  match jpeg_Decode m b with
  | inl err => inl err
  | inr img => jpeg_Encode m img
  end.

Definition minifyPNG (m : minifier) (b : bytes) : Err + bytes :=
  match png_Decode m b with
  | inl err => inl err
  | inr img => png_Encode m img
  end.

Definition minifyOthers (m : minifier) (mimeType : string) (b : bytes) : Err + bytes :=
  match M_Minify m mimeType b with
  | ErrNotExist => inl "unsupported mime type"
  | MinifyErr e => inl e
  | MinifyOut out => inr out
  end.

(** The exported [Minifier#Minify]. *)
Definition Minify (m : minifier) (mimeType : string) (b : bytes) : Err + bytes :=
  if mimeType =? "image/jpeg" then minifyJPEG m b
  else if mimeType =? "image/png" then minifyPNG m b
  else minifyOthers m mimeType b.

(** Modelled from the spec: the unexported method [minifier.minify] that
    [Response.WriteBlob] calls is missing from the sources ([minifier.go]
    declares [Init], [Minify], [minifyJPEG], [minifyPNG] and
    [minifyOthers] only).  The specification gives its contract as
    [minify(mimeType, bytes) -> (bytes, error)], an unregistered mime type
    yielding the original bytes and no error, and a registered minifier
    that fails propagating its failure. *)
Definition minify (m : minifier) (mimeType : string) (b : bytes) : Err + bytes :=
  match registry m mimeType with
  | None => inr b
  | Some f => f b
  end.

(** ** The [Air] instance

    The fields of [*Air] the three source files read. *)
Record Air (A E : Type) := mkAir {
  DebugMode : bool;
  HTTPSEnforced : bool;
  HostWhitelist : list string;
  TLSCertFile : string;
  TLSKeyFile : string;
  ACMEEnabled : bool;
  (** [a.server.server.TLSConfig != nil] *)
  server_TLSConfig : bool;
  Pregases : list (Gas A E);
  Gases : list (Gas A E);
  (** [a.router.route(req)]: may fill the route parameters of [req] *)
  router_route : World A E -> Handler A E * World A E;
  ErrorHandler : Err -> World A E -> World A E;
  air_minifier : minifier
}.
Arguments mkAir {A E} _ _ _ _ _ _ _ _ _ _ _ _.
Arguments DebugMode {A E} _.
Arguments HTTPSEnforced {A E} _.
Arguments HostWhitelist {A E} _.
Arguments TLSCertFile {A E} _.
Arguments TLSKeyFile {A E} _.
Arguments ACMEEnabled {A E} _.
Arguments server_TLSConfig {A E} _.
Arguments Pregases {A E} _.
Arguments Gases {A E} _.
Arguments router_route {A E} _ _.
Arguments ErrorHandler {A E} _ _ _.
Arguments air_minifier {A E} _.

(** ** The response writer *)

Section Wrapper.

Context {A E : Type}.

(** The behaviour of the underlying connection: the result [(n, err)] of
    a [Write] of [b] in state [x]. *)
Variable cw : RawWriter -> bytes -> Z * option Err.
Variable a : Air A E.

Local Abbreviation Response := (Response A).
Local Abbreviation Sink := (Sink A).

(** *** Field updates *)

Definition with_Status (s : Z) (r : Response) : Response :=
  mkResponse (res_self r) s (ContentLength r) (Written r) (Minified r) (Gzipped r)
    (req r) (servingContent r) (serveContentError r) (reverseProxying r)
    (reverseProxyError r) (deferredFuncs r).

Definition with_ContentLength (n : Z) (r : Response) : Response :=
  mkResponse (res_self r) (Status r) n (Written r) (Minified r) (Gzipped r)
    (req r) (servingContent r) (serveContentError r) (reverseProxying r)
    (reverseProxyError r) (deferredFuncs r).

Definition with_Written (b : bool) (r : Response) : Response :=
  mkResponse (res_self r) (Status r) (ContentLength r) b (Minified r) (Gzipped r)
    (req r) (servingContent r) (serveContentError r) (reverseProxying r)
    (reverseProxyError r) (deferredFuncs r).

Definition with_deferredFuncs (d : slice A) (r : Response) : Response :=
  mkResponse (res_self r) (Status r) (ContentLength r) (Written r) (Minified r)
    (Gzipped r) (req r) (servingContent r) (serveContentError r)
    (reverseProxying r) (reverseProxyError r) d.

Definition with_rwHeader (h : Header) (x : RawWriter) : RawWriter :=
  mkRawWriter h (rwStatus x) (rwBody x).

Definition with_hrHeader (h : Header) (x : HTTPRequest) : HTTPRequest :=
  mkHTTPRequest (Method x) (Host x) h.

(** *** The underlying [http.ResponseWriter] *)

(** [rw.w.WriteHeader(status)] *)
Definition raw_WriteHeader (status : Z) (x : RawWriter) : RawWriter :=
  mkRawWriter (rwHeader x) (rwStatus x ++ [status]) (rwBody x).

(** [rw.w.Write(b)]: the connection decides [(n, err)]; the first [n]
    bytes went out. *)
Definition raw_Write (b : bytes) (x : RawWriter) : (Z * option Err) * RawWriter :=
  let '(n, err) := cw x b in
  ((n, err), mkRawWriter (rwHeader x) (rwStatus x) (rwBody x ++ take (Z.to_nat n) b)).

(** *** [responseWriter]

    The wrapper [&responseWriter{r: res, w: rw}] that [ServeHTTP] installs
    as [res.hrw]: its methods act on [res] and on [rw]. *)

(** [responseWriter.WriteHeader] *)
Definition rw_WriteHeader (status : Z) (k : Sink) : Sink :=
  let '(r, x) := k in
  if Written r then k
  else
    let status :=
      if (status =? StatusOK)%Z && negb (status =? Status r)%Z
      then Status r else status in
    let h := rwHeader x in
    let h :=
      if negb (DebugMode a) && HTTPSEnforced a && server_TLSConfig a
         && (Header_Get h "Strict-Transport-Security" =? "")
      then Header_Set h "Strict-Transport-Security" "max-age=31536000"
      else h in
    let h := Header_Set h "Server" "Air" in
    let x := raw_WriteHeader status (with_rwHeader h x) in
    (with_Written true (with_Status status r), x).

(** [responseWriter.Write] *)
Definition rw_Write (b : bytes) (k : Sink) : (Z * option Err) * Sink :=
  let k := if Written (fst k) then k else rw_WriteHeader (Status (fst k)) k in
  let '(r, x) := k in
  let '((n, err), x) := raw_Write b x in
  match err with
  | Some e => ((0%Z, Some e), (r, x))
  | None => ((n, None), (with_ContentLength (wrap64 (ContentLength r + n)) r, x))
  end.

End Wrapper.

Section ResponseMethods.

Context {A E : Type}.
Variable rt : Runtime A E.
Variable a : Air A E.

Local Abbreviation World := (World A E).
Local Abbreviation Response := (Response A).
Local Abbreviation Sink := (Sink A).

Definition set_res (f : Response -> Response) (w : World) : World :=
  mkWorld (w_hreq w) (w_req w) (f (w_res w)) (w_raw w) (w_env w).

Definition set_raw (f : RawWriter -> RawWriter) (w : World) : World :=
  mkWorld (w_hreq w) (w_req w) (w_res w) (f (w_raw w)) (w_env w).

Definition set_hreq (f : HTTPRequest -> HTTPRequest) (w : World) : World :=
  mkWorld (f (w_hreq w)) (w_req w) (w_res w) (w_raw w) (w_env w).

(** The response and its writer, as the wrapper sees them. *)
Definition sink_of (w : World) : Sink := (w_res w, w_raw w).

Definition set_sink (k : Sink) (w : World) : World :=
  mkWorld (w_hreq w) (w_req w) (fst k) (snd k) (w_env w).

(** [r.Header] is the map that [hrw.Header()] returned in
    [SetHTTPResponseWriter]: the header map of the underlying writer. *)
Definition Response_Header (w : World) : Header := rwHeader (w_raw w).

(** [Response.Write].  [content] is [None] for a nil [io.ReadSeeker] and
    [Some b] for a reader over [b].  [r.req.Method] is the method of the
    inbound request that [req] wraps.  The method has no check for a nil
    content: [io.Copy] calls [Read] on it, [http.ServeContent] is
    [http_ServeContent_nil]. *)
Definition Response_Write (content : option bytes) (w : World) : Outcome * World :=
  if Written (w_res w) then
    if negb (Method (w_hreq w) =? MethodHead) then
      match content with
      | Some b =>
          let '(err, k) := io_Copy rt b (sink_of w) in
          (Returned err, set_sink k w)
      | None => (Panicked nil_dereference, w)
      end
    else (Returned None, w)
  else
    let lm := Header_Get (Response_Header w) "Last-Modified" in
    match content with
    | Some b =>
        (Returned None, set_sink (http_ServeContent rt lm b (w_hreq w) (sink_of w)) w)
    | None =>
        match http_ServeContent_nil rt lm (w_hreq w) (sink_of w) with
        | (Returned _, k) => (Returned None, set_sink k w)
        | (Panicked v, k) => (Panicked v, set_sink k w)
        end
    end.

(** [Response.WriteBlob] *)
Definition WriteBlob (b : bytes) (w : World) : Outcome * World :=
  let ct := Header_Get (Response_Header w) "Content-Type" in
  if negb (ct =? "") then
    match minify (air_minifier a) ct b with
    | inl err => (Returned (Some err), w)
    | inr b => Response_Write (Some b) w
    end
  else Response_Write (Some b) w.

(** [Response.WriteString] *)
Definition WriteString (s : string) (w : World) : Outcome * World :=
  let w :=
    set_raw (fun x =>
      with_rwHeader (Header_Set (rwHeader x) "Content-Type" "text/plain; charset=utf-8") x) w in
  WriteBlob (bytes_of_string s) w.

(** [Response.Redirect] *)
Definition Redirect (url : string) (w : World) : Outcome * World :=
  let w :=
    if (Status (w_res w) <? StatusMultipleChoices)%Z
       || (StatusBadRequest <=? Status (w_res w))%Z
    then set_res (with_Status StatusFound) w else w in
  (Returned None,
   set_sink (http_Redirect rt url (Status (w_res w)) (w_hreq w) (sink_of w)) w).

(** [responseBody.Write] *)
Definition responseBody_Write (b : bytes) (w : World)
    : Result (Z * option Err) * World :=
  let '(first, w) :=
    if Written (w_res w) then (Returned None, w) else Response_Write None w in
  match first with
  | Panicked v => (Panicked v, w)
  | Returned (Some e) => (Returned (0%Z, Some e), w)
  | Returned None =>
      let '(res, k) := rw_Write (conn_Write rt) a b (sink_of w) in
      (Returned res, set_sink k w)
  end.

(** Modelled from the spec: the method that registers a deferred function
    is missing from the sources; the specification describes the deferred
    actions as an ordered list appended to during handling. *)
Definition Defer (f : A) (w : World) : World :=
  set_res (fun r => with_deferredFuncs (slice_append (deferredFuncs r) f) r) w.

End ResponseMethods.

(** ** Host policy and certificate selection ([server.go]) *)

(** Lower-casing of the ASCII letters. *)
Definition lower_ascii (c : ascii) : ascii :=
  let n := nat_of_ascii c in
  if (65 <=? n)%nat && (n <=? 90)%nat then ascii_of_nat (n + 32) else c.

Fixpoint lower (s : string) : string :=
  match s with
  | EmptyString => EmptyString
  | String c s' => String (lower_ascii c) (lower s')
  end.

(** Modelled from the spec: the helper [stringSliceContainsCIly] is
    missing from the sources; the specification makes the whitelist a
    case-insensitive set of allowed names.  Case is folded on the ASCII
    letters, the alphabet of host names. *)
Definition stringSliceContainsCIly (ss : list string) (s : string) : bool :=
  existsb (fun v => lower v =? lower s) ss.

(** The [net.Conn] of a handshake: what the peer has seen of it, and the
    error its [Close] will report. *)
Record Conn := mkConn {
  conn_closed : bool;
  conn_sent : bytes;
  conn_close_err : option Err
}.

(** [c.Close()] *)
Definition Conn_Close (c : Conn) : option Err * Conn :=
  (conn_close_err c, mkConn true (conn_sent c) (conn_close_err c)).

(** [*tls.ClientHelloInfo] *)
Record ClientHelloInfo := mkClientHelloInfo {
  ServerName : string;
  chi_Conn : Conn
}.

(** The three branches of [serve]. *)
Inductive Topology := StaticTLS | AutoTLS | Plaintext.

(** A loaded [tls.Certificate]. *)
Definition Certificate := bytes.

Section Server.

Context {A E : Type}.
Variable rt : Runtime A E.
Variable a : Air A E.

Local Abbreviation World := (World A E).
Local Abbreviation Response := (Response A).
Local Abbreviation Handler := (Handler A E).
Local Abbreviation Gas := (Gas A E).

(** The name [allowedHost] compares with the whitelist: the host part when
    [net.SplitHostPort] finds one. *)
Definition host_part (host : string) : string :=
  let '(h, _, _) := net_SplitHostPort rt host in
  if negb (h =? "") then h else host.

(** [server.allowedHost] *)
Definition allowedHost (host : string) : bool :=
  if DebugMode a || (length (HostWhitelist a) =? 0)%nat then true
  else stringSliceContainsCIly (HostWhitelist a) (host_part host).

(** The listener [serve] builds: with the configured key pair, with
    certificates obtained over ACME, or without TLS. *)
Definition topology : Topology :=
  if negb (TLSCertFile a =? "") && negb (TLSKeyFile a =? "") then StaticTLS
  else if negb (DebugMode a) && ACMEEnabled a then AutoTLS
  else Plaintext.

(** The [GetCertificate] callback that [serve] installs when
    [TLSCertFile] and [TLSKeyFile] are set; [c] is the loaded key pair. *)
Definition GetCertificate (c : Certificate) (chi : ClientHelloInfo)
    : (option Certificate * option Err) * ClientHelloInfo :=
  if negb (allowedHost (ServerName chi)) then
    let '(err, conn) := Conn_Close (chi_Conn chi) in
    ((None, err), mkClientHelloInfo (ServerName chi) conn)
  else ((Some c, None), chi).

(** *** The pools *)

(** [server]: the two [sync.Pool]s hold the objects put back so far;
    [next_ptr] is the next free address for [New]. *)
Record server := mkServer {
  requestPool : list Request;
  responsePool : list Response;
  next_ptr : ptr
}.

(** [&Request{}] *)
Definition new_Request (p : ptr) : Request :=
  mkRequest p None nil_slice None None None None None.

(** [&Response{}] *)
Definition new_Response (p : ptr) : Response :=
  mkResponse p 0 0 false false false None false None false None nil_slice.

(** [s.requestPool.Get()], a [*Request] *)
Definition requestPool_Get (s : server) : Request * server :=
  match requestPool s with
  | x :: rest => (x, mkServer rest (responsePool s) (next_ptr s))
  | [] => (new_Request (next_ptr s), mkServer [] (responsePool s) (S (next_ptr s)))
  end.

(** [s.responsePool.Get()], a [*Response] *)
Definition responsePool_Get (s : server) : Response * server :=
  match responsePool s with
  | x :: rest => (x, mkServer (requestPool s) rest (next_ptr s))
  | [] => (new_Response (next_ptr s), mkServer (requestPool s) [] (S (next_ptr s)))
  end.

(** [s.requestPool.Put(req); s.responsePool.Put(res)] *)
Definition pools_Put (rq : Request) (rs : Response) (s : server) : server :=
  mkServer (rq :: requestPool s) (rs :: responsePool s) (next_ptr s).

(** *** [ServeHTTP]: the reset *)

(** "Reset the request." *)
Definition reset_request (rq : Request) (rs : Response) : Request :=
  mkRequest (req_self rq)
    (Some (res_self rs))
    (reslice0 (params rq))
    None
    None
    (Some (mkOnce false))
    (Some (mkOnce false))
    None.

(** "Reset the response." *)
Definition reset_response (rq : Request) (rs : Response) : Response :=
  mkResponse (res_self rs)
    StatusOK
    (-1)
    false
    false
    false
    (Some (req_self rq))
    false
    None
    false
    None
    (reslice0 (deferredFuncs rs)).

(** The objects of the request once both resets are done: [req] wraps
    [r], the header and the writers of [res] are those of [rw]. *)
Definition reset (rq : Request) (rs : Response) (rw : RawWriter)
    (r : HTTPRequest) (e : E) : World :=
  mkWorld r (reset_request rq rs) (reset_response rq rs) rw e.

(** *** [ServeHTTP]: the chain *)

(** [for i := len(gs) - 1; i >= 0; i-- { h = gs[i](h) }], with [n] the
    value of [i + 1]; the index stays within [gs]. *)
Fixpoint wrap_from (gs : list Gas) (n : nat) (h : Handler) : Handler :=
  match n with
  | 0 => h
  | S i =>
      match gs !! i with
      | Some g => wrap_from gs i (g h)
      | None => h
      end
  end.

Definition wrap_all (gs : list Gas) (h : Handler) : Handler :=
  wrap_from gs (length gs) h.

(** The closure around the routed handler [rh]. *)
Definition finalize (rh : Handler) : Handler := fun w =>
  match rh w with
  | (Panicked v, w) => (Panicked v, w)
  | (Returned err, w) =>
      if Written (w_res w) then (Returned err, w)
      else
        match err with
        | None =>
            let w := set_res (with_Status StatusNoContent) w in
            let w :=
              set_hreq (fun r => with_hrHeader (Header_Del (hrHeader r) "Content-Type") r) w in
            let w :=
              set_hreq (fun r => with_hrHeader (Header_Del (hrHeader r) "Content-Length") r) w in
            Response_Write rt None w
        | Some e =>
            if (Status (w_res w) <? StatusBadRequest)%Z
            then (Returned (Some e), set_res (with_Status StatusInternalServerError) w)
            else (Returned (Some e), w)
        end
  end.

(** "Chain the gases stack." *)
Definition routed : Handler := fun w =>
  let '(rh, w) := router_route a w in
  wrap_all (Gases a) (finalize rh) w.

(** "Chain the pregases stack." *)
Definition chain : Handler := wrap_all (Pregases a) routed.

(** "Execute the chain." *)
Definition execute (w : World) : Result unit * World :=
  match chain w with
  | (Returned (Some err), w) => (Returned tt, ErrorHandler a err w)
  | (Returned None, w) => (Returned tt, w)
  | (Panicked v, w) => (Panicked v, w)
  end.

(** *** [ServeHTTP]: the deferred functions *)

(** [for i := ...; i >= 0; i-- { res.deferredFuncs[i]() }], with [n] the
    value of [i + 1]. *)
Fixpoint run_deferred_from (n : nat) (w : World) : Result unit * World :=
  match n with
  | 0 => (Returned tt, w)
  | S i =>
      match elems (deferredFuncs (w_res w)) !! i with
      | Some f => run_deferred_from i (call rt f w)
      | None => (Panicked index_out_of_range, w)
      end
  end.

(** "Execute the deferred functions." *)
Definition run_deferred (w : World) : Result unit * World :=
  run_deferred_from (len (deferredFuncs (w_res w))) w.

(** "Get request and response from the pool." and both resets: the world
    the chain is executed in. *)
Definition acquire (s : server) (rw : RawWriter) (r : HTTPRequest) (e : E)
    : server * World :=
  let '(rq, s) := requestPool_Get s in
  let '(rs, s) := responsePool_Get s in
  (s, reset rq rs rw r e).

(** [server.ServeHTTP].  The request body wrapper and the pool of route
    parameter values of the router play no part in the response and are
    left out.  The function has no [recover] and the loop over the
    deferred functions is no [defer] statement: a panic of the chain ends
    the function there, before that loop and before the objects are put
    back. *)
Definition ServeHTTP (s : server) (rw : RawWriter) (r : HTTPRequest) (e : E)
    : Result unit * (server * World) :=
  let '(s, w) := acquire s rw r e in
  match execute w with
  | (Panicked v, w) => (Panicked v, (s, w))
  | (Returned _, w) =>
      match run_deferred w with
      | (Panicked v, w) => (Panicked v, (s, w))
      | (Returned _, w) => (Returned tt, (pools_Put (w_req w) (w_res w) s, w))
      end
  end.

End Server.

(** ** Vocabulary of the statements *)

Section Vocabulary.

Context {A E : Type}.

Local Abbreviation World := (World A E).
Local Abbreviation Handler := (Handler A E).
Local Abbreviation Gas := (Gas A E).
Local Abbreviation Sink := (Sink A).

(** A gas that does not short-circuit: it works on the request and the
    response, calls its inner handler once, and works on what comes back
    when the handler returns.  It has no [defer] and no [recover]: a
    panic of the inner handler passes through it. *)
Record Stage := mkStage {
  before : World -> World;
  after : option Err * World -> option Err * World
}.

(** The code of a stage behind the call of its inner handler. *)
Definition leave (st : Stage) (r : Outcome * World) : Outcome * World :=
  match r with
  | (Returned err, w) => let '(err, w) := after st (err, w) in (Returned err, w)
  | (Panicked v, w) => (Panicked v, w)
  end.

Definition gas_of (st : Stage) : Gas := fun next w => leave st (next (before st w)).

(** The way in through a list of stages, first stage first. *)
Definition descend (sts : list Stage) (w : World) : World :=
  foldl (fun w st => before st w) w sts.

(** The way out, last stage first. *)
Definition unwind (sts : list Stage) (r : Outcome * World) : Outcome * World :=
  foldr leave r sts.

(** The status that a commit with [status] puts on the wire. *)
Definition committed_status (status : Z) (r : Response A) : Z :=
  if (status =? StatusOK)%Z then Status r else status.

(** Calls on the [responseWriter] wrapper. *)
Inductive WriterCall :=
  | CallWriteHeader (status : Z)
  | CallWrite (b : bytes).

Definition do_call (cw : RawWriter -> bytes -> Z * option Err) (a : Air A E)
    (c : WriterCall) (k : Sink) : Sink :=
  match c with
  | CallWriteHeader status => rw_WriteHeader a status k
  | CallWrite b => snd (rw_Write cw a b k)
  end.

Definition do_calls (cw : RawWriter -> bytes -> Z * option Err) (a : Air A E)
    (cs : list WriterCall) (k : Sink) : Sink :=
  foldl (fun k c => do_call cw a c k) k cs.

(** The values of [Written] along a sequence of calls on the wrapper:
    before the first call and after each call. *)
Fixpoint written_flags (cw : RawWriter -> bytes -> Z * option Err) (a : Air A E)
    (cs : list WriterCall) (k : Sink) : list bool :=
  Written (fst k)
  :: match cs with
     | [] => []
     | c :: cs' => written_flags cw a cs' (do_call cw a c k)
     end.

(** How often a sequence of flags goes from [false] to [true]. *)
Fixpoint rises (bs : list bool) : nat :=
  match bs with
  | [] => 0
  | b :: rest =>
      (match rest with
       | true :: _ => if b then 0 else 1
       | _ => 0
       end) + rises rest
  end.

(** A sequence of body writes that all succeed: the bytes counted by the
    connection in total, and the sink afterwards. *)
Fixpoint write_all (cw : RawWriter -> bytes -> Z * option Err) (a : Air A E)
    (bs : list bytes) (k : Sink) : option (Z * Sink) :=
  match bs with
  | [] => Some (0%Z, k)
  | b :: bs' =>
      match rw_Write cw a b k with
      | ((_, Some _), _) => None
      | ((n, None), k') =>
          match write_all cw a bs' k' with
          | Some (m, k'') => Some ((n + m)%Z, k'')
          | None => None
          end
      end
  end.

(** The deferred functions of a world, in registration order. *)
Definition deferred (w : World) : list A := elems (deferredFuncs (w_res w)).

End Vocabulary.

Arguments Stage : clear implicits.
Arguments mkStage {A E} _ _.

(** ** Test doubles *)

(** What the doubles write into the ambient state. *)
Inductive Event :=
  | Enter (id : string)
  | Leave (id : string)
  | Routed
  | Handled
  | Ran (f : string)
  | Reported (err : Err) (status : Z)
  | Saw (n : nat).

Definition emit {A} (ev : Event) (w : World A (list Event)) : World A (list Event) :=
  mkWorld (w_hreq w) (w_req w) (w_res w) (w_raw w) (w_env w ++ [ev]).

(** A connection that takes every byte. *)
Definition conn_ok (x : RawWriter) (b : bytes) : Z * option Err :=
  (Z.of_nat (length b), None).

(** A connection that breaks after two bytes. *)
Definition conn_broken (x : RawWriter) (b : bytes) : Z * option Err :=
  (2%Z, Some "broken pipe").

Fixpoint cut_last_colon (s : string) : option (string * string) :=
  match s with
  | EmptyString => None
  | String c s' =>
      match cut_last_colon s' with
      | Some (h, p) => Some (String c h, p)
      | None => if Ascii.eqb c ":" then Some (EmptyString, s') else None
      end
  end.

(** [net.SplitHostPort] on names without brackets. *)
Definition split_host_port (s : string) : string * string * option Err :=
  match cut_last_colon s with
  | None => ("", "", Some "missing port in address")
  | Some (h, p) =>
      match cut_last_colon h with
      | Some _ => ("", "", Some "too many colons in address")
      | None => (h, p, None)
      end
  end.

Section Doubles.

Local Abbreviation Trace := (list Event).
Local Abbreviation World := (World string Trace).
Local Abbreviation Handler := (Handler string Trace).
Local Abbreviation Gas := (Gas string Trace).

Variable a : Air string Trace.

(** A full, unconditional reply in place of [http.ServeContent]. *)
Definition serve_plain (lm : string) (b : bytes) (hr : HTTPRequest)
    (k : Sink string) : Sink string :=
  let k := rw_WriteHeader a StatusOK k in
  if Method hr =? MethodHead then k else snd (rw_Write conn_ok a b k).

(** [http.ServeContent] with a nil content, for a request without
    preconditions: nothing is sent before the content is dereferenced. *)
Definition serve_nil_plain (lm : string) (hr : HTTPRequest) (k : Sink string)
    : Result unit * Sink string :=
  (Panicked nil_dereference, k).

(** [Location] and the status in place of [http.Redirect]. *)
Definition redirect_plain (url : string) (code : Z) (hr : HTTPRequest)
    (k : Sink string) : Sink string :=
  rw_WriteHeader a code
    (fst k, with_rwHeader (Header_Set (rwHeader (snd k)) "Location" url) (snd k)).

(** One [Write] of the whole content in place of [io.Copy]. *)
Definition copy_plain (b : bytes) (k : Sink string) : option Err * Sink string :=
  let '((_, err), k) := rw_Write conn_ok a b k in (err, k).

Definition plain_rt : Runtime string Trace :=
  mkRuntime conn_ok serve_plain serve_nil_plain redirect_plain copy_plain
    (fun f w => emit (Ran f) w) split_host_port.



End Doubles.

(** A stage that records its way in and its way out. *)
Definition recording (id : string) : Stage string (list Event) :=
  mkStage (emit (Enter id)) (fun r => (fst r, emit (Leave id) (snd r))).

(** A gas that refuses the request without calling its inner handler. *)
Definition refusing (err : Err) : Gas string (list Event) :=
  fun _ w => (Returned (Some err), w).

(** A router that records the resolution and hands out [h]. *)
Definition route_to (h : Handler string (list Event)) (w : World string (list Event))
    : Handler string (list Event) * World string (list Event) :=
  (h, emit Routed w).

(** An error handler that records the error and the status it was handed. *)
Definition report (err : Err) (w : World string (list Event)) : World string (list Event) :=
  emit (Reported err (Status (w_res w))) w.

(** A minifier that knows [text/html] only. *)
Definition html_only : minifier :=
  mkMinifier
    (fun mt => if mt =? "text/html" then Some (fun b => inr (take 1 b)) else None)
    bytes (fun b => inr b) (fun img => inr img) (fun b => inr b) (fun img => inr img).

Definition air_with (debug : bool) (hosts : list string)
    (pregases gases : list (Gas string (list Event)))
    (h : Handler string (list Event)) : Air string (list Event) :=
  mkAir debug false hosts "cert.pem" "key.pem" false false pregases gases
    (route_to h) report html_only.

(** An inbound [GET] and a writer nothing was sent on. *)
Definition get_request : HTTPRequest := mkHTTPRequest "GET" "example.com" ∅.

Definition fresh_writer : RawWriter := mkRawWriter ∅ [] [].

Definition empty_server : server (A := string) := mkServer [] [] 0.

(** A handler that returns [nil] and writes nothing. *)
Definition silent : Handler string (list Event) :=
  fun w => (Returned None, emit Handled w).

(** The instance most examples run on: no gases, no whitelist. *)
Definition bare_air : Air string (list Event) := air_with false [] [] [] silent.

(** The world of a first request on an empty server. *)
Definition first_world : World string (list Event) :=
  snd (acquire empty_server fresh_writer get_request []).

(** A handler that answers with a text. *)
Definition greeting : Handler string (list Event) := fun w =>
  WriteString (plain_rt bare_air) bare_air "hello" (emit Handled w).

(** Its response after a handler recorded [404]. *)
Definition not_found_sink : Sink string :=
  (with_Status 404 (w_res first_world), w_raw first_world).

(** A handler that registers three deferred functions and fails. *)
Definition deferring : Handler string (list Event) := fun w =>
  (Returned (Some "boom"), Defer "c" (Defer "b" (Defer "a" w))).

Definition deferring_air : Air string (list Event) := air_with false [] [] [] deferring.

(** A handler that registers three deferred functions, writes nothing and
    returns [nil]. *)
Definition quiet_deferring : Handler string (list Event) := fun w =>
  (Returned None, Defer "c" (Defer "b" (Defer "a" w))).

Definition quiet_air : Air string (list Event) := air_with false [] [] [] quiet_deferring.

(** A handler that announces a body in the response header, writes
    nothing and returns [nil]. *)
Definition announcing : Handler string (list Event) := fun w =>
  (Returned None,
   set_raw (fun x =>
     with_rwHeader
       (Header_Set (Header_Set (rwHeader x) "Content-Type" "text/plain")
          "Content-Length" "5") x) w).

Definition announcing_air : Air string (list Event) := air_with false [] [] [] announcing.

(** Instances whose first pre-route gas, or first post-route gas, refuses. *)
Definition refusing_early : Air string (list Event) :=
  air_with false [] [refusing "denied"] [] silent.

Definition refusing_late : Air string (list Event) :=
  air_with false [] [] [refusing "denied"] silent.

(** Two recording stages on either side of the router, around the handler
    [h]. *)
Definition staged (h : Handler string (list Event)) : Air string (list Event) :=
  air_with false []
    (gas_of <$> [recording "p0"; recording "p1"])
    (gas_of <$> [recording "g0"; recording "g1"]) h.

Definition with_params (ps : slice RequestParam) (rq : Request) : Request :=
  mkRequest (req_self rq) (res rq) ps (routeParamNames rq) (routeParamValues rq)
    (parseRouteParamsOnce rq) (parseOtherParamsOnce rq) (localizedString rq).

(** A router that fills in two route parameters. *)
Definition route_two_params (w : World string (list Event))
    : Handler string (list Event) * World string (list Event) :=
  let ps :=
    slice_append
      (slice_append (params (w_req w)) (mkRequestParam "user" ["7"]))
      (mkRequestParam "post" ["42"]) in
  (greeting, mkWorld (w_hreq w) (with_params ps (w_req w)) (w_res w) (w_raw w) (w_env w)).

(** A pre-route gas that records how many route parameters it finds. *)
Definition probe : Gas string (list Event) := fun next w =>
  next (emit (Saw (len (params (w_req w)))) w).

Definition probing_air : Air string (list Event) :=
  mkAir false false [] "cert.pem" "key.pem" false false [probe] []
    route_two_params report html_only.

(** An instance that serves [example.com] only. *)
Definition listed_air : Air string (list Event) :=
  air_with false ["example.com"] [] [] silent.

(** A handshake for [name] on a connection nothing was sent on. *)
Definition hello (name : string) : ClientHelloInfo :=
  mkClientHelloInfo name (mkConn false [] None).

Definition key_pair : Certificate := bytes_of_string "certificate".

(** The first world with a [text/plain] response announced. *)
Definition plain_world : World string (list Event) :=
  set_raw (fun x => with_rwHeader (Header_Set (rwHeader x) "Content-Type" "text/plain") x)
    first_world.

(** The same after a first blob went out, and then with the method of a
    [HEAD] request. *)
Definition written_world : World string (list Event) :=
  snd (WriteBlob (plain_rt bare_air) bare_air (bytes_of_string "a  b") plain_world).


(** The first world after [WriteFile] recorded a permanent redirect. *)
Definition moved_world : World string (list Event) :=
  set_res (with_Status 301) first_world.

(** ** Further vocabulary *)

(** A gas that answers by itself and never calls its inner handler. *)
Definition short_circuit {A E : Type} (r : Handler A E) : Gas A E :=
  fun _ w => r w.

(** An instance whose second pre-route gas refuses. *)
Definition guarded_air : Air string (list Event) :=
  air_with false [] [gas_of (recording "p0"); refusing "denied"] [] silent.

(** An instance whose post-route gas returns [nil] by itself. *)
Definition skipping_air : Air string (list Event) :=
  air_with false [] [] [short_circuit (fun w => (Returned None, w))] announcing.

(** ** More of the response source *)

(** [h.Add(k, v)] and [h[k]] of [http.Header] *)
Definition Header_Add (h : Header) (k v : string) : Header :=
  <[k := default [] (h !! k) ++ [v]]> h.

Definition Header_Values (h : Header) (k : string) : list string :=
  default [] (h !! k).

(** [path.IsAbs(p)]: [len(p) > 0 && p[0] == '/'] *)
Definition path_IsAbs (p : string) : bool :=
  match p with
  | EmptyString => false
  | String c _ => Ascii.eqb c "/"
  end.

(** [html.Node]: the tree that [html.Parse] returns, the children of a
    node in sibling order. *)
Inductive NodeType :=
  | ErrorNode
  | TextNode
  | DocumentNode
  | ElementNode
  | CommentNode
  | DoctypeNode.

Record Attribute := mkAttribute {
  Namespace : string;
  Key : string;
  Val : string
}.

#[warnings="-register-all"]
Inductive Node :=
  | mkNode (Type_ : NodeType) (Data : string) (Attr : list Attribute)
      (children : list Node).

Section NodeInduction.

Variable P : Node -> Prop.
Hypothesis on_node :
  forall (ty : NodeType) (data : string) (attr : list Attribute) (cs : list Node),
    Forall P cs -> P (mkNode ty data attr cs).

Fixpoint Node_ind_children (n : Node) : P n :=
  match n with
  | mkNode ty data attr cs =>
      on_node ty data attr cs
        ((fix go (cs : list Node) : Forall P cs :=
            match cs with
            | [] => @List.Forall_nil Node P
            | c :: cs' => @List.Forall_cons Node P c cs' (Node_ind_children c) (go cs')
            end) cs)
  end.

End NodeInduction.

(** The value of the first attribute named [key], or the empty string:
    [for _, a := range n.Attr { if a.Key == key { target = a.Val; break } }]. *)
Fixpoint first_attr (key : string) (attrs : list Attribute) : string :=
  match attrs with
  | [] => ""
  | x :: rest => if Key x =? key then Val x else first_attr key rest
  end.

(** The [target] that [WriteHTML] computes for an element node. *)
Definition push_target (data : string) (attr : list Attribute) : string :=
  if data =? "link" then first_attr "href" attr
  else if (data =? "img") || (data =? "script") then first_attr "src" attr
  else "".

(** The targets of the element nodes of a tree, a node before its
    children, the children in order. *)
Fixpoint element_targets (n : Node) : list string :=
  match n with
  | mkNode ty data attr cs =>
      (match ty with ElementNode => [push_target data attr] | _ => [] end)
      ++ (fix go (cs : list Node) : list string :=
            match cs with
            | [] => []
            | c :: cs' => element_targets c ++ go cs'
            end) cs
  end.

(** Values of a [map[string]interface{}]: a [template.HTML], or anything
    else. *)
Inductive Any :=
  | HTML (s : string)
  | Other (x : string).

(** What the typed writers and [Render] call outside the repository.
    [V] are the values handed to the writers, [M] the [proto.Message]s
    among them, [C] the [*http.Cookie]s. *)
Record Encoders (V M C : Type) := mkEncoders {
  json_Marshal : V -> Err + bytes;
  (** [json.MarshalIndent(v, "", "\t")] *)
  json_MarshalIndent : V -> Err + bytes;
  xml_Marshal : V -> Err + bytes;
  (** [xml.MarshalIndent(v, "", "\t")] *)
  xml_MarshalIndent : V -> Err + bytes;
  xml_Header : bytes;
  msgpack_Marshal : V -> Err + bytes;
  (** [toml.NewEncoder(buf).Encode(v)] and [buf.Bytes()] *)
  toml_Encode : V -> Err + bytes;
  (** [v.(proto.Message)] *)
  as_Message : V -> option M;
  proto_Marshal : M -> Err + bytes;
  (** [c.String()] *)
  Cookie_String : C -> string;
  (** [html.Parse(strings.NewReader(h))] *)
  html_Parse : string -> Err + Node;
  (** [a.renderer.render(&buf, t, m, req.LocalizedString)]: the error, or
      what was written to [buf] *)
  renderer_render : Request -> string -> gmap string Any -> Err + string
}.
Arguments mkEncoders {V M C} _ _ _ _ _ _ _ _ _ _ _ _.
Arguments json_Marshal {V M C} _ _.
Arguments json_MarshalIndent {V M C} _ _.
Arguments xml_Marshal {V M C} _ _.
Arguments xml_MarshalIndent {V M C} _ _.
Arguments xml_Header {V M C} _.
Arguments msgpack_Marshal {V M C} _ _.
Arguments toml_Encode {V M C} _ _.
Arguments as_Message {V M C} _ _.
Arguments proto_Marshal {V M C} _ _.
Arguments Cookie_String {V M C} _ _.
Arguments html_Parse {V M C} _ _.
Arguments renderer_render {V M C} _ _ _ _.

(** What server push depends on and [World] does not carry: the
    [AutoPushEnabled] field of [*Air], the [ProtoMajor] of the inbound
    request, and the [Push] method of the writer handed to [ServeHTTP]
    when that writer is an [http.Pusher]. *)
Record PushContext := mkPushContext {
  AutoPushEnabled : bool;
  ProtoMajor : Z;
  ohrw_Push : option (string -> option Err)
}.

(** [http.ErrNotSupported] *)
Definition ErrNotSupported : Err := "feature not supported".

(** The value of the panic of the type assertion in [WriteProtobuf]. *)
Definition not_a_Message : string :=
  "interface conversion: interface is not proto.Message".

Section Writers.

Context {A E V M C : Type}.
Variable rt : Runtime A E.
Variable a : Air A E.
Variable enc : Encoders V M C.
Variable ctx : PushContext.

Local Abbreviation World := (World A E).

(** [r.Header.Set("Content-Type", ct)] *)
Definition set_Content_Type (ct : string) (w : World) : World :=
  set_raw (fun x => with_rwHeader (Header_Set (rwHeader x) "Content-Type" ct) x) w.

(** [Response.SetCookie] *)
Definition SetCookie (c : C) (w : World) : World :=
  let v := Cookie_String enc c in
  if negb (v =? "")
  then set_raw (fun x => with_rwHeader (Header_Add (rwHeader x) "Set-Cookie" v) x) w
  else w.

(** [Response.WriteJSON] *)
Definition WriteJSON (v : V) (w : World) : Outcome * World :=
  match (if DebugMode a then json_MarshalIndent enc v else json_Marshal enc v) with
  | inl err => (Returned (Some err), w)
  | inr b => WriteBlob rt a b (set_Content_Type "application/json; charset=utf-8" w)
  end.

(** [Response.WriteXML] *)
Definition WriteXML (v : V) (w : World) : Outcome * World :=
  match (if DebugMode a then xml_MarshalIndent enc v else xml_Marshal enc v) with
  | inl err => (Returned (Some err), w)
  | inr b =>
      WriteBlob rt a (xml_Header enc ++ b)
        (set_Content_Type "application/xml; charset=utf-8" w)
  end.

(** [Response.WriteMsgpack] *)
Definition WriteMsgpack (v : V) (w : World) : Outcome * World :=
  match msgpack_Marshal enc v with
  | inl err => (Returned (Some err), w)
  | inr b => WriteBlob rt a b (set_Content_Type "application/msgpack" w)
  end.

(** [Response.WriteProtobuf]; the type assertion panics on a value that
    is no [proto.Message]. *)
Definition WriteProtobuf (v : V) (w : World) : Outcome * World :=
  match as_Message enc v with
  | None => (Panicked not_a_Message, w)
  | Some msg =>
      match proto_Marshal enc msg with
      | inl err => (Returned (Some err), w)
      | inr b => WriteBlob rt a b (set_Content_Type "application/protobuf" w)
      end
  end.

(** [Response.WriteTOML] *)
Definition WriteTOML (v : V) (w : World) : Outcome * World :=
  match toml_Encode enc v with
  | inl err => (Returned (Some err), w)
  | inr b => WriteBlob rt a b (set_Content_Type "application/toml; charset=utf-8" w)
  end.

(** [Response.Push], on the targets pushed so far. *)
Definition Response_Push (target : string) (pushed : list string)
    : option Err * list string :=
  match ohrw_Push ctx with
  | None => (Some ErrNotSupported, pushed)
  | Some push => (push target, pushed ++ [target])
  end.

(** The closure [f] of [WriteHTML]: it pushes the target of an element
    node when that is an absolute path, dropping the result of [Push],
    and goes on with the children. *)
Fixpoint push_tree (n : Node) (pushed : list string) : list string :=
  match n with
  | mkNode ty data attr cs =>
      let pushed :=
        match ty with
        | ElementNode =>
            let target := push_target data attr in
            if path_IsAbs target then snd (Response_Push target pushed) else pushed
        | _ => pushed
        end in
      (fix go (cs : list Node) (pushed : list string) : list string :=
         match cs with
         | [] => pushed
         | c :: cs' => go cs' (push_tree c pushed)
         end) cs pushed
  end.

(** [Response.WriteHTML], on the targets pushed so far. *)
Definition WriteHTML (h : string) (w : World) (pushed : list string)
    : (Outcome * World) * list string :=
  if AutoPushEnabled ctx && (ProtoMajor ctx =? 2)%Z then
    match html_Parse enc h with
    | inl err => ((Returned (Some err), w), pushed)
    | inr tree =>
        (WriteBlob rt a (bytes_of_string h)
           (set_Content_Type "text/html; charset=utf-8" w),
         push_tree tree pushed)
    end
  else
    (WriteBlob rt a (bytes_of_string h) (set_Content_Type "text/html; charset=utf-8" w),
     pushed).



End Writers.

(** A document with a style sheet, a script on another host given without
    scheme, an image with a relative source, a link without [href] and an
    anchor. *)
Definition sample_tree : Node :=
  mkNode DocumentNode "" []
    [mkNode ElementNode "html" []
       [mkNode ElementNode "head" []
          [mkNode ElementNode "link"
             [mkAttribute "" "rel" "stylesheet"; mkAttribute "" "href" "/app.css";
              mkAttribute "" "href" "/other.css"] [];
           mkNode ElementNode "script" [mkAttribute "" "src" "//cdn.example/x.js"] [];
           mkNode ElementNode "link" [mkAttribute "" "rel" "icon"] []];
        mkNode ElementNode "body" []
          [mkNode ElementNode "img" [mkAttribute "" "src" "logo.png"] [];
           mkNode TextNode "/text" [] [];
           mkNode ElementNode "a" [mkAttribute "" "href" "/next"]
             [mkNode ElementNode "img" [mkAttribute "" "src" "/arrow.png"] []]]]].

(** Encoders that fail on the value [chan], a parser that knows one
    document, a renderer that wraps what it inherits in the name of the
    template and does not know the template [missing]. *)
Definition inherited (m : gmap string Any) : string :=
  match m !! "InheritedHTML" with
  | Some (HTML s) => s
  | _ => "?"
  end.

Definition plain_enc : Encoders string string string :=
  let marshal := fun v : string =>
    if v =? "chan" then inl "unsupported type" else inr (bytes_of_string v) in
  mkEncoders marshal marshal marshal marshal (bytes_of_string "<?xml?>") marshal marshal
    (fun v => if v =? "message" then Some v else None) marshal
    (fun c => c)
    (fun h => if h =? "<bad" then inl "parse error" else inr sample_tree)
    (fun _ t m =>
       if t =? "missing" then inl "template not found"
       else inr (t +:+ "(" +:+ inherited m +:+ ")")).

(** An HTTP/2 request on a writer that can push, and one on a writer that
    cannot. *)
Definition pushing : PushContext := mkPushContext true 2 (Some (fun _ => Some "refused")).

Definition not_pushing : PushContext := mkPushContext true 2 None.

(** ** WebSocket upgrade *)

Definition StatusSwitchingProtocols : Z := 101.
Definition StatusMovedPermanently : Z := 301.

(** What [wsu.Upgrade] can do with the upgrader [WebSocket] builds: switch
    the connection, refuse the handshake (it then calls the [Error] field
    of the upgrader with a status and returns the error), or fail without
    calling [Error]. *)
Inductive UpgradeOutcome :=
  | Upgraded
  | Refused (status : Z) (err : Err)
  | Broken (err : Err).

Section WebSocketUpgrade.

Context {A E : Type}.

(** [wsu.Upgrade(r.ohrw, r.req.HTTPRequest(), r.Header)]: the outcome, and
    the writer as the call leaves it (the upgrader sets headers and may
    reply by itself). *)
Variable ws_Upgrade : HTTPRequest -> RawWriter -> UpgradeOutcome * RawWriter.

(** The first two statements of [WebSocket]: the response is marked as
    written with status 101 before the handshake. *)
Definition mark_switching (w : World A E) : World A E :=
  set_res (fun r => with_Written true (with_Status StatusSwitchingProtocols r)) w.

(** The [Error] field of the upgrader that [WebSocket] builds. *)
Definition upgrader_Error (status : Z) (w : World A E) : World A E :=
  set_res (fun r => with_Written false (with_Status status r)) w.

(** [Response.WebSocket], up to the connection it returns: [inr tt] stands
    for the [*WebSocket]. *)
Definition WebSocket (w : World A E) : (Err + unit) * World A E :=
  let w := mark_switching w in
  let (outcome, x) := ws_Upgrade (w_hreq w) (w_raw w) in
  let w := set_raw (fun _ => x) w in
  match outcome with
  | Refused status err => (inl err, upgrader_Error status w)
  | Broken err => (inl err, w)
  | Upgraded => (inr tt, w)
  end.

(** A handler that upgrades and returns the error of the upgrade. *)
Definition upgrading : Handler A E := fun w =>
  match WebSocket w with
  | (inl err, w) => (Returned (Some err), w)
  | (inr _, w) => (Returned None, w)
  end.

End WebSocketUpgrade.

(** ** More of [serve] *)

(** What [serve] reads and calls beyond [Air] and [Runtime]: the [Address]
    field of [*Air], and library functions. *)
Record ServeEnv := mkServeEnv {
  Address : string;
  strings_ToLower : string -> string;
  (** [net.ParseIP(s) != nil] *)
  net_ParseIP : string -> bool;
  tls_LoadX509KeyPair : string -> string -> Err + Certificate;
  (** [acm.GetCertificate(chi)] of the certificate manager *)
  acm_GetCertificate : ClientHelloInfo -> option Certificate * option Err
}.

(** The handler [acm.HTTPHandler] falls back to. *)
Inductive Fallback := FallbackRedirect | FallbackH2C.

(** The handler behind the host gate of the listener on port 80. *)
Inductive SecondaryHandler :=
  | Redirector
  | Challenges (fallback : Fallback).

(** What [serve] starts: the main listener, and the listener on port 80
    when there is one. *)
Record Plan := mkPlan {
  plan_Addr : string;
  plan_topology : Topology;
  plan_secondary : option (string * SecondaryHandler)
}.

(** What a request on a plain listener leads to. *)
Inductive PlainAction :=
  | Forwarded
  | MovedTo (url : string) (code : Z)
  | ConnectionClosed
  | Ignored.

Section Serve.

Context {A E : Type}.
Variable rt : Runtime A E.
Variable a : Air A E.
Variable env : ServeEnv.

(** The [GetCertificate] callback of the ACME branch of [serve]. *)
Definition GetCertificate_auto (chi : ClientHelloInfo)
    : (option Certificate * option Err) * ClientHelloInfo :=
  if negb (allowedHost rt a (ServerName chi)) then
    let '(err, conn) := Conn_Close (chi_Conn chi) in
    ((None, err), mkClientHelloInfo (ServerName chi) conn)
  else if net_ParseIP env (ServerName chi) then
    ((None, Some ("air: unchallengeable host: " +:+ ServerName chi)), chi)
  else
    let chi := mkClientHelloInfo (strings_ToLower env (ServerName chi)) (chi_Conn chi) in
    (acm_GetCertificate env chi, chi).

(** The handler [hh] of [serve], for the lower-cased [port] of the
    address: the redirect to HTTPS, or the hand-over to the h2c handler
    for a host that is an IP address.  [uri] is [r.RequestURI]. *)
Definition redirector (port : string) (r : HTTPRequest) (uri : string) : PlainAction :=
  let host := host_part rt (Host r) in
  if negb (net_ParseIP env host) then
    let host :=
      if negb (port =? "443") && negb (port =? "https")
      then host +:+ ":" +:+ port else host in
    MovedTo ("https://" +:+ host +:+ uri) StatusMovedPermanently
  else Forwarded.

(** The host gate in front of a plain handler: a request for a host that
    is not allowed has its connection hijacked and closed.  [hijackable]:
    the writer is an [http.Hijacker] and its [Hijack] yields a
    connection. *)
Definition gated (hijackable : bool) (r : HTTPRequest) (inner : PlainAction)
    : PlainAction :=
  if allowedHost rt a (Host r) then inner
  else if hijackable then ConnectionClosed
  else Ignored.

(** [server.serve], up to the listeners it starts. *)
Definition serve : Err + Plan :=
  match net_SplitHostPort rt (Address env) with
  | (_, _, Some err) => inl err
  | (host, port, None) =>
      let host := strings_ToLower env host in
      let port := strings_ToLower env port in
      let hh := HTTPSEnforced a && negb (port =? "80") && negb (port =? "https") in
      if negb (TLSCertFile a =? "") && negb (TLSKeyFile a =? "") then
        match tls_LoadX509KeyPair env (TLSCertFile a) (TLSKeyFile a) with
        | inl err => inl err
        | inr _ =>
            inr (mkPlan (host +:+ ":" +:+ port) StaticTLS
                   (if hh then Some (host +:+ ":80", Redirector) else None))
        end
      else if negb (DebugMode a) && ACMEEnabled a then
        inr (mkPlan (host +:+ ":443") AutoTLS
               (Some (host +:+ ":80",
                      Challenges (if hh then FallbackRedirect else FallbackH2C))))
      else inr (mkPlan (host +:+ ":" +:+ port) Plaintext None)
  end.

(** The deadline [shutdown] gives to [http.Server.Shutdown]: none for a
    timeout of zero or less. *)
Definition shutdown (timeout : Z) : option Z :=
  if (timeout <=? 0)%Z then None else Some timeout.

End Serve.

(** A stand-in for [net.ParseIP]: digits and dots only. *)
Fixpoint digits_and_dots (s : string) : bool :=
  match s with
  | EmptyString => true
  | String c s' =>
      (Ascii.eqb c "." || ((48 <=? nat_of_ascii c)%nat && (nat_of_ascii c <=? 57)%nat))
      && digits_and_dots s'
  end.

Definition plain_env (address : string) : ServeEnv :=
  mkServeEnv address lower
    (fun s => negb (s =? "") && digits_and_dots s)
    (fun _ _ => inr key_pair)
    (fun chi => (Some (bytes_of_string (ServerName chi)), None)).

(** An instance without key pair that enforces HTTPS and obtains its
    certificates over ACME, outside and inside debug mode. *)
Definition acme_air : Air string (list Event) :=
  mkAir false true ["example.com"] "" "" true false [] [] (route_to silent) report
    html_only.

Definition acme_debug_air : Air string (list Event) :=
  mkAir true true ["example.com"] "" "" true false [] [] (route_to silent) report
    html_only.

(** An upgrader that refuses every handshake, and one that accepts. *)
Definition refuse_upgrade (r : HTTPRequest) (x : RawWriter) : UpgradeOutcome * RawWriter :=
  (Refused 400 "websocket: not a websocket handshake", x).

Definition accept_upgrade (r : HTTPRequest) (x : RawWriter) : UpgradeOutcome * RawWriter :=
  (Upgraded, x).

(** An error handler that answers with the text of the error, and an
    instance whose handler asks for an upgrade that is refused. *)
Definition replying (err : Err) (w : World string (list Event)) : World string (list Event) :=
  snd (Response_Write (plain_rt bare_air) (Some (bytes_of_string err)) w).

Definition upgrade_air : Air string (list Event) :=
  mkAir false false [] "cert.pem" "key.pem" false false [] []
    (route_to (upgrading refuse_upgrade)) replying html_only.

(** ** [WriteFile] *)

(** An asset of the coffer: the fields [WriteFile] reads. *)
Record Asset := mkAsset {
  asset_content : bytes;
  asset_mimeType : string;
  asset_checksum : bytes;
  asset_modTime : Z
}.

(** An [io.ReadSeeker]: all of its bytes, and those from its position on. *)
Record Reader := mkReader {
  rd_all : bytes;
  rd_left : bytes
}.

(** An opened [*os.File]: its bytes, and the modification time or the
    error of [f.Stat()]. *)
Record OpenFile := mkOpenFile {
  file_bytes : bytes;
  file_Stat : Err + Z
}.

(** The URL of the inbound request, which [HTTPRequest] does not carry. *)
Record URL := mkURL {
  EscapedPath : string;
  RawQuery : string
}.

(** What [WriteFile] calls outside the response source. *)
Record FileSystem := mkFileSystem {
  filepath_Abs : string -> Err + string;
  (** [os.Stat(filename)] and [fi.IsDir()] *)
  os_Stat : string -> Err + bool;
  path_Base : string -> string;
  (** [r.Air.coffer.asset(filename)] *)
  coffer_asset : string -> Err + option Asset;
  os_Open : string -> Err + OpenFile;
  (** [mime.TypeByExtension(filepath.Ext(filename))] *)
  mime_TypeByExtension : string -> string;
  (** [io.Copy(h, c)] into a fresh SHA-256 and [h.Sum(nil)] *)
  sha256_of : bytes -> Err + bytes;
  (** [fmt.Sprintf] of the checksum in hexadecimal, between quotes *)
  quoted_hex : bytes -> string;
  (** [mt.UTC().Format(http.TimeFormat)] *)
  http_time : Z -> string
}.

(** Modelled from the spec: the helper [hasLastSlash] is missing from the
    sources; the specification speaks of a path lacking a trailing
    slash. *)
Fixpoint hasLastSlash (s : string) : bool :=
  match s with
  | EmptyString => false
  | String c EmptyString => Ascii.eqb c "/"
  | String _ s' => hasLastSlash s'
  end.

(** How far [WriteFile] gets before its last statement: an error, the
    result of the redirect for a directory, or the reader [c] and the
    response on which [r.Write(c)] is then called. *)
Inductive FileOutcome (A E : Type) :=
  | FileFailed (err : Err) (w : World A E)
  | FileRedirected (result : Outcome * World A E)
  | FileReady (c : Reader) (w : World A E).
Arguments FileFailed {A E} _ _.
Arguments FileRedirected {A E} _.
Arguments FileReady {A E} _ _.

Section Files.

Context {A E : Type}.
Variable rt : Runtime A E.
Variable fs : FileSystem.

Local Abbreviation World := (World A E).

Definition set_Header (k v : string) (w : World) : World :=
  set_raw (fun x => with_rwHeader (Header_Set (rwHeader x) k v) x) w.

(** The statements of [WriteFile] from the coffer on: the content [c], the
    type [ct], the checksum [et] ([None] for [nil]) and the time [mt],
    then the three headers.  [Get] and [Set] bring the name [ETag] to its
    canonical form, so the entry of the map is [Etag]; the two other names
    are canonical as written. *)
Definition WriteFile_serve (filename : string) (w : World) : FileOutcome A E :=
  let found :=
    match coffer_asset fs filename with
    | inl err => inl err
    | inr (Some x) =>
        inr (mkReader (asset_content x) (asset_content x), asset_mimeType x,
             Some (asset_checksum x), asset_modTime x)
    | inr None =>
        match os_Open fs filename with
        | inl err => inl err
        | inr f =>
            match file_Stat f with
            | inl err => inl err
            | inr mt => inr (mkReader (file_bytes f) (file_bytes f), "", None, mt)
            end
        end
    end in
  match found with
  | inl err => FileFailed err w
  | inr (c, ct, et, mt) =>
      let w :=
        if Header_Get (Response_Header w) "Content-Type" =? "" then
          let ct := if ct =? "" then mime_TypeByExtension fs filename else ct in
          if negb (ct =? "") then set_Header "Content-Type" ct w else w
        else w in
      let tagged :=
        if Header_Get (Response_Header w) "Etag" =? "" then
          match et with
          | Some sum => inr (c, set_Header "Etag" (quoted_hex fs sum) w)
          | None =>
              match sha256_of fs (rd_left c) with
              | inl err => inl err
              | inr sum =>
                  inr (mkReader (rd_all c) [], set_Header "Etag" (quoted_hex fs sum) w)
              end
          end
        else inr (c, w) in
      match tagged with
      | inl err => FileFailed err w
      | inr (c, w) =>
          let w :=
            if Header_Get (Response_Header w) "Last-Modified" =? ""
            then set_Header "Last-Modified" (http_time fs mt) w else w in
          FileReady c w
      end
  end.

(** [Response.WriteFile], up to its last statement; [hru] is the URL of
    the request. *)
Definition WriteFile (hru : URL) (filename : string) (w : World) : FileOutcome A E :=
  match filepath_Abs fs filename with
  | inl err => FileFailed err w
  | inr filename =>
      match os_Stat fs filename with
      | inl err => FileFailed err w
      | inr true =>
          let p := EscapedPath hru in
          if negb (hasLastSlash p) then
            let p := path_Base fs p +:+ "/" in
            let p := if negb (RawQuery hru =? "") then p +:+ "?" +:+ RawQuery hru else p in
            let w := set_res (with_Status StatusMovedPermanently) w in
            FileRedirected (Redirect rt p w)
          else WriteFile_serve (filename +:+ "index.html") w
      | inr false => WriteFile_serve filename w
      end
  end.

End Files.

(** [w'] differs from [w] at most in headers among [ks] that had no value
    in [w]: nothing was sent, nothing else was touched. *)
Definition headers_kept {A E : Type} (ks : list string) (w w' : World A E) : Prop :=
  (forall k, Header_Get (Response_Header w) k <> "" ->
     Response_Header w' !! k = Response_Header w !! k)
  /\ (forall k, k ∉ ks -> Response_Header w' !! k = Response_Header w !! k)
  /\ w_res w' = w_res w
  /\ w_req w' = w_req w
  /\ w_hreq w' = w_hreq w
  /\ w_env w' = w_env w
  /\ rwStatus (w_raw w') = rwStatus (w_raw w)
  /\ rwBody (w_raw w') = rwBody (w_raw w).

(** A file system with one directory, one cached style sheet and one page
    on disk. *)
Definition plain_fs : FileSystem :=
  mkFileSystem
    (fun name => if name =? "" then inl "empty name" else inr ("/srv/" +:+ name))
    (fun name =>
       if name =? "/srv/docs" then inr true
       else if (name =? "/srv/app.css") || (name =? "/srv/page.html") then inr false
       else inl "no such file")
    (fun p => "docs")
    (fun name =>
       if name =? "/srv/app.css"
       then inr (Some (mkAsset (bytes_of_string "body{}") "text/css"
                         (bytes_of_string "sum") 7))
       else inr None)
    (fun name =>
       if name =? "/srv/page.html"
       then inr (mkOpenFile (bytes_of_string "<p>") (inr 9%Z))
       else inl "no such file")
    (fun name => if name =? "/srv/page.html" then "text/html" else "")
    (fun b => inr (bytes_of_string "hash"))
    (fun sum => "etag")
    (fun mt => "date").

(** ** The logger ([logger.go]) *)

(** [LoggerLevel], a [uint8]. *)
Definition LoggerLevelDebug : nat := 0.
Definition LoggerLevelInfo : nat := 1.
Definition LoggerLevelWarn : nat := 2.
Definition LoggerLevelError : nat := 3.
Definition LoggerLevelFatal : nat := 4.
Definition LoggerLevelPanic : nat := 5.
Definition LoggerLevelOff : nat := 6.

(** [LoggerLevel.String] *)
Definition LoggerLevel_String (ll : nat) : string :=
  match ll with
  | 0 => "debug"
  | 1 => "info"
  | 2 => "warn"
  | 3 => "error"
  | 4 => "fatal"
  | 5 => "panic"
  | 6 => "off"
  | _ => ""
  end.

(** The values of the logged fields, a [map[string]interface{}]. *)
Inductive LogValue :=
  | LogString (s : string)
  | LogInt (z : Z)
  | LogOther (x : string).

(** What the logger reads of [*Air] beyond [DebugMode], and what it calls:
    the clock, the caller of the logging method as [fmt.Sprintf] prints
    it, and the JSON encoder. *)
Record LogEnv := mkLogEnv {
  AppName : string;
  LoggerLowestLevel : nat;
  (** [time.Now().UnixNano()] *)
  time_Now : Z;
  (** [runtime.Caller(2)], printed as [file:line] *)
  caller : string;
  log_Marshal : gmap string LogValue -> Err + bytes;
  (** [json.MarshalIndent(fs, "", "\t")] *)
  log_MarshalIndent : gmap string LogValue -> Err + bytes
}.

Definition double_quote : string := String (ascii_of_nat 34) EmptyString.
Definition line_feed : string := String (ascii_of_nat 10) EmptyString.
Definition tabulator : string := String (ascii_of_nat 9) EmptyString.

Section Logger.

Context {A E : Type}.
Variable a : Air A E.
Variable env : LogEnv.

(** [for k, v := range e { fs[k] = v }] *)
Definition assign_all (e fs : gmap string LogValue) : gmap string LogValue :=
  map_fold (fun k v fs => <[k := v]> fs) fs e.

(** The fields that [log] hands to the encoder. *)
Definition log_fields (ll : nat) (m : string) (es : list (gmap string LogValue))
    : gmap string LogValue :=
  let fs : gmap string LogValue :=
    <["message" := LogString m]>
      (<["level" := LogString (LoggerLevel_String ll)]>
         (<["time" := LogInt (time_Now env)]>
            (<["app_name" := LogString (AppName env)]> ∅))) in
  let fs := if DebugMode a then <["caller" := LogString (caller env)]> fs else fs in
  foldl (fun fs e => assign_all e fs) fs es.

(** The line written when the encoder fails with [err]. *)
Definition logger_error_line (err : Err) : bytes :=
  if DebugMode a
  then bytes_of_string
         ("{" +:+ line_feed +:+ tabulator +:+ double_quote +:+ "logger_error" +:+ double_quote
          +:+ ": " +:+ double_quote +:+ err +:+ double_quote +:+ line_feed +:+ "}")
  else bytes_of_string
         ("{" +:+ double_quote +:+ "logger_error" +:+ double_quote +:+ ":"
          +:+ double_quote +:+ err +:+ double_quote +:+ "}").

(** [logger.log], on the list [out] of the writes that [LoggerOutput]
    received so far.  The mutex has no part in a sequential run. *)
Definition log (ll : nat) (m : string) (es : list (gmap string LogValue))
    (out : list bytes) : list bytes :=
  if negb (DebugMode a) && (ll <? LoggerLowestLevel env)%nat then out
  else
    let fs := log_fields ll m es in
    let b :=
      match (if DebugMode a then log_MarshalIndent env fs else log_Marshal env fs) with
      | inr b => b
      | inl err => logger_error_line err
      end in
    out ++ [b ++ [Byte.x0a]].

End Logger.

(** A logger environment whose encoder writes the message field alone and
    fails when there is none. *)
Definition message_of (fs : gmap string LogValue) : Err + bytes :=
  match fs !! "message" with
  | Some (LogString s) => inr (bytes_of_string s)
  | _ => inl "unsupported value"
  end.

Definition plain_log (lowest : nat) : LogEnv :=
  mkLogEnv "air" lowest 0 "main.go:1" message_of message_of.

(** ** The [responseWriter] wrapper: commit and byte count *)

Section WrapperFacts.

Context {A E : Type}.
Variable cw : RawWriter -> bytes -> Z * option Err.
Variable a : Air A E.

Local Abbreviation Sink := (Sink A).

Lemma wrap64_small (z : Z) :
  (- 2 ^ 63 <= z < 2 ^ 63)%Z -> wrap64 z = z.
Proof. intros Hz. unfold wrap64. rewrite Z.mod_small; lia. Qed.

Lemma wrap64_range (z : Z) : (- 2 ^ 63 <= wrap64 z < 2 ^ 63)%Z.
Proof.
  unfold wrap64. pose proof (Z.mod_pos_bound (z + 2 ^ 63) (2 ^ 64)). lia.
Qed.

Lemma wrap64_add_l (z m : Z) : wrap64 (wrap64 z + m) = wrap64 (z + m).
Proof.
  unfold wrap64.
  replace ((z + 2 ^ 63) mod 2 ^ 64 - 2 ^ 63 + m + 2 ^ 63)%Z
    with ((z + 2 ^ 63) mod 2 ^ 64 + m)%Z by lia.
  rewrite Zplus_mod_idemp_l. do 2 f_equal. lia.
Qed.

Lemma WriteHeader_unwritten (status : Z) (k : Sink) :
  Written (fst k) = false ->
  Written (fst (rw_WriteHeader a status k)) = true
  /\ Status (fst (rw_WriteHeader a status k)) = committed_status status (fst k)
  /\ rwStatus (snd (rw_WriteHeader a status k))
     = rwStatus (snd k) ++ [committed_status status (fst k)]
  /\ ContentLength (fst (rw_WriteHeader a status k)) = ContentLength (fst k)
  /\ rwBody (snd (rw_WriteHeader a status k)) = rwBody (snd k).
Proof.
  destruct k as [r x]. simpl. intros Hw.
  unfold rw_WriteHeader, committed_status. rewrite Hw.
  assert (Hs : (if (status =? StatusOK)%Z && negb (status =? Status r)%Z
                then Status r else status)
               = (if (status =? StatusOK)%Z then Status r else status)).
  { destruct (status =? StatusOK)%Z; simpl; [|done].
    destruct (status =? Status r)%Z eqn:Heq; simpl; [|done].
    apply Z.eqb_eq in Heq. done. }
  rewrite Hs. simpl. done.
Qed.

Lemma WriteHeader_written (status : Z) (k : Sink) :
  Written (fst k) = true -> rw_WriteHeader a status k = k.
Proof. destruct k as [r x]. simpl. intros Hw. unfold rw_WriteHeader. by rewrite Hw. Qed.

Lemma Write_written (b : bytes) (k : Sink) :
  Written (fst k) = true ->
  Written (fst (snd (rw_Write cw a b k))) = true
  /\ Status (fst (snd (rw_Write cw a b k))) = Status (fst k)
  /\ rwStatus (snd (snd (rw_Write cw a b k))) = rwStatus (snd k).
Proof.
  destruct k as [r x]. simpl. intros Hw. unfold rw_Write, raw_Write. simpl.
  rewrite Hw. destruct (cw x b) as [n [e|]]; simpl; done.
Qed.

Lemma call_written (c : WriterCall) (k : Sink) :
  Written (fst k) = true ->
  Written (fst (do_call cw a c k)) = true
  /\ Status (fst (do_call cw a c k)) = Status (fst k)
  /\ rwStatus (snd (do_call cw a c k)) = rwStatus (snd k).
Proof.
  intros Hw. destruct c as [status|b]; simpl.
  - by rewrite WriteHeader_written.
  - by apply Write_written.
Qed.

Lemma calls_written (cs : list WriterCall) (k : Sink) :
  Written (fst k) = true ->
  Written (fst (do_calls cw a cs k)) = true
  /\ Status (fst (do_calls cw a cs k)) = Status (fst k)
  /\ rwStatus (snd (do_calls cw a cs k)) = rwStatus (snd k).
Proof.
  revert k. induction cs as [|c cs IH]; intros k Hw; [done|].
  unfold do_calls in *. simpl.
  destruct (call_written c k Hw) as (Hw' & Hs & Hl).
  destruct (IH _ Hw') as (? & ? & ?). split_and!; congruence.
Qed.

(** A successful [Write] adds the count of the connection to
    [ContentLength]. *)
Lemma Write_counts (b : bytes) (k k' : Sink) (n : Z) :
  rw_Write cw a b k = ((n, None), k') ->
  ContentLength (fst k') = wrap64 (ContentLength (fst k) + n)
  /\ Written (fst k') = true.
Proof.
  destruct k as [r x]. unfold rw_Write. cbn [fst].
  destruct (Written r) eqn:Hw.
  - unfold raw_Write. destruct (cw x b) as [m [e|]]; [done|].
    intros [= <- <-]. simpl. done.
  - pose proof (WriteHeader_unwritten (Status r) (r, x) Hw) as (Hw' & _ & _ & Hc & _).
    destruct (rw_WriteHeader a (Status r) (r, x)) as [r1 x1]. cbn [fst snd] in *.
    unfold raw_Write. destruct (cw x1 b) as [m [e|]]; [done|].
    intros [= <- <-]. simpl. by rewrite Hc.
Qed.

Lemma write_all_counts (bs : list bytes) (k k' : Sink) (n : Z) :
  (- 2 ^ 63 <= ContentLength (fst k) < 2 ^ 63)%Z ->
  write_all cw a bs k = Some (n, k') ->
  ContentLength (fst k') = wrap64 (ContentLength (fst k) + n).
Proof.
  revert k n. induction bs as [|b bs IH]; intros k n Hr; simpl.
  - intros [= <- <-]. by rewrite Z.add_0_r, wrap64_small.
  - destruct (rw_Write cw a b k) as [[m [e|]] k1] eqn:Hw; [done|].
    destruct (write_all cw a bs k1) as [[m' k2]|] eqn:Hrest; [|done].
    intros [= <- <-]. apply Write_counts in Hw as [Hc _].
    rewrite (IH k1 m'); [|rewrite Hc; apply wrap64_range|done].
    rewrite Hc, wrap64_add_l. f_equal. lia.
Qed.

End WrapperFacts.

(** Once [Written] is set, no call on the wrapper sets it back. *)
Lemma written_flags_stay {A E : Type} (cw : RawWriter -> bytes -> Z * option Err)
    (a : Air A E) (cs : list WriterCall) (k : Sink A) :
  Written (fst k) = true -> written_flags cw a cs k = replicate (S (length cs)) true.
Proof.
  revert k. induction cs as [|c cs IH]; intros k Hw; cbn [written_flags].
  - by rewrite Hw.
  - destruct (call_written cw a c k Hw) as (Hw' & _ & _).
    by rewrite (IH _ Hw'), Hw.
Qed.

Lemma rises_true (n : nat) : rises (replicate n true) = 0.
Proof. induction n as [|n IH]; [reflexivity|]. cbn [replicate rises]. by destruct n. Qed.

(** Every call on the wrapper leaves the response written. *)
Lemma call_commits {A E : Type} (cw : RawWriter -> bytes -> Z * option Err)
    (a : Air A E) (c : WriterCall) (k : Sink A) :
  Written (fst (do_call cw a c k)) = true.
Proof.
  destruct (Written (fst k)) eqn:Hw.
  - by destruct (call_written cw a c k Hw) as (? & _).
  - destruct c as [status|b]; cbn [do_call].
    + by destruct (WriteHeader_unwritten a status k Hw) as (? & _).
    + destruct (WriteHeader_unwritten a (Status (fst k)) k Hw) as (Hw' & _).
      unfold rw_Write. rewrite Hw.
      destruct (rw_WriteHeader a (Status (fst k)) k) as [r1 x1]. cbn [fst] in Hw'.
      unfold raw_Write. destruct (cw x1 b) as [n [e|]]; cbn [snd fst]; [done|].
      by destruct r1.
Qed.

(** C5, amended.  Through the calls on the response writer the header is
    committed at most once.  The first [WriteHeader] on an unwritten
    response sets [Written], and a second [WriteHeader] changes nothing,
    so the status of the first call stays; nor does any later sequence of
    [WriteHeader] and [Write] calls send a status again.  On that first
    commit the status sent is the one given, except that the default 200
    gives way to the status recorded on the [Response].  Along any
    sequence of such calls, from any response, [Written] goes from false
    to true at most once. *)
Theorem WriteHeader_commits_once {A E : Type}
    (cw : RawWriter -> bytes -> Z * option Err) (a : Air A E)
    (first second : Z) (later : list WriterCall) (k : Sink A) :
  (Written (fst k) = false ->
   let k1 := rw_WriteHeader a first k in
   Written (fst k1) = true
   /\ rw_WriteHeader a second k1 = k1
   /\ rwStatus (snd k1)
      = rwStatus (snd k) ++ [if (first =? 200)%Z then Status (fst k) else first]
   /\ Status (fst k1) = (if (first =? 200)%Z then Status (fst k) else first)
   /\ Written (fst (do_calls cw a later k1)) = true
   /\ Status (fst (do_calls cw a later k1)) = Status (fst k1)
   /\ rwStatus (snd (do_calls cw a later k1)) = rwStatus (snd k1))
  /\ rises (written_flags cw a later k) <= 1.
Proof.
  split.
  - intros Hw k1.
    destruct (WriteHeader_unwritten a first k Hw) as (Hw1 & Hs & Hl & _).
    split; [exact Hw1|].
    split; [by apply WriteHeader_written|].
    split; [exact Hl|].
    split; [exact Hs|].
    by apply calls_written.
  - destruct (Written (fst k)) eqn:Hw.
    + rewrite written_flags_stay, rises_true by done. lia.
    + destruct later as [|c cs]; cbn [written_flags]; rewrite Hw; [cbn; lia|].
      rewrite (written_flags_stay cw a cs _ (call_commits cw a c k)).
      change (rises (false :: replicate (S (length cs)) true))
        with (1 + rises (replicate (S (length cs)) true)).
      rewrite rises_true. lia.
Qed.

Lemma WriteHeader_commits_once_witness :
  Written (fst not_found_sink) = false
  /\ rw_WriteHeader bare_air 500 (rw_WriteHeader bare_air 200 not_found_sink)
     = rw_WriteHeader bare_air 200 not_found_sink
  /\ rwStatus (snd (rw_WriteHeader bare_air 200 not_found_sink)) = [404%Z]
  /\ written_flags conn_ok bare_air
       [CallWriteHeader 200; CallWrite (bytes_of_string "gone"); CallWriteHeader 500]
       not_found_sink
     = [false; true; true; true].
Proof.
  split; [reflexivity|].
  destruct (WriteHeader_commits_once conn_ok bare_air 200 500 [] not_found_sink)
    as [Hfirst _].
  destruct (Hfirst eq_refl) as (_ & Hsecond & Hsent & _).
  split; [exact Hsecond|]. split; [exact Hsent|]. reflexivity.
Defined.

(** The statement of C5 fails for a lifecycle with a WebSocket upgrade
    that is refused: [WebSocket] marks the response as written before the
    handshake, the [Error] callback of the upgrader takes the mark away,
    and the reply to the error commits the header: [Written] goes from
    false to true twice. *)
Lemma refused_upgrade_commits_again :
  let marked := mark_switching first_world in
  let refused := snd (WebSocket refuse_upgrade first_world) in
  let replied := rw_WriteHeader bare_air (Status (w_res refused)) (sink_of refused) in
  let served :=
    snd (snd (ServeHTTP (plain_rt upgrade_air) upgrade_air empty_server fresh_writer
                get_request [])) in
  WebSocket refuse_upgrade first_world
  = (inl "websocket: not a websocket handshake", upgrader_Error 400 marked)
  /\ [Written (w_res first_world); Written (w_res marked); Written (w_res refused);
      Written (fst replied)]
     = [false; true; false; true]
  /\ rwStatus (snd replied) = [400%Z]
  /\ ~ rises [Written (w_res first_world); Written (w_res marked);
              Written (w_res refused); Written (fst replied)] <= 1
  /\ chain (plain_rt upgrade_air) upgrade_air first_world
     = (Returned (Some "websocket: not a websocket handshake"),
        emit Routed (upgrader_Error 400 marked))
  /\ Written (w_res served) = true
  /\ rwStatus (w_raw served) = [400%Z].
Proof.
  cbv zeta. split; [reflexivity|]. split; [reflexivity|]. split; [reflexivity|].
  split; [vm_compute; lia|]. split; [reflexivity|]. split; reflexivity.
Qed.

(** C4.  What the code does with the byte count: [ServeHTTP] resets
    [ContentLength] to -1 and every successful [Write] adds its count, so
    after body writes totalling [n] bytes the field holds [n - 1] (in
    [int64] arithmetic), never [n]. *)
Theorem ContentLength_one_short {A E : Type}
    (cw : RawWriter -> bytes -> Z * option Err) (a : Air A E)
    (rq : Request) (rs : Response A) (rw : RawWriter)
    (bs : list bytes) (n : Z) (k' : Sink A) :
  write_all cw a bs (reset_response rq rs, rw) = Some (n, k') ->
  ContentLength (fst k') = wrap64 (n - 1)
  /\ ContentLength (fst k') <> n
  /\ ((- 2 ^ 63 < n <= 2 ^ 63)%Z -> ContentLength (fst k') = (n - 1)%Z).
Proof.
  intros Hall.
  apply write_all_counts in Hall; [|simpl; lia].
  simpl in Hall. replace (-1 + n)%Z with (n - 1)%Z in Hall by lia.
  split; [exact Hall|]. split.
  - rewrite Hall. unfold wrap64.
    pose proof (Z.mod_pos_bound (n - 1 + 2 ^ 63) (2 ^ 64)) as Hb.
    intros Heq.
    assert (Hn : (((n - 1 + 2 ^ 63) mod 2 ^ 64) = n + 2 ^ 63)%Z) by lia.
    destruct (Z_lt_le_dec (n - 1 + 2 ^ 63) 0) as [Hneg|Hpos].
    + assert (n = - 2 ^ 63)%Z by lia. subst n. vm_compute in Hn. discriminate.
    + rewrite Z.mod_small in Hn; lia.
  - intros Hr. rewrite Hall. apply wrap64_small. lia.
Qed.

Lemma ContentLength_one_short_witness :
  write_all conn_ok bare_air [bytes_of_string "hello"] (sink_of first_world)
  = Some (5%Z, snd (rw_Write conn_ok bare_air (bytes_of_string "hello") (sink_of first_world)))
  /\ ContentLength
       (fst (snd (rw_Write conn_ok bare_air (bytes_of_string "hello") (sink_of first_world))))
     = 4%Z.
Proof.
  split; [reflexivity|].
  destruct (ContentLength_one_short conn_ok bare_air (new_Request 0) (new_Response 1)
              fresh_writer [bytes_of_string "hello"] 5
              (snd (rw_Write conn_ok bare_air (bytes_of_string "hello")
                      (sink_of first_world))) eq_refl) as (_ & _ & Hn).
  apply Hn. lia.
Defined.

(** C10.  [Redirect] replaces a status below 300 or from 400 on with 302
    in the [Status] field and hands that status to [http.Redirect]; a
    status from 300 to 399 is handed on as it is. *)
Theorem Redirect_status {A E : Type} (rt : Runtime A E) (url : string) (w : World A E) :
  ((Status (w_res w) < 300 \/ 400 <= Status (w_res w))%Z ->
     Redirect rt url w
     = (Returned None,
        set_sink
          (http_Redirect rt url 302 (w_hreq w) (with_Status 302 (w_res w), w_raw w)) w))
  /\ ((300 <= Status (w_res w) < 400)%Z ->
     Redirect rt url w
     = (Returned None,
        set_sink (http_Redirect rt url (Status (w_res w)) (w_hreq w) (sink_of w)) w)).
Proof.
  unfold Redirect, StatusMultipleChoices, StatusBadRequest, StatusFound. split.
  - intros Hs.
    assert (Hb : (Status (w_res w) <? 300)%Z || (400 <=? Status (w_res w))%Z = true).
    { apply orb_true_iff. destruct Hs; [left; lia | right; lia]. }
    rewrite Hb. reflexivity.
  - intros Hs.
    assert (Hb : (Status (w_res w) <? 300)%Z || (400 <=? Status (w_res w))%Z = false).
    { apply orb_false_iff. split; lia. }
    rewrite Hb. reflexivity.
Qed.

Lemma Redirect_status_witness :
  (Status (w_res first_world) < 300 \/ 400 <= Status (w_res first_world))%Z
  /\ Status (w_res (snd (Redirect (plain_rt bare_air) "/login" first_world))) = 302%Z
  /\ rwStatus (w_raw (snd (Redirect (plain_rt bare_air) "/login" first_world))) = [302%Z]
  /\ (300 <= Status (w_res moved_world) < 400)%Z
  /\ Status (w_res (snd (Redirect (plain_rt bare_air) "docs/" moved_world))) = 301%Z
  /\ rwStatus (w_raw (snd (Redirect (plain_rt bare_air) "docs/" moved_world))) = [301%Z].
Proof.
  split; [left; reflexivity|].
  destruct (Redirect_status (plain_rt bare_air) "/login" first_world) as [Hdefault _].
  rewrite Hdefault; [|left; reflexivity].
  split; [reflexivity|]. split; [reflexivity|].
  assert (Hmoved : (300 <= Status (w_res moved_world) < 400)%Z) by (cbn; lia).
  split; [exact Hmoved|].
  destruct (Redirect_status (plain_rt bare_air) "docs/" moved_world) as [_ Hkept].
  rewrite (Hkept Hmoved). split; reflexivity.
Defined.

(** ** The chain *)

Section ChainFacts.

Context {A E : Type}.
Variable rt : Runtime A E.
Variable a : Air A E.

Local Abbreviation World := (World A E).
Local Abbreviation Handler := (Handler A E).
Local Abbreviation Gas := (Gas A E).

Lemma wrap_from_foldr (gs : list Gas) (n : nat) (h : Handler) :
  n <= length gs ->
  wrap_from gs n h = foldr (fun g acc => g acc) h (take n gs).
Proof.
  revert h. induction n as [|i IH]; intros h Hn; cbn [wrap_from].
  - by rewrite take_0.
  - destruct (lookup_lt_is_Some_2 gs i) as [g Hg]; [lia|].
    rewrite Hg, IH by lia.
    rewrite (take_S_r gs i g Hg), foldr_app. reflexivity.
Qed.

(** The loop puts [gs[0]] outermost and [gs[last]] next to [h]. *)
Lemma wrap_all_foldr (gs : list Gas) (h : Handler) :
  wrap_all gs h = foldr (fun g acc => g acc) h gs.
Proof.
  unfold wrap_all. rewrite wrap_from_foldr by lia. by rewrite firstn_all.
Qed.

Lemma wrap_all_stages (sts : list (Stage A E)) (h : Handler) (w : World) :
  wrap_all (gas_of <$> sts) h w = unwind sts (h (descend sts w)).
Proof.
  rewrite wrap_all_foldr. revert w.
  induction sts as [|st sts IH]; intros w; [reflexivity|].
  simpl. unfold gas_of at 1. rewrite IH. reflexivity.
Qed.

(** A panic passes through the stages: none of them gets to its code
    behind the call. *)
Lemma unwind_panic (sts : list (Stage A E)) (v : string) (w : World) :
  unwind sts (Panicked v, w) = (Panicked v, w).
Proof. induction sts as [|st sts IH]; [reflexivity|]. simpl. by rewrite IH. Qed.

(** The closure around a routed handler that returned [nil] and left the
    response unwritten: status 204, the two [Del] calls on the header of
    the inbound request, and [Write] with a nil content. *)
Lemma finalize_nil (rh : Handler) (w w1 : World) :
  rh w = (Returned None, w1) ->
  Written (w_res w1) = false ->
  finalize rt rh w
  = Response_Write rt None
      (mkWorld
         (with_hrHeader
            (Header_Del (Header_Del (hrHeader (w_hreq w1)) "Content-Type") "Content-Length")
            (w_hreq w1))
         (w_req w1) (with_Status 204 (w_res w1)) (w_raw w1) (w_env w1)).
Proof.
  intros Hrh Hw. unfold finalize. rewrite Hrh, Hw. by destruct w1.
Qed.

(** [Write] with a nil content on an unwritten response is the call of
    [http.ServeContent] with that content. *)
Lemma Write_nil_unwritten (w : World) :
  Written (w_res w) = false ->
  Response_Write rt None w
  = (let '(r, k) :=
       http_ServeContent_nil rt (Header_Get (Response_Header w) "Last-Modified")
         (w_hreq w) (sink_of w) in
     (match r with Returned _ => Returned None | Panicked v => Panicked v end,
      set_sink k w)).
Proof.
  intros Hw. unfold Response_Write. rewrite Hw.
  by destruct (http_ServeContent_nil _ _ _ _) as [[[]|v] k].
Qed.

End ChainFacts.

(** C3.  What the code does.  The chain nests the gases in list order:
    [Pregases[0]] is the outermost wrapper of the whole chain and, behind
    the router, [Gases[0]] the outermost and [Gases[last]] the innermost
    wrapper of the closure around the routed handler.  Hence, when every
    gas is a stage that calls its inner handler, a request goes in
    through [P[0]], ..., [P[last]], the route resolution, [G[0]], ...,
    [G[last]] and the routed handler.  It comes back out in the reverse
    order when the closure around the handler returns.  When that closure
    panics, no stage gets to its code behind the call; and the closure
    does panic for a handler that returns [nil] without writing, when
    [http.ServeContent] dereferences the nil content of the empty
    write. *)
Theorem chain_order {A E : Type} (rt : Runtime A E) (a : Air A E)
    (P G : list (Stage A E)) (w : World A E) :
  chain rt a = foldr (fun g h => g h) (routed rt a) (Pregases a)
  /\ routed rt a w
     = (let '(rh, w1) := router_route a w in
        foldr (fun g h => g h) (finalize rt rh) (Gases a) w1)
  /\ (Pregases a = gas_of <$> P ->
      Gases a = gas_of <$> G ->
      chain rt a w
      = unwind P
          (let '(rh, w1) := router_route a (descend P w) in
           unwind G (finalize rt rh (descend G w1)))
      /\ (forall rh w1 err w2,
            router_route a (descend P w) = (rh, w1) ->
            finalize rt rh (descend G w1) = (Returned err, w2) ->
            chain rt a w
            = foldr (leave (A := A) (E := E)) (Returned err, w2) (P ++ G))
      /\ (forall rh w1 v w2,
            router_route a (descend P w) = (rh, w1) ->
            finalize rt rh (descend G w1) = (Panicked v, w2) ->
            chain rt a w = (Panicked v, w2))
      /\ (forall rh w1 w2 v k,
            router_route a (descend P w) = (rh, w1) ->
            rh (descend G w1) = (Returned None, w2) ->
            Written (w_res w2) = false ->
            http_ServeContent_nil rt (Header_Get (Response_Header w2) "Last-Modified")
              (with_hrHeader
                 (Header_Del (Header_Del (hrHeader (w_hreq w2)) "Content-Type")
                    "Content-Length") (w_hreq w2))
              (with_Status 204 (w_res w2), w_raw w2)
            = (Panicked v, k) ->
            chain rt a w
            = (Panicked v,
               mkWorld
                 (with_hrHeader
                    (Header_Del (Header_Del (hrHeader (w_hreq w2)) "Content-Type")
                       "Content-Length") (w_hreq w2))
                 (w_req w2) (fst k) (snd k) (w_env w2)))).
Proof.
  split; [apply wrap_all_foldr|]. split.
  - unfold routed. destruct (router_route a w) as [rh w1]. by rewrite wrap_all_foldr.
  - intros HP HG.
    assert (Hchain : chain rt a w
              = unwind P
                  (let '(rh, w1) := router_route a (descend P w) in
                   unwind G (finalize rt rh (descend G w1)))).
    { unfold chain. rewrite HP, wrap_all_stages. f_equal.
      unfold routed. destruct (router_route a (descend P w)) as [rh w1].
      by rewrite HG, wrap_all_stages. }
    split; [exact Hchain|]. split; [|split].
    + intros rh w1 err w2 Hroute Hfin. rewrite Hchain, Hroute, Hfin.
      unfold unwind. by rewrite foldr_app.
    + intros rh w1 v w2 Hroute Hfin. rewrite Hchain, Hroute, Hfin.
      by rewrite !unwind_panic.
    + intros rh w1 w2 v k Hroute Hrh Hw Hnil. rewrite Hchain, Hroute.
      rewrite (finalize_nil rt rh _ w2 Hrh Hw), Write_nil_unwritten by done.
      unfold Response_Header, sink_of in *. cbn [w_raw w_hreq w_res] in *.
      by rewrite Hnil, !unwind_panic.
Qed.

Lemma chain_order_witness :
  Pregases (staged greeting) = gas_of <$> [recording "p0"; recording "p1"]
  /\ Gases (staged greeting) = gas_of <$> [recording "g0"; recording "g1"]
  /\ fst (chain (plain_rt (staged greeting)) (staged greeting) first_world) = Returned None
  /\ w_env (snd (chain (plain_rt (staged greeting)) (staged greeting) first_world))
     = [Enter "p0"; Enter "p1"; Routed; Enter "g0"; Enter "g1"; Handled;
        Leave "g1"; Leave "g0"; Leave "p1"; Leave "p0"]
  /\ Pregases (staged silent) = gas_of <$> [recording "p0"; recording "p1"]
  /\ Gases (staged silent) = gas_of <$> [recording "g0"; recording "g1"]
  /\ fst (chain (plain_rt (staged silent)) (staged silent) first_world)
     = Panicked nil_dereference
  /\ w_env (snd (chain (plain_rt (staged silent)) (staged silent) first_world))
     = [Enter "p0"; Enter "p1"; Routed; Enter "g0"; Enter "g1"; Handled].
Proof.
  split; [reflexivity|]. split; [reflexivity|].
  destruct (chain_order (plain_rt (staged greeting)) (staged greeting)
              [recording "p0"; recording "p1"] [recording "g0"; recording "g1"]
              first_world) as (_ & _ & Hgreeting).
  destruct (Hgreeting eq_refl eq_refl) as (Horder & _).
  rewrite Horder. split; [reflexivity|]. split; [reflexivity|].
  split; [reflexivity|]. split; [reflexivity|].
  destruct (chain_order (plain_rt (staged silent)) (staged silent)
              [recording "p0"; recording "p1"] [recording "g0"; recording "g1"]
              first_world) as (_ & _ & Hsilent).
  destruct (Hsilent eq_refl eq_refl) as (_ & _ & _ & Hpanic).
  rewrite (Hpanic silent _ _ nil_dereference _ eq_refl eq_refl eq_refl eq_refl).
  split; reflexivity.
Defined.

(** ** The deferred functions *)

Section DeferredFacts.

Context {A E : Type}.
Variable rt : Runtime A E.

Local Abbreviation World := (World A E).

(** Closures may register further functions, they do not take any away. *)
Hypothesis call_keeps :
  forall (f : A) (w : World), deferred w `prefix_of` deferred (call rt f w).

(** Calling the closures of [fs] one after the other. *)
Lemma run_deferred_from_reverse (n : nat) (w : World) :
  n <= length (deferred w) ->
  run_deferred_from rt n w
  = (Returned tt, foldl (fun w f => call rt f w) w (reverse (take n (deferred w)))).
Proof.
  revert w. induction n as [|i IH]; intros w Hn; cbn [run_deferred_from].
  - by rewrite take_0.
  - destruct (lookup_lt_is_Some_2 (deferred w) i) as [f Hf]; [lia|].
    unfold deferred in Hf. rewrite Hf. fold (deferred w) in Hf.
    destruct (call_keeps f w) as [more Hmore].
    rewrite IH by (rewrite Hmore, length_app; lia).
    rewrite Hmore, take_app_le by lia.
    rewrite (take_S_r _ i f Hf), reverse_snoc. reflexivity.
Qed.

Lemma run_deferred_reverse (w : World) :
  run_deferred rt w
  = (Returned tt, foldl (fun w f => call rt f w) w (reverse (deferred w))).
Proof.
  unfold run_deferred, len. rewrite run_deferred_from_reverse by done.
  by rewrite firstn_all.
Qed.

End DeferredFacts.

(** C6.  What the code does.  The deferred list is empty when the chain
    starts and each registration appends to it.  When the chain returns,
    [ServeHTTP] calls the [ErrorHandler] if the chain returned an error,
    and then the deferred functions registered by then one after the
    other, the last registered first, each exactly once.  But the loop
    that calls them is ordinary code behind the chain, no [defer]: when
    the chain panics, [ServeHTTP] ends there, no deferred function is
    called and the request and the response are not put back.  The chain
    does panic for a handler that registers functions, writes nothing and
    returns [nil], when [http.ServeContent] dereferences the nil content
    of the empty write. *)
Theorem deferred_run_in_reverse {A E : Type} (rt : Runtime A E) (a : Air A E)
    (s : server) (rw : RawWriter) (r : HTTPRequest) (e : E) :
  (forall (f : A) (w : World A E), deferred w `prefix_of` deferred (call rt f w)) ->
  let start := snd (acquire s rw r e) in
  deferred start = []
  /\ (forall (f : A) (w : World A E), deferred (Defer f w) = deferred w ++ [f])
  /\ (forall (err : option Err) (w : World A E),
        chain rt a start = (Returned err, w) ->
        let handled := match err with Some e' => ErrorHandler a e' w | None => w end in
        let finished :=
          foldl (fun w f => call rt f w) handled (reverse (deferred handled)) in
        ServeHTTP rt a s rw r e
        = (Returned tt,
           (pools_Put (w_req finished) (w_res finished) (fst (acquire s rw r e)),
            finished)))
  /\ (forall (v : string) (w : World A E),
        chain rt a start = (Panicked v, w) ->
        ServeHTTP rt a s rw r e = (Panicked v, (fst (acquire s rw r e), w)))
  /\ (forall (rh : Handler A E) (w0 w1 : World A E) (v : string) (k : Sink A),
        Pregases a = [] ->
        Gases a = [] ->
        router_route a start = (rh, w0) ->
        rh w0 = (Returned None, w1) ->
        Written (w_res w1) = false ->
        http_ServeContent_nil rt (Header_Get (Response_Header w1) "Last-Modified")
          (with_hrHeader
             (Header_Del (Header_Del (hrHeader (w_hreq w1)) "Content-Type")
                "Content-Length") (w_hreq w1))
          (with_Status 204 (w_res w1), w_raw w1)
        = (Panicked v, k) ->
        ServeHTTP rt a s rw r e
        = (Panicked v,
           (fst (acquire s rw r e),
            mkWorld
              (with_hrHeader
                 (Header_Del (Header_Del (hrHeader (w_hreq w1)) "Content-Type")
                    "Content-Length") (w_hreq w1))
              (w_req w1) (fst k) (snd k) (w_env w1)))).
Proof.
  intros Hkeep start.
  split.
  { subst start. unfold acquire. destruct (requestPool_Get s) as [rq s1].
    by destruct (responsePool_Get s1) as [rs s2]. }
  split; [reflexivity|].
  assert (Hpanic : forall (v : string) (w : World A E),
            chain rt a start = (Panicked v, w) ->
            ServeHTTP rt a s rw r e = (Panicked v, (fst (acquire s rw r e), w))).
  { intros v w Hchain. subst start. unfold ServeHTTP, execute.
    destruct (acquire s rw r e) as [s1 w0]. cbn [fst snd] in *. by rewrite Hchain. }
  split; [|split; [exact Hpanic|]].
  - intros err w Hchain handled finished. subst start. unfold ServeHTTP, execute.
    destruct (acquire s rw r e) as [s1 w0]. cbn [fst snd] in *. rewrite Hchain.
    destruct err as [e'|]; by rewrite (run_deferred_reverse rt Hkeep).
  - intros rh w0 w1 v k HP HG Hroute Hrh Hw Hnil.
    apply Hpanic. unfold chain, routed. rewrite HP. cbn [wrap_all length wrap_from].
    rewrite Hroute, HG. cbn [wrap_all length wrap_from].
    rewrite (finalize_nil rt rh w0 w1 Hrh Hw), Write_nil_unwritten by done.
    unfold Response_Header, sink_of in *. cbn [w_raw w_hreq w_res] in *.
    by rewrite Hnil.
Qed.

Lemma deferred_run_in_reverse_witness :
  (forall (f : string) (w : World string (list Event)),
     deferred w `prefix_of` deferred (call (plain_rt deferring_air) f w))
  /\ deferred (snd (chain (plain_rt deferring_air) deferring_air first_world))
     = ["a"; "b"; "c"]
  /\ fst (ServeHTTP (plain_rt deferring_air) deferring_air empty_server fresh_writer
            get_request [])
     = Returned tt
  /\ w_env (snd (snd (ServeHTTP (plain_rt deferring_air) deferring_air empty_server
                        fresh_writer get_request [])))
     = [Routed; Reported "boom" 500; Ran "c"; Ran "b"; Ran "a"]
  /\ (forall (f : string) (w : World string (list Event)),
        deferred w `prefix_of` deferred (call (plain_rt quiet_air) f w))
  /\ fst (ServeHTTP (plain_rt quiet_air) quiet_air empty_server fresh_writer
            get_request [])
     = Panicked nil_dereference
  /\ fst (snd (ServeHTTP (plain_rt quiet_air) quiet_air empty_server fresh_writer
                 get_request []))
     = mkServer [] [] 2
  /\ deferred (snd (snd (ServeHTTP (plain_rt quiet_air) quiet_air empty_server
                           fresh_writer get_request [])))
     = ["a"; "b"; "c"]
  /\ w_env (snd (snd (ServeHTTP (plain_rt quiet_air) quiet_air empty_server
                        fresh_writer get_request [])))
     = [Routed].
Proof.
  assert (Hkeep : forall (a : Air string (list Event)) (f : string)
            (w : World string (list Event)),
            deferred w `prefix_of` deferred (call (plain_rt a) f w)).
  { intros a f w. exists []. by rewrite app_nil_r. }
  split; [exact (Hkeep deferring_air)|]. split; [reflexivity|].
  destruct (deferred_run_in_reverse (plain_rt deferring_air) deferring_air
              empty_server fresh_writer get_request [] (Hkeep deferring_air))
    as (_ & _ & Hreturned & _).
  rewrite (Hreturned (Some "boom") _ eq_refl).
  split; [reflexivity|]. split; [reflexivity|].
  split; [exact (Hkeep quiet_air)|].
  destruct (deferred_run_in_reverse (plain_rt quiet_air) quiet_air
              empty_server fresh_writer get_request [] (Hkeep quiet_air))
    as (_ & _ & _ & Hpanicked & _).
  rewrite (Hpanicked nil_dereference _ eq_refl).
  split; [reflexivity|]. split; [reflexivity|]. split; reflexivity.
Defined.

(** ** Errors *)

(** What [finalize] does with an error of the routed handler. *)
Lemma finalize_error {A E : Type} (rt : Runtime A E) (rh : Handler A E)
    (w w1 : World A E) (err : Err) :
  rh w = (Returned (Some err), w1) ->
  Written (w_res w1) = false ->
  finalize rt rh w
  = (Returned (Some err),
     if (Status (w_res w1) <? 400)%Z then set_res (with_Status 500) w1 else w1).
Proof.
  intros Hrh Hw. unfold finalize. rewrite Hrh, Hw.
  unfold StatusBadRequest, StatusInternalServerError.
  by destruct (Status (w_res w1) <? 400)%Z.
Qed.

(** C7.  What the code does.  When the routed handler returns an error
    and the response is unwritten, the closure around it raises the
    status to 500 unless the status is 400 or more already; and every
    error the chain returns to [ServeHTTP] is handed to the
    [ErrorHandler], with the request and the response as the chain left
    them.  The raise is made in that closure only: the error of a gas
    that returns without calling its inner handler, before or behind the
    router, reaches the [ErrorHandler] with the response as the gas left
    it, the status not raised. *)
Theorem routed_error_escalated {A E : Type} (rt : Runtime A E) (a : Air A E)
    (rh r : Handler A E) (rest : list (Gas A E)) (w w1 w2 : World A E) (err : Err) :
  (rh w = (Returned (Some err), w1) ->
   Written (w_res w1) = false ->
   fst (finalize rt rh w) = Returned (Some err)
   /\ Status (w_res (snd (finalize rt rh w)))
      = (if (Status (w_res w1) <? 400)%Z then 500%Z else Status (w_res w1))
   /\ (400 <= Status (w_res (snd (finalize rt rh w))))%Z
   /\ Written (w_res (snd (finalize rt rh w))) = false
   /\ sink_of (snd (finalize rt rh w))
      = (with_Status (Status (w_res (snd (finalize rt rh w)))) (w_res w1), w_raw w1)
   /\ w_req (snd (finalize rt rh w)) = w_req w1
   /\ w_hreq (snd (finalize rt rh w)) = w_hreq w1
   /\ w_env (snd (finalize rt rh w)) = w_env w1)
  /\ (chain rt a w = (Returned (Some err), w2) ->
      execute rt a w = (Returned tt, ErrorHandler a err w2))
  /\ (Pregases a = short_circuit r :: rest ->
      r w = (Returned (Some err), w1) ->
      chain rt a w = (Returned (Some err), w1)
      /\ execute rt a w = (Returned tt, ErrorHandler a err w1))
  /\ (Pregases a = [] ->
      Gases a = short_circuit r :: rest ->
      r (snd (router_route a w)) = (Returned (Some err), w1) ->
      chain rt a w = (Returned (Some err), w1)
      /\ execute rt a w = (Returned tt, ErrorHandler a err w1)).
Proof.
  assert (Hhanded : forall w3, chain rt a w = (Returned (Some err), w3) ->
            execute rt a w = (Returned tt, ErrorHandler a err w3)).
  { intros w3 Hchain. unfold execute. by rewrite Hchain. }
  split; [|split; [apply Hhanded|split]].
  - intros Hrh Hw. rewrite (finalize_error rt rh w w1 err Hrh Hw). cbn [fst snd].
    destruct (Status (w_res w1) <? 400)%Z eqn:Hlow.
    + destruct w1 as [hr rq rs x e]. simpl in *. split_and!; try done.
    + destruct w1 as [hr rq rs x e]. destruct rs. simpl in *.
      split_and!; try done. lia.
  - intros HP Hr.
    assert (Hchain : chain rt a w = (Returned (Some err), w1)).
    { unfold chain. rewrite HP, wrap_all_foldr. exact Hr. }
    split; [exact Hchain | by apply Hhanded].
  - intros HP HG Hr.
    assert (Hchain : chain rt a w = (Returned (Some err), w1)).
    { unfold chain. rewrite HP. cbn [wrap_all length wrap_from].
      unfold routed. destruct (router_route a w) as [rh0 w0].
      rewrite HG, wrap_all_foldr. exact Hr. }
    split; [exact Hchain | by apply Hhanded].
Qed.

Lemma routed_error_escalated_witness :
  deferring first_world
  = (Returned (Some "boom"), Defer "c" (Defer "b" (Defer "a" first_world)))
  /\ Written (w_res (Defer "c" (Defer "b" (Defer "a" first_world)))) = false
  /\ Status (w_res (snd (finalize (plain_rt deferring_air) deferring first_world))) = 500%Z
  /\ Pregases refusing_early
     = [short_circuit (fun w => (Returned (Some "denied"), w))]
  /\ Written (w_res first_world) = false
  /\ Status (w_res first_world) = 200%Z
  /\ execute (plain_rt refusing_early) refusing_early first_world
     = (Returned tt, report "denied" first_world)
  /\ w_env (report "denied" first_world) = [Reported "denied" 200]
  /\ Gases refusing_late = [short_circuit (fun w => (Returned (Some "denied"), w))]
  /\ w_env (snd (execute (plain_rt refusing_late) refusing_late first_world))
     = [Routed; Reported "denied" 200].
Proof.
  split; [reflexivity|]. split; [reflexivity|].
  destruct (routed_error_escalated (plain_rt deferring_air) deferring_air deferring
              silent [] first_world (Defer "c" (Defer "b" (Defer "a" first_world)))
              first_world "boom") as (Hrouted & _).
  destruct (Hrouted eq_refl eq_refl) as (_ & Hstatus & _).
  split; [exact Hstatus|]. split; [reflexivity|].
  split; [reflexivity|]. split; [reflexivity|].
  destruct (routed_error_escalated (plain_rt refusing_early) refusing_early silent
              (fun w => (Returned (Some "denied"), w)) [] first_world first_world
              first_world "denied") as (_ & _ & Hearly & _).
  destruct (Hearly eq_refl eq_refl) as [_ Hexec].
  split; [exact Hexec|]. split; [reflexivity|]. split; [reflexivity|].
  destruct (routed_error_escalated (plain_rt refusing_late) refusing_late silent
              (fun w => (Returned (Some "denied"), w)) [] first_world
              (emit Routed first_world) first_world "denied") as (_ & _ & _ & Hlate).
  destruct (Hlate eq_refl eq_refl eq_refl) as [_ Hexec'].
  rewrite Hexec'. reflexivity.
Defined.

(** ** The empty reply *)

(** C1.  What the code does for a routed handler that returns [nil] and
    leaves the response unwritten: the status becomes 204, but the two
    [Del] calls are made on the header of the inbound request [r]; the
    [Content-Type] and [Content-Length] of the response are still in its
    header map when the empty write is made.  That write hands a nil
    content to [http.ServeContent]: the closure returns [nil] when the
    preconditions of the request end the reply there, and panics when the
    library gets to the content. *)
Theorem no_content_keeps_response_header {A E : Type} (rt : Runtime A E)
    (rh : Handler A E) (w w1 : World A E) :
  rh w = (Returned None, w1) ->
  Written (w_res w1) = false ->
  let stripped :=
    Header_Del (Header_Del (hrHeader (w_hreq w1)) "Content-Type") "Content-Length" in
  let w2 :=
    mkWorld (with_hrHeader stripped (w_hreq w1)) (w_req w1)
      (with_Status 204 (w_res w1)) (w_raw w1) (w_env w1) in
  let served :=
    http_ServeContent_nil rt (Header_Get (Response_Header w1) "Last-Modified")
      (w_hreq w2) (with_Status 204 (w_res w1), w_raw w1) in
  finalize rt rh w = Response_Write rt None w2
  /\ Status (w_res w2) = 204%Z
  /\ Response_Header w2 = Response_Header w1
  /\ (forall k, served = (Returned tt, k) ->
        finalize rt rh w = (Returned None, set_sink k w2))
  /\ (forall v k, served = (Panicked v, k) ->
        finalize rt rh w = (Panicked v, set_sink k w2)).
Proof.
  intros Hrh Hw stripped w2 served.
  assert (Hfin : finalize rt rh w = Response_Write rt None w2)
    by (by apply finalize_nil).
  split; [exact Hfin|]. split; [reflexivity|]. split; [reflexivity|].
  assert (Hw2 : Written (w_res w2) = false) by (subst w2; by destruct w1 as [? ? []]).
  rewrite Hfin, (Write_nil_unwritten rt w2 Hw2).
  change (http_ServeContent_nil rt (Header_Get (Response_Header w2) "Last-Modified")
            (w_hreq w2) (sink_of w2)) with served.
  split; [intros k -> | intros v k ->]; reflexivity.
Qed.

Lemma no_content_keeps_response_header_witness :
  announcing (emit Routed first_world)
  = (Returned None, snd (announcing (emit Routed first_world)))
  /\ Written (w_res (snd (announcing (emit Routed first_world)))) = false
  /\ (let w := snd (chain (plain_rt announcing_air) announcing_air first_world) in
      fst (chain (plain_rt announcing_air) announcing_air first_world)
      = Panicked nil_dereference
      /\ Status (w_res w) = 204%Z
      /\ rwStatus (w_raw w) = []
      /\ Response_Header w !! "Content-Type" = Some ["text/plain"]
      /\ Response_Header w !! "Content-Length" = Some ["5"]).
Proof.
  split; [reflexivity|]. split; [reflexivity|].
  assert (Hchain : chain (plain_rt announcing_air) announcing_air first_world
                   = finalize (plain_rt announcing_air) announcing (emit Routed first_world))
    by reflexivity.
  destruct (no_content_keeps_response_header (plain_rt announcing_air) announcing
              (emit Routed first_world) (snd (announcing (emit Routed first_world)))
              eq_refl eq_refl) as (_ & _ & _ & _ & Hfin).
  cbv zeta. rewrite Hchain, (Hfin nil_dereference _ eq_refl). split_and!; reflexivity.
Defined.

(** ** The blob path *)


(** The exported [Minify] of [minifier.go] does report a mime type without
    a registered minifier as an error. *)
Lemma Minify_unregistered (m : minifier) (mimeType : string) (b : bytes) :
  registry m mimeType = None ->
  mimeType <> "image/jpeg" ->
  mimeType <> "image/png" ->
  Minify m mimeType b = inl "unsupported mime type".
Proof.
  intros Hreg Hj Hp. unfold Minify.
  apply String.eqb_neq in Hj, Hp. rewrite Hj, Hp.
  unfold minifyOthers, M_Minify. by rewrite Hreg.
Qed.





(** ** Host policy *)

Lemma stringSliceContainsCIly_spec (ss : list string) (s : string) :
  stringSliceContainsCIly ss s = true <-> exists v, v ∈ ss /\ lower v = lower s.
Proof.
  unfold stringSliceContainsCIly. rewrite existsb_exists. split.
  - intros (v & Hin & Heq). exists v. split; [by apply list_elem_of_In|].
    by apply String.eqb_eq.
  - intros (v & Hin & Heq). exists v. split; [by apply list_elem_of_In|].
    by apply String.eqb_eq.
Qed.

(** The name that [allowedHost] compares: the host that
    [net.SplitHostPort] finds, and the name as it is when it finds none. *)
Lemma host_part_spec {A E : Type} (rt : Runtime A E) (name h p : string)
    (e : option Err) :
  net_SplitHostPort rt name = (h, p, e) ->
  host_part rt name = (if h =? "" then name else h).
Proof. intros Hsplit. unfold host_part. rewrite Hsplit. by destruct (h =? ""). Qed.

(** C8.  In static-certificate mode the name of the handshake, reduced to
    its host part when it carries a port and taken as it is when
    [net.SplitHostPort] finds no host in it (a name without port), is
    looked up in the whitelist without regard to case; debug mode and an
    empty whitelist allow every name.  An allowed name gets the certificate.  A name that is missing
    from a non-empty whitelist, debug mode being off, gets no
    certificate: the connection is closed, nothing is sent on it, and the
    error returned is the one of [Close]. *)
Theorem static_certificate_host_policy {A E : Type} (rt : Runtime A E) (a : Air A E)
    (c : Certificate) (chi : ClientHelloInfo) :
  (topology a = StaticTLS <-> TLSCertFile a <> "" /\ TLSKeyFile a <> "")
  /\ (allowedHost rt a (ServerName chi) = true
   <-> DebugMode a = true \/ HostWhitelist a = []
       \/ exists h, h ∈ HostWhitelist a
                    /\ lower h = lower (host_part rt (ServerName chi)))
  /\ (forall h p e, net_SplitHostPort rt (ServerName chi) = (h, p, e) -> h <> "" ->
        host_part rt (ServerName chi) = h)
  /\ (forall p e, net_SplitHostPort rt (ServerName chi) = ("", p, e) ->
        host_part rt (ServerName chi) = ServerName chi)
  /\ (forall p e, net_SplitHostPort rt (ServerName chi) = ("", p, e) ->
        DebugMode a = false ->
        HostWhitelist a <> [] ->
        (allowedHost rt a (ServerName chi) = true
         <-> exists h, h ∈ HostWhitelist a /\ lower h = lower (ServerName chi)))
  /\ (allowedHost rt a (ServerName chi) = true ->
      GetCertificate rt a c chi = ((Some c, None), chi))
  /\ (DebugMode a = false ->
      HostWhitelist a <> [] ->
      (forall h, h ∈ HostWhitelist a -> lower h <> lower (host_part rt (ServerName chi))) ->
      GetCertificate rt a c chi
      = ((None, conn_close_err (chi_Conn chi)),
         mkClientHelloInfo (ServerName chi)
           (mkConn true (conn_sent (chi_Conn chi)) (conn_close_err (chi_Conn chi))))).
Proof.
  assert (Hallowed : allowedHost rt a (ServerName chi) = true
            <-> DebugMode a = true \/ HostWhitelist a = []
                \/ exists h, h ∈ HostWhitelist a
                             /\ lower h = lower (host_part rt (ServerName chi))).
  { unfold allowedHost. destruct (DebugMode a); cbn [orb]; [by intuition|].
    destruct (HostWhitelist a) as [|h0 hs]; cbn [length Nat.eqb]; [by intuition|].
    rewrite stringSliceContainsCIly_spec.
    split; [by intuition|]. intros [?|[?|?]]; done. }
  split.
  { unfold topology.
    destruct (String.eqb_spec (TLSCertFile a) "") as [Hc|Hc];
      destruct (String.eqb_spec (TLSKeyFile a) "") as [Hk|Hk];
      cbn [negb andb];
      (split; [try destruct (negb (DebugMode a) && ACMEEnabled a); done
              | intros [? ?]; done]). }
  split; [exact Hallowed|].
  assert (Hbare : forall p e, net_SplitHostPort rt (ServerName chi) = ("", p, e) ->
            host_part rt (ServerName chi) = ServerName chi).
  { intros p e Hsplit. by rewrite (host_part_spec rt _ _ _ _ Hsplit). }
  split; [|split; [exact Hbare|split]].
  - intros h p e Hsplit Hh. rewrite (host_part_spec rt _ _ _ _ Hsplit).
    apply String.eqb_neq in Hh. by rewrite Hh.
  - intros p e Hsplit Hdebug Hlist. rewrite Hallowed, (Hbare p e Hsplit).
    split; [|by auto]. intros [?|[?|?]]; [congruence|done|done].
  - split.
    + intros Hyes. unfold GetCertificate. by rewrite Hyes.
    + intros Hdebug Hlist Hnone. unfold GetCertificate.
      destruct (allowedHost rt a (ServerName chi)) eqn:Hhost; [|reflexivity].
      destruct (proj1 Hallowed eq_refl) as [?|[?|(h & Hin & Heq)]]; [congruence|done|].
      by destruct (Hnone h Hin).
Qed.

Lemma static_certificate_host_policy_witness :
  topology listed_air = StaticTLS
  /\ allowedHost (plain_rt listed_air) listed_air "Example.COM:443" = true
  /\ host_part (plain_rt listed_air) "Example.COM:443" = "Example.COM"
  /\ GetCertificate (plain_rt listed_air) listed_air key_pair (hello "Example.COM:443")
     = ((Some key_pair, None), hello "Example.COM:443")
  /\ net_SplitHostPort (plain_rt listed_air) "EXAMPLE.com"
     = ("", "", Some "missing port in address")
  /\ host_part (plain_rt listed_air) "EXAMPLE.com" = "EXAMPLE.com"
  /\ allowedHost (plain_rt listed_air) listed_air "EXAMPLE.com" = true
  /\ GetCertificate (plain_rt listed_air) listed_air key_pair (hello "EXAMPLE.com")
     = ((Some key_pair, None), hello "EXAMPLE.com")
  /\ DebugMode listed_air = false
  /\ HostWhitelist listed_air <> []
  /\ (forall h, h ∈ HostWhitelist listed_air ->
        lower h <> lower (host_part (plain_rt listed_air) "evil.test"))
  /\ GetCertificate (plain_rt listed_air) listed_air key_pair (hello "evil.test")
     = ((None, None), mkClientHelloInfo "evil.test" (mkConn true [] None)).
Proof.
  assert (Hnone : forall h, h ∈ HostWhitelist listed_air ->
            lower h <> lower (host_part (plain_rt listed_air) "evil.test")).
  { intros h Hin. apply list_elem_of_In in Hin as [<-|[]]. discriminate. }
  assert (Hlist : HostWhitelist listed_air <> []) by discriminate.
  destruct (static_certificate_host_policy (plain_rt listed_air) listed_air key_pair
              (hello "Example.COM:443")) as (_ & _ & Hpart & _ & _ & Hcert & _).
  destruct (static_certificate_host_policy (plain_rt listed_air) listed_air key_pair
              (hello "EXAMPLE.com")) as (_ & _ & _ & Hname & Hbare & Hcert' & _).
  destruct (static_certificate_host_policy (plain_rt listed_air) listed_air key_pair
              (hello "evil.test")) as (_ & _ & _ & _ & _ & _ & Hreject).
  assert (Hyes : allowedHost (plain_rt listed_air) listed_air "EXAMPLE.com" = true).
  { apply (Hbare "" (Some "missing port in address") eq_refl eq_refl Hlist).
    exists "example.com". split; [by repeat constructor | reflexivity]. }
  split; [reflexivity|]. split; [reflexivity|].
  split; [exact (Hpart "Example.COM" "443" None eq_refl ltac:(discriminate))|].
  split; [exact (Hcert eq_refl)|].
  split; [reflexivity|].
  split; [exact (Hname "" (Some "missing port in address") eq_refl)|].
  split; [exact Hyes|].
  split; [exact (Hcert' Hyes)|].
  split; [reflexivity|].
  split; [exact Hlist|].
  split; [exact Hnone|].
  exact (Hreject eq_refl Hlist Hnone).
Defined.

(** ** The reset *)

(** C9.  Whatever the pools hold, the world in which [ServeHTTP] executes
    the chain has: a route parameter slice of length zero on the array of
    the pooled request, fresh [Once] guards, no cached localized strings,
    request and response pointing to each other, the response at status
    200, length -1, unwritten, not minified, not gzipped, and a deferred
    list of length zero on its old array.  A request that reuses a pooled
    [Request] thus starts with no route parameter. *)
Theorem acquire_resets {A E : Type} (rt : Runtime A E) (a : Air A E)
    (s : server) (rw : RawWriter) (r : HTTPRequest) (e : E) :
  let rq := fst (requestPool_Get s) in
  let rs := fst (responsePool_Get (snd (requestPool_Get s))) in
  let w := snd (acquire s rw r e) in
  (elems (params (w_req w)) = []
   /\ len (params (w_req w)) = 0
   /\ cap (params (w_req w)) = cap (params rq))
  /\ (parseRouteParamsOnce (w_req w) = Some (mkOnce false)
      /\ parseOtherParamsOnce (w_req w) = Some (mkOnce false))
  /\ (routeParamNames (w_req w) = None
      /\ routeParamValues (w_req w) = None
      /\ localizedString (w_req w) = None)
  /\ (res (w_req w) = Some (res_self (w_res w))
      /\ req (w_res w) = Some (req_self (w_req w))
      /\ req_self (w_req w) = req_self rq
      /\ res_self (w_res w) = res_self rs)
  /\ (Status (w_res w) = 200%Z
      /\ ContentLength (w_res w) = (-1)%Z
      /\ Written (w_res w) = false
      /\ Minified (w_res w) = false
      /\ Gzipped (w_res w) = false)
  /\ (len (deferredFuncs (w_res w)) = 0
      /\ cap (deferredFuncs (w_res w)) = cap (deferredFuncs rs))
  /\ ServeHTTP rt a s rw r e
     = match execute rt a w with
       | (Panicked v, w') => (Panicked v, (fst (acquire s rw r e), w'))
       | (Returned _, w') =>
           match run_deferred rt w' with
           | (Panicked v, w'') => (Panicked v, (fst (acquire s rw r e), w''))
           | (Returned _, w'') =>
               (Returned tt,
                (pools_Put (w_req w'') (w_res w'') (fst (acquire s rw r e)), w''))
           end
       end.
Proof.
  intros rq rs w. subst rq rs w. unfold ServeHTTP, acquire.
  destruct (requestPool_Get s) as [rq s1]. cbn [fst snd].
  destruct (responsePool_Get s1) as [rs s2]. cbn [fst snd].
  unfold reset, reset_request, reset_response, reslice0, len, cap.
  cbn [w_req w_res params elems spare deferredFuncs parseRouteParamsOnce
       parseOtherParamsOnce localizedString routeParamNames routeParamValues
       res req req_self res_self Status ContentLength Written Minified Gzipped
       length].
  rewrite !length_app. split_and!; try reflexivity.
Qed.

(** Two requests in a row on one server: the router gives the first two
    route parameters, the handler answers, the request object goes back
    to the pool with the parameters, and the second request, served on
    the same object, finds none. *)
Example pooled_request_starts_without_params :
  exists (s1 : server) (w1 w2 : World string (list Event)),
    ServeHTTP (plain_rt probing_air) probing_air empty_server fresh_writer get_request []
    = (Returned tt, (s1, w1))
    /\ len (params (w_req w1)) = 2
    /\ requestPool s1 = [w_req w1]
    /\ ServeHTTP (plain_rt probing_air) probing_air s1 fresh_writer get_request []
       = (Returned tt, (pools_Put (w_req w2) (w_res w2) (mkServer [] [] 2), w2))
    /\ req_self (w_req w2) = req_self (w_req w1)
    /\ w_env w2 = [Saw 0; Handled].
Proof.
  eexists _, _, _. split; [reflexivity|]. split; [reflexivity|].
  split; [reflexivity|]. split; [reflexivity|]. split; reflexivity.
Qed.

(** ** More on the [responseWriter] wrapper *)

(** X1.  The header commit of an unwritten response always leaves
    [Server: Air], replacing what a handler put there; it adds the
    [Strict-Transport-Security] header exactly when debug mode is off,
    HTTPS is enforced, a TLS configuration exists and the header has no
    value yet; a value that is there stays; no other header changes. *)
Theorem commit_headers {A E : Type} (a : Air A E) (status : Z) (k : Sink A) :
  Written (fst k) = false ->
  let h := rwHeader (snd k) in
  let h' := rwHeader (snd (rw_WriteHeader a status k)) in
  h' !! "Server" = Some ["Air"]
  /\ (Header_Get h "Strict-Transport-Security" <> "" ->
      h' !! "Strict-Transport-Security" = h !! "Strict-Transport-Security")
  /\ (Header_Get h "Strict-Transport-Security" = "" ->
      h' !! "Strict-Transport-Security"
      = if negb (DebugMode a) && HTTPSEnforced a && server_TLSConfig a
        then Some ["max-age=31536000"]
        else h !! "Strict-Transport-Security")
  /\ (forall key : string,
        key <> "Server" -> key <> "Strict-Transport-Security" -> h' !! key = h !! key).
Proof.
  destruct k as [r x]. cbn [fst snd]. intros Hw. cbv zeta.
  unfold rw_WriteHeader. rewrite Hw. cbn [snd raw_WriteHeader with_rwHeader rwHeader].
  unfold Header_Set. split; [by rewrite lookup_insert_eq|].
  split; [|split].
  - intros Hset. apply String.eqb_neq in Hset. rewrite Hset, andb_false_r.
    by rewrite lookup_insert_ne.
  - intros Hunset. apply String.eqb_eq in Hunset. rewrite Hunset, andb_true_r.
    rewrite lookup_insert_ne by done.
    destruct (negb (DebugMode a) && HTTPSEnforced a && server_TLSConfig a);
      [by rewrite lookup_insert_eq | done].
  - intros key Hserver Hsts. rewrite lookup_insert_ne by done.
    destruct (negb (DebugMode a) && HTTPSEnforced a && server_TLSConfig a
              && (Header_Get (rwHeader x) "Strict-Transport-Security" =? ""));
      [by rewrite lookup_insert_ne | done].
Qed.

Lemma commit_headers_witness :
  Written (fst not_found_sink) = false
  /\ rwHeader (snd (rw_WriteHeader bare_air 200 not_found_sink)) !! "Server" = Some ["Air"]
  /\ rwHeader (snd (rw_WriteHeader bare_air 200 not_found_sink))
       !! "Strict-Transport-Security" = None.
Proof.
  split; [reflexivity|].
  destruct (commit_headers bare_air 200 not_found_sink eq_refl) as (Hserver & _ & Hsts & _).
  split; [exact Hserver|]. exact (Hsts eq_refl).
Defined.

(** X2.  A [Write] that the connection fails reports 0 bytes and the
    error, and adds nothing to [ContentLength], even for the bytes the
    connection did take; the header is committed all the same. *)
Theorem failed_write_is_not_counted {A E : Type}
    (cw : RawWriter -> bytes -> Z * option Err) (a : Air A E)
    (b : bytes) (k : Sink A) (n : Z) (e : Err) :
  let k1 := if Written (fst k) then k else rw_WriteHeader a (Status (fst k)) k in
  cw (snd k1) b = (n, Some e) ->
  fst (rw_Write cw a b k) = (0%Z, Some e)
  /\ ContentLength (fst (snd (rw_Write cw a b k))) = ContentLength (fst k)
  /\ Written (fst (snd (rw_Write cw a b k))) = true
  /\ rwBody (snd (snd (rw_Write cw a b k))) = rwBody (snd k) ++ take (Z.to_nat n) b.
Proof.
  intros k1 Hcw.
  assert (Hk1 : Written (fst k1) = true /\ ContentLength (fst k1) = ContentLength (fst k)
                /\ rwBody (snd k1) = rwBody (snd k)).
  { subst k1. destruct (Written (fst k)) eqn:Hw; [done|].
    by destruct (WriteHeader_unwritten a (Status (fst k)) k Hw) as (? & _ & _ & ? & ?). }
  destruct Hk1 as (Hw1 & Hc1 & Hb1).
  unfold rw_Write. fold k1. destruct k1 as [r1 x1]. cbn [fst snd] in *.
  unfold raw_Write. rewrite Hcw. cbn [fst snd rwBody]. by rewrite Hb1.
Qed.

(** X3.  The first [Write] on an unwritten response commits the header
    with the status recorded on the [Response], once, and leaves that
    status in place, whatever the connection does with the bytes; when
    the connection takes the bytes it returns the count of the connection
    and adds it to [ContentLength]. *)
Theorem first_write_commits_recorded_status {A E : Type}
    (cw : RawWriter -> bytes -> Z * option Err) (a : Air A E)
    (b : bytes) (k : Sink A) (n : Z) :
  Written (fst k) = false ->
  (rwStatus (snd (snd (rw_Write cw a b k))) = rwStatus (snd k) ++ [Status (fst k)]
   /\ Status (fst (snd (rw_Write cw a b k))) = Status (fst k)
   /\ Written (fst (snd (rw_Write cw a b k))) = true)
  /\ (cw (snd (rw_WriteHeader a (Status (fst k)) k)) b = (n, None) ->
      fst (rw_Write cw a b k) = (n, None)
      /\ ContentLength (fst (snd (rw_Write cw a b k)))
         = wrap64 (ContentLength (fst k) + n)
      /\ rwBody (snd (snd (rw_Write cw a b k)))
         = rwBody (snd k) ++ take (Z.to_nat n) b).
Proof.
  intros Hw.
  destruct (WriteHeader_unwritten a (Status (fst k)) k Hw) as (Hw1 & Hs1 & Hl1 & Hc1 & Hb1).
  assert (Hsame : committed_status (Status (fst k)) (fst k) = Status (fst k)).
  { unfold committed_status. by destruct (Status (fst k) =? StatusOK)%Z. }
  rewrite Hsame in Hs1, Hl1.
  unfold rw_Write. rewrite Hw.
  destruct (rw_WriteHeader a (Status (fst k)) k) as [r1 x1]. cbn [fst snd] in *.
  unfold raw_Write. split.
  - destruct (cw x1 b) as [m [e|]];
      cbn [fst snd rwBody rwStatus with_ContentLength Status Written ContentLength];
      by rewrite Hl1, Hs1, Hw1.
  - intros Hcw. rewrite Hcw.
    cbn [fst snd rwBody rwStatus with_ContentLength Status Written ContentLength].
    by rewrite Hc1, Hb1.
Qed.

Lemma failed_write_is_not_counted_witness :
  conn_broken (snd (rw_WriteHeader bare_air 200 (sink_of first_world)))
    (bytes_of_string "hello") = (2%Z, Some "broken pipe")
  /\ fst (rw_Write conn_broken bare_air (bytes_of_string "hello") (sink_of first_world))
     = (0%Z, Some "broken pipe")
  /\ ContentLength
       (fst (snd (rw_Write conn_broken bare_air (bytes_of_string "hello")
                    (sink_of first_world)))) = (-1)%Z
  /\ rwBody (snd (snd (rw_Write conn_broken bare_air (bytes_of_string "hello")
                         (sink_of first_world)))) = bytes_of_string "he".
Proof.
  split; [reflexivity|].
  destruct (failed_write_is_not_counted conn_broken bare_air (bytes_of_string "hello")
              (sink_of first_world) 2 "broken pipe" eq_refl) as (Hres & Hlen & _ & Hbody).
  split; [exact Hres|]. split; [exact Hlen | exact Hbody].
Defined.

Lemma first_write_commits_recorded_status_witness :
  Written (fst not_found_sink) = false
  /\ conn_ok (snd (rw_WriteHeader bare_air 404 not_found_sink)) (bytes_of_string "gone")
     = (4%Z, None)
  /\ rwStatus (snd (snd (rw_Write conn_ok bare_air (bytes_of_string "gone") not_found_sink)))
     = [404%Z]
  /\ ContentLength
       (fst (snd (rw_Write conn_ok bare_air (bytes_of_string "gone") not_found_sink)))
     = 3%Z.
Proof.
  split; [reflexivity|]. split; [reflexivity|].
  destruct (first_write_commits_recorded_status conn_ok bare_air (bytes_of_string "gone")
              not_found_sink 4 eq_refl) as ((Hsent & _ & _) & Hcounted).
  destruct (Hcounted eq_refl) as (_ & Hlen & _).
  split; [exact Hsent | exact Hlen].
Defined.

(** ** More on the minifier *)

(** X4.  [Minify] routes by mime type: the two image types go to their
    codecs whatever the table holds for them, a failed decoding being
    returned without any encoding; every other type with a registered
    minifier gets that minifier's answer, error or output, as it is; and
    a type without one gets the error "unsupported mime type" and no
    bytes. *)
Theorem Minify_routes (m : minifier) (mimeType : string) (f : MinifierFunc) (b : bytes) :
  (forall e, jpeg_Decode m b = inl e -> Minify m "image/jpeg" b = inl e)
  /\ (forall img, jpeg_Decode m b = inr img -> Minify m "image/jpeg" b = jpeg_Encode m img)
  /\ (forall e, png_Decode m b = inl e -> Minify m "image/png" b = inl e)
  /\ (forall img, png_Decode m b = inr img -> Minify m "image/png" b = png_Encode m img)
  /\ (registry m mimeType = Some f ->
      mimeType <> "image/jpeg" -> mimeType <> "image/png" ->
      Minify m mimeType b = f b)
  /\ (registry m mimeType = None ->
      mimeType <> "image/jpeg" -> mimeType <> "image/png" ->
      Minify m mimeType b = inl "unsupported mime type").
Proof.
  split_and!; [| | | | |by apply Minify_unregistered];
    unfold Minify; cbn [String.eqb Ascii.eqb Bool.eqb andb]; unfold minifyJPEG, minifyPNG.
  - by intros e ->.
  - by intros img ->.
  - by intros e ->.
  - by intros img ->.
  - intros Hreg Hj Hp. apply String.eqb_neq in Hj, Hp. rewrite Hj, Hp.
    unfold minifyOthers, M_Minify. rewrite Hreg. by destruct (f b).
Qed.

Lemma Minify_routes_witness :
  jpeg_Decode html_only (bytes_of_string "img") = inr (bytes_of_string "img")
  /\ Minify html_only "image/jpeg" (bytes_of_string "img") = inr (bytes_of_string "img")
  /\ registry html_only "text/html" = Some (fun b => inr (take 1 b))
  /\ Minify html_only "text/html" (bytes_of_string "<p>") = inr (bytes_of_string "<")
  /\ registry html_only "text/plain" = None
  /\ Minify html_only "text/plain" (bytes_of_string "a  b") = inl "unsupported mime type".
Proof.
  destruct (Minify_routes html_only "text/html" (fun b => inr (take 1 b))
              (bytes_of_string "img")) as (_ & Hjpeg & _).
  destruct (Minify_routes html_only "text/html" (fun b => inr (take 1 b))
              (bytes_of_string "<p>")) as (_ & _ & _ & _ & Hhtml & _).
  destruct (Minify_routes html_only "text/plain" (fun b => inr b)
              (bytes_of_string "a  b")) as (_ & _ & _ & _ & _ & Hplain).
  split; [reflexivity|]. split; [exact (Hjpeg _ eq_refl)|]. split; [reflexivity|].
  split; [exact (Hhtml eq_refl ltac:(discriminate) ltac:(discriminate))|].
  split; [reflexivity|].
  exact (Hplain eq_refl ltac:(discriminate) ltac:(discriminate)).
Defined.

(** ** More on the chain *)

Lemma wrap_all_short_circuit {A E : Type} (sts : list (Stage A E))
    (r : Handler A E) (rest : list (Gas A E))
    (h : Handler A E) (w : World A E) :
  wrap_all ((gas_of <$> sts) ++ short_circuit r :: rest) h w = unwind sts (r (descend sts w)).
Proof.
  rewrite wrap_all_foldr, foldr_app. cbn [foldr]. unfold short_circuit at 1.
  rewrite <- wrap_all_foldr. apply wrap_all_stages.
Qed.

(** X5.  A pre-route gas that returns without calling its inner handler
    ends the request there: the stages before it are entered and left in
    order, and neither the router nor any later gas nor a handler has a
    part in the result. *)
Theorem pregas_short_circuit {A E : Type} (rt : Runtime A E) (a : Air A E)
    (P : list (Stage A E)) (r : Handler A E)
    (rest : list (Gas A E)) (w : World A E) :
  Pregases a = (gas_of <$> P) ++ short_circuit r :: rest ->
  chain rt a w = unwind P (r (descend P w)).
Proof. intros HP. unfold chain. rewrite HP. apply wrap_all_short_circuit. Qed.

(** X6.  A post-route gas that returns without calling its inner handler
    keeps the closure around the routed handler from running: after the
    route resolution the result is that of the gas, passed back through
    the stages before it, and the response is not forced to 204: a gas
    that returns [nil] without writing hands an unwritten response back to
    the stages before it. *)
Theorem gas_short_circuit_skips_finalize {A E : Type} (rt : Runtime A E) (a : Air A E)
    (P G : list (Stage A E)) (r : Handler A E)
    (rest : list (Gas A E)) (w : World A E) :
  Pregases a = gas_of <$> P ->
  Gases a = (gas_of <$> G) ++ short_circuit r :: rest ->
  chain rt a w
  = unwind P (unwind G (r (descend G (snd (router_route a (descend P w)))))).
Proof.
  intros HP HG. unfold chain. rewrite HP, wrap_all_stages. f_equal.
  unfold routed. destruct (router_route a (descend P w)) as [rh w0]. rewrite HG.
  apply wrap_all_short_circuit.
Qed.

Lemma pregas_short_circuit_witness :
  Pregases guarded_air
  = (gas_of <$> [recording "p0"]) ++ short_circuit (fun w => (Returned (Some "denied"), w)) :: []
  /\ fst (chain (plain_rt guarded_air) guarded_air first_world) = Returned (Some "denied")
  /\ w_env (snd (chain (plain_rt guarded_air) guarded_air first_world))
     = [Enter "p0"; Leave "p0"].
Proof.
  split; [reflexivity|].
  rewrite (pregas_short_circuit (plain_rt guarded_air) guarded_air [recording "p0"]
             (fun w => (Returned (Some "denied"), w)) [] first_world eq_refl).
  split; reflexivity.
Defined.

Lemma gas_short_circuit_skips_finalize_witness :
  Pregases skipping_air = gas_of <$> @nil (Stage string (list Event))
  /\ Gases skipping_air
     = (gas_of <$> @nil (Stage string (list Event)))
       ++ [short_circuit (A := string) (E := list Event) (fun w => (Returned None, w))]
  /\ fst (chain (plain_rt skipping_air) skipping_air first_world) = Returned None
  /\ Written (w_res (snd (chain (plain_rt skipping_air) skipping_air first_world))) = false
  /\ rwStatus (w_raw (snd (chain (plain_rt skipping_air) skipping_air first_world))) = []
  /\ w_env (snd (chain (plain_rt skipping_air) skipping_air first_world)) = [Routed].
Proof.
  split; [reflexivity|]. split; [reflexivity|].
  rewrite (gas_short_circuit_skips_finalize (plain_rt skipping_air) skipping_air [] []
             (fun w => (Returned None, w)) [] first_world eq_refl eq_refl).
  split_and!; reflexivity.
Defined.

(** ** Cookies and typed writers *)

Section WriterFacts.

Context {A E V M C : Type}.
Variable rt : Runtime A E.
Variable a : Air A E.
Variable enc : Encoders V M C.

Local Abbreviation World := (World A E).

Lemma set_Content_Type_twice (ct0 ct : string) (w : World) :
  set_Content_Type ct (set_Content_Type ct0 w) = set_Content_Type ct w.
Proof.
  unfold set_Content_Type, set_raw, with_rwHeader, Header_Set.
  cbn [w_hreq w_req w_res w_raw w_env rwHeader rwStatus rwBody].
  by rewrite insert_insert_eq.
Qed.

Lemma SetCookie_header (c : C) (w : World) :
  Header_Values (Response_Header (SetCookie enc c w)) "Set-Cookie"
  = Header_Values (Response_Header w) "Set-Cookie"
    ++ filter (fun v => v <> "") [Cookie_String enc c]
  /\ (forall k, k <> "Set-Cookie" ->
        Response_Header (SetCookie enc c w) !! k = Response_Header w !! k)
  /\ sink_of (SetCookie enc c w)
     = (w_res w, with_rwHeader (Response_Header (SetCookie enc c w)) (w_raw w))
  /\ w_req (SetCookie enc c w) = w_req w
  /\ w_hreq (SetCookie enc c w) = w_hreq w
  /\ w_env (SetCookie enc c w) = w_env w.
Proof.
  unfold SetCookie. destruct (String.eqb_spec (Cookie_String enc c) "") as [Hv|Hv];
    cbn [negb].
  - rewrite Hv. rewrite filter_cons_False by (intros H; by apply H).
    rewrite filter_nil, app_nil_r. split_and!; try done. by destruct w as [? ? ? []].
  - rewrite filter_cons_True by done. rewrite filter_nil.
    unfold Response_Header, Header_Values, Header_Add, set_raw, with_rwHeader.
    cbn [w_raw rwHeader]. rewrite lookup_insert_eq. split_and!; try done.
    intros k Hk. by rewrite lookup_insert_ne.
Qed.

End WriterFacts.

(** X7.  Cookies accumulate: after [SetCookie] for each cookie of a list,
    the [Set-Cookie] values of the response are the earlier ones followed
    by the strings of the cookies in call order, a cookie whose string is
    empty being skipped; no other header and nothing else of the
    response changes. *)
Theorem cookies_accumulate {A E V M C : Type} (enc : Encoders V M C)
    (cs : list C) (w : World A E) :
  let w' := foldl (fun w c => SetCookie enc c w) w cs in
  Header_Values (Response_Header w') "Set-Cookie"
  = Header_Values (Response_Header w) "Set-Cookie"
    ++ filter (fun v => v <> "") (Cookie_String enc <$> cs)
  /\ (forall k, k <> "Set-Cookie" -> Response_Header w' !! k = Response_Header w !! k)
  /\ w_res w' = w_res w
  /\ rwStatus (w_raw w') = rwStatus (w_raw w)
  /\ rwBody (w_raw w') = rwBody (w_raw w).
Proof.
  revert w. induction cs as [|c cs IH]; intros w; cbn [foldl fmap list_fmap].
  - rewrite filter_nil, app_nil_r. done.
  - destruct (SetCookie_header enc c w) as (Hc & Hk & Hsink & _).
    destruct (IH (SetCookie enc c w)) as (IHc & IHk & IHres & IHs & IHb).
    cbv zeta. rewrite IHc, Hc, <- app_assoc.
    injection Hsink as Hres Hraw.
    split; [|split; [|split; [|split]]].
    + f_equal.
      change (Cookie_String enc c :: (Cookie_String enc <$> cs))
        with ([Cookie_String enc c] ++ (Cookie_String enc <$> cs)).
      by rewrite filter_app.
    + intros k Hne. by rewrite IHk, Hk.
    + by rewrite IHres.
    + by rewrite IHs, Hraw.
    + by rewrite IHb, Hraw.
Qed.

Lemma cookies_accumulate_witness :
  Header_Values
    (Response_Header
       (foldl (fun w c => SetCookie plain_enc c w) first_world ["a=1"; ""; "b=2"]))
    "Set-Cookie" = ["a=1"; "b=2"]
  /\ Response_Header
       (foldl (fun w c => SetCookie plain_enc c w) plain_world ["a=1"; ""; "b=2"])
       !! "Content-Type" = Some ["text/plain"].
Proof.
  destruct (cookies_accumulate plain_enc ["a=1"; ""; "b=2"] first_world) as (Hvalues & _).
  destruct (cookies_accumulate plain_enc ["a=1"; ""; "b=2"] plain_world) as (_ & Hother & _).
  split; [exact Hvalues|].
  rewrite (Hother "Content-Type" ltac:(discriminate)). reflexivity.
Defined.

(** X8.  The typed writers set their own content type: what the
    [Content-Type] header held before has no influence on the result of
    [WriteString], nor on that of [WriteJSON], [WriteXML], [WriteMsgpack]
    and [WriteTOML].  When the encoding of the value fails, its error is
    returned and the response is left as it was, the header included.
    [WriteProtobuf] panics on a value that is no [proto.Message]. *)
Theorem typed_writers_own_content_type {A E V M C : Type} (rt : Runtime A E)
    (a : Air A E) (enc : Encoders V M C) (ct0 s : string) (v : V) (w : World A E) :
  WriteString rt a s (set_Content_Type ct0 w) = WriteString rt a s w
  /\ (forall b,
        (if DebugMode a then json_MarshalIndent enc v else json_Marshal enc v) = inr b ->
        WriteJSON rt a enc v (set_Content_Type ct0 w) = WriteJSON rt a enc v w)
  /\ (forall b,
        (if DebugMode a then xml_MarshalIndent enc v else xml_Marshal enc v) = inr b ->
        WriteXML rt a enc v (set_Content_Type ct0 w) = WriteXML rt a enc v w)
  /\ (forall b, msgpack_Marshal enc v = inr b ->
        WriteMsgpack rt a enc v (set_Content_Type ct0 w) = WriteMsgpack rt a enc v w)
  /\ (forall b, toml_Encode enc v = inr b ->
        WriteTOML rt a enc v (set_Content_Type ct0 w) = WriteTOML rt a enc v w)
  /\ (forall err,
        (if DebugMode a then json_MarshalIndent enc v else json_Marshal enc v) = inl err ->
        WriteJSON rt a enc v w = (Returned (Some err), w))
  /\ (forall err,
        (if DebugMode a then xml_MarshalIndent enc v else xml_Marshal enc v) = inl err ->
        WriteXML rt a enc v w = (Returned (Some err), w))
  /\ (forall err, msgpack_Marshal enc v = inl err ->
        WriteMsgpack rt a enc v w = (Returned (Some err), w))
  /\ (forall err, toml_Encode enc v = inl err -> WriteTOML rt a enc v w = (Returned (Some err), w))
  /\ (as_Message enc v = None -> WriteProtobuf rt a enc v w = (Panicked not_a_Message, w)).
Proof.
  split_and!.
  - unfold WriteString. fold (set_Content_Type "text/plain; charset=utf-8" w).
    fold (set_Content_Type "text/plain; charset=utf-8" (set_Content_Type ct0 w)).
    by rewrite set_Content_Type_twice.
  - intros b Hb. unfold WriteJSON. by rewrite Hb, set_Content_Type_twice.
  - intros b Hb. unfold WriteXML. by rewrite Hb, set_Content_Type_twice.
  - intros b Hb. unfold WriteMsgpack. by rewrite Hb, set_Content_Type_twice.
  - intros b Hb. unfold WriteTOML. by rewrite Hb, set_Content_Type_twice.
  - intros err Hb. unfold WriteJSON. by rewrite Hb.
  - intros err Hb. unfold WriteXML. by rewrite Hb.
  - intros err Hb. unfold WriteMsgpack. by rewrite Hb.
  - intros err Hb. unfold WriteTOML. by rewrite Hb.
  - intros Hm. unfold WriteProtobuf. by rewrite Hm.
Qed.

Lemma typed_writers_own_content_type_witness :
  json_Marshal plain_enc "{}" = inr (bytes_of_string "{}")
  /\ WriteJSON (plain_rt bare_air) bare_air plain_enc "{}"
       (set_Content_Type "image/png" first_world)
     = WriteJSON (plain_rt bare_air) bare_air plain_enc "{}" first_world
  /\ json_Marshal plain_enc "chan" = inl "unsupported type"
  /\ WriteJSON (plain_rt bare_air) bare_air plain_enc "chan" first_world
     = (Returned (Some "unsupported type"), first_world)
  /\ as_Message plain_enc "chan" = None
  /\ WriteProtobuf (plain_rt bare_air) bare_air plain_enc "chan" first_world
     = (Panicked not_a_Message, first_world)
  /\ rwBody (w_raw (snd (WriteJSON (plain_rt bare_air) bare_air plain_enc "{}"
                           (set_Content_Type "image/png" first_world))))
     = bytes_of_string "{}".
Proof.
  destruct (typed_writers_own_content_type (plain_rt bare_air) bare_air plain_enc
              "image/png" "" "{}" first_world) as (_ & Hjson & _).
  destruct (typed_writers_own_content_type (plain_rt bare_air) bare_air plain_enc
              "image/png" "" "chan" first_world)
    as (_ & _ & _ & _ & _ & Hfail & _ & _ & _ & Hpanic).
  split; [reflexivity|]. split; [exact (Hjson _ eq_refl)|].
  split; [reflexivity|]. split; [exact (Hfail _ eq_refl)|].
  split; [reflexivity|]. split; [exact (Hpanic eq_refl)|].
  rewrite (Hjson _ eq_refl). reflexivity.
Defined.

(** ** Server push and templates *)

Section PushFacts.

Context {A E V M C : Type}.
Variable rt : Runtime A E.
Variable a : Air A E.
Variable enc : Encoders V M C.
Variable ctx : PushContext.

Lemma push_tree_without_pusher (n : Node) (pushed : list string) :
  ohrw_Push ctx = None -> push_tree ctx n pushed = pushed.
Proof.
  intros Hno. revert pushed. induction n as [ty data attr cs IH] using Node_ind_children.
  intros pushed. cbn [push_tree].
  assert (Hhere : (match ty with
                   | ElementNode =>
                       if path_IsAbs (push_target data attr)
                       then snd (Response_Push ctx (push_target data attr) pushed)
                       else pushed
                   | _ => pushed
                   end) = pushed).
  { unfold Response_Push. rewrite Hno.
    destruct ty; try done. by destruct (path_IsAbs _). }
  rewrite Hhere. clear Hhere. revert pushed.
  induction IH as [|c cs' Hc _ IHcs]; intros pushed; [done|].
  by rewrite Hc, IHcs.
Qed.

Lemma push_tree_with_pusher (push : string -> option Err) (n : Node)
    (pushed : list string) :
  ohrw_Push ctx = Some push ->
  push_tree ctx n pushed = pushed ++ List.filter path_IsAbs (element_targets n).
Proof.
  intros Hyes. revert pushed. induction n as [ty data attr cs IH] using Node_ind_children.
  intros pushed. cbn [push_tree element_targets]. rewrite List.filter_app.
  assert (Hhere : (match ty with
                   | ElementNode =>
                       if path_IsAbs (push_target data attr)
                       then snd (Response_Push ctx (push_target data attr) pushed)
                       else pushed
                   | _ => pushed
                   end)
                  = pushed ++ List.filter path_IsAbs
                      (match ty with ElementNode => [push_target data attr] | _ => [] end)).
  { unfold Response_Push. rewrite Hyes.
    destruct ty; cbn [List.filter]; try by rewrite app_nil_r.
    destruct (path_IsAbs (push_target data attr)); [done | by rewrite app_nil_r]. }
  rewrite Hhere, app_assoc. clear Hhere.
  generalize (pushed ++ List.filter path_IsAbs
                (match ty with ElementNode => [push_target data attr] | _ => [] end)).
  intros acc. revert acc.
  induction IH as [|c cs' Hc _ IHcs]; intros acc.
  - cbn [List.filter]. by rewrite app_nil_r.
  - rewrite Hc, IHcs, List.filter_app, app_assoc. reflexivity.
Qed.

End PushFacts.

(** X9.  [WriteHTML] parses and pushes only when automatic push is
    enabled and the request is HTTP/2; otherwise the document is written
    unparsed.  A document that does not parse is not written and leaves
    the response as it was.  With a writer that can push, the targets
    pushed are the first [href] of each [link] element and the first
    [src] of each [img] and [script] element that begin with a slash, in
    document order; the outcome of a push has no influence, and without a
    pushing writer nothing is pushed.  The document is then written as
    [text/html]. *)
Theorem WriteHTML_pushes_absolute_targets {A E V M C : Type} (rt : Runtime A E)
    (a : Air A E) (enc : Encoders V M C) (ctx : PushContext)
    (h : string) (w : World A E) (pushed : list string) :
  let written :=
    WriteBlob rt a (bytes_of_string h) (set_Content_Type "text/html; charset=utf-8" w) in
  (AutoPushEnabled ctx = false \/ ProtoMajor ctx <> 2%Z ->
   WriteHTML rt a enc ctx h w pushed = (written, pushed))
  /\ (AutoPushEnabled ctx = true -> ProtoMajor ctx = 2%Z ->
      (forall err, html_Parse enc h = inl err ->
         WriteHTML rt a enc ctx h w pushed = ((Returned (Some err), w), pushed))
      /\ (forall tree, html_Parse enc h = inr tree ->
           ohrw_Push ctx = None ->
           WriteHTML rt a enc ctx h w pushed = (written, pushed))
      /\ (forall tree push, html_Parse enc h = inr tree ->
           ohrw_Push ctx = Some push ->
           WriteHTML rt a enc ctx h w pushed
           = (written, pushed ++ List.filter path_IsAbs (element_targets tree)))).
Proof.
  intros written. unfold WriteHTML. split.
  - intros [Hoff|Hproto]; [by rewrite Hoff|].
    apply Z.eqb_neq in Hproto. by rewrite Hproto, andb_false_r.
  - intros Hon Hproto. rewrite Hon, Hproto. cbn [andb Z.eqb Pos.eqb]. split_and!.
    + by intros err ->.
    + intros tree -> Hno. by rewrite push_tree_without_pusher.
    + intros tree push -> Hyes. by rewrite (push_tree_with_pusher ctx push).
Qed.

Lemma WriteHTML_pushes_absolute_targets_witness :
  AutoPushEnabled pushing = true
  /\ ProtoMajor pushing = 2%Z
  /\ html_Parse plain_enc "<html>" = inr sample_tree
  /\ ohrw_Push pushing = Some (fun _ => Some "refused")
  /\ snd (WriteHTML (plain_rt bare_air) bare_air plain_enc pushing "<html>" first_world [])
     = ["/app.css"; "//cdn.example/x.js"; "/arrow.png"]
  /\ ohrw_Push not_pushing = None
  /\ snd (WriteHTML (plain_rt bare_air) bare_air plain_enc not_pushing "<html>"
            first_world []) = []
  /\ html_Parse plain_enc "<bad" = inl "parse error"
  /\ WriteHTML (plain_rt bare_air) bare_air plain_enc pushing "<bad" first_world []
     = ((Returned (Some "parse error"), first_world), []).
Proof.
  destruct (WriteHTML_pushes_absolute_targets (plain_rt bare_air) bare_air plain_enc
              pushing "<html>" first_world []) as [_ Hon].
  destruct (Hon eq_refl eq_refl) as (_ & _ & Hpush).
  destruct (WriteHTML_pushes_absolute_targets (plain_rt bare_air) bare_air plain_enc
              not_pushing "<html>" first_world []) as [_ Hnot].
  destruct (Hnot eq_refl eq_refl) as (_ & Hnone & _).
  destruct (WriteHTML_pushes_absolute_targets (plain_rt bare_air) bare_air plain_enc
              pushing "<bad" first_world []) as [_ Hbad].
  destruct (Hbad eq_refl eq_refl) as (Herr & _).
  split; [reflexivity|]. split; [reflexivity|]. split; [reflexivity|].
  split; [reflexivity|].
  split; [by rewrite (Hpush _ _ eq_refl eq_refl)|].
  split; [reflexivity|].
  split; [by rewrite (Hnone _ eq_refl eq_refl)|].
  split; [reflexivity|]. exact (Herr _ eq_refl).
Defined.

Section RenderFacts.

Context {V M C : Type}.
Variable enc : Encoders V M C.
Variable rq : Request.




End RenderFacts.





(** ** WebSocket upgrades in the chain *)

(** X12.  How an upgrade meets the closure around the routed handler.
    After a successful upgrade the response counts as written with
    status 101, so a handler that returns [nil] gets no forced 204.  A
    refused handshake leaves the response unwritten with the status of
    the refusal, which the closure raises to 500 only when it is below
    400.  An upgrade that fails without the error callback leaves the
    response marked written with status 101.  In each case the closure
    sends nothing: the writer is as the upgrade left it. *)
Theorem upgrade_meets_finalize {A E : Type} (rt : Runtime A E)
    (ws_Upgrade : HTTPRequest -> RawWriter -> UpgradeOutcome * RawWriter)
    (w : World A E) (x : RawWriter) :
  let marked :=
    set_raw (fun _ => x) (set_res (fun r => with_Written true (with_Status 101 r)) w) in
  (ws_Upgrade (w_hreq w) (w_raw w) = (Upgraded, x) ->
   finalize rt (upgrading ws_Upgrade) w = (Returned None, marked))
  /\ (forall status err, ws_Upgrade (w_hreq w) (w_raw w) = (Refused status err, x) ->
        finalize rt (upgrading ws_Upgrade) w
        = (Returned (Some err),
           set_raw (fun _ => x)
             (set_res (fun r =>
                with_Written false
                  (with_Status (if (status <? 400)%Z then 500%Z else status) r)) w)))
  /\ (forall err, ws_Upgrade (w_hreq w) (w_raw w) = (Broken err, x) ->
        finalize rt (upgrading ws_Upgrade) w = (Returned (Some err), marked)
        /\ Written (w_res marked) = true
        /\ Status (w_res marked) = 101%Z).
Proof.
  intros marked. destruct w as [hr rq rs x0 e]. destruct rs.
  unfold finalize, upgrading, WebSocket, mark_switching, upgrader_Error.
  cbn [set_res w_hreq w_raw w_res].
  split_and!.
  - by intros ->.
  - intros status err ->.
    cbn [set_res set_raw w_res w_raw with_Written with_Status Written Status].
    unfold StatusBadRequest, StatusInternalServerError.
    by destruct (status <? 400)%Z.
  - by intros err ->.
Qed.

Lemma upgrade_meets_finalize_witness :
  accept_upgrade (w_hreq first_world) (w_raw first_world) = (Upgraded, w_raw first_world)
  /\ fst (finalize (plain_rt bare_air) (upgrading accept_upgrade) first_world)
     = Returned None
  /\ rwStatus (w_raw (snd (finalize (plain_rt bare_air) (upgrading accept_upgrade)
                             first_world))) = []
  /\ fst (refuse_upgrade (w_hreq first_world) (w_raw first_world))
     = Refused 400 "websocket: not a websocket handshake"
  /\ Status (w_res (snd (finalize (plain_rt bare_air) (upgrading refuse_upgrade)
                           first_world))) = 400%Z
  /\ Written (w_res (snd (finalize (plain_rt bare_air) (upgrading refuse_upgrade)
                            first_world))) = false.
Proof.
  destruct (upgrade_meets_finalize (plain_rt bare_air) accept_upgrade first_world
              (w_raw first_world)) as (Hok & _ & _).
  destruct (upgrade_meets_finalize (plain_rt bare_air) refuse_upgrade first_world
              (snd (refuse_upgrade (w_hreq first_world) (w_raw first_world))))
    as (_ & Hrefused & _).
  split; [reflexivity|].
  rewrite (Hok eq_refl). split; [reflexivity|]. split; [reflexivity|].
  split; [reflexivity|].
  rewrite (Hrefused _ _ eq_refl). split; reflexivity.
Defined.

(** ** The listeners *)

(** X13.  The certificate callback of the ACME branch puts the host
    policy first: a name that is not allowed is answered as in the static
    branch, by closing the connection, also when the name is an IP
    address.  An allowed IP address gets the error "unchallengeable host"
    on an untouched connection.  For any other allowed name the answer
    is the manager's, asked with the name in lower case, which is also
    the name the handshake information holds afterwards. *)
Theorem auto_certificate_gate {A E : Type} (rt : Runtime A E) (a : Air A E)
    (env : ServeEnv) (c : Certificate) (chi : ClientHelloInfo) :
  (allowedHost rt a (ServerName chi) = false ->
   GetCertificate_auto rt a env chi = GetCertificate rt a c chi
   /\ fst (fst (GetCertificate_auto rt a env chi)) = None
   /\ conn_closed (chi_Conn (snd (GetCertificate_auto rt a env chi))) = true)
  /\ (allowedHost rt a (ServerName chi) = true ->
      net_ParseIP env (ServerName chi) = true ->
      GetCertificate_auto rt a env chi
      = ((None, Some ("air: unchallengeable host: " +:+ ServerName chi)), chi))
  /\ (allowedHost rt a (ServerName chi) = true ->
      net_ParseIP env (ServerName chi) = false ->
      let lowered :=
        mkClientHelloInfo (strings_ToLower env (ServerName chi)) (chi_Conn chi) in
      GetCertificate_auto rt a env chi = (acm_GetCertificate env lowered, lowered)).
Proof.
  unfold GetCertificate_auto, GetCertificate. split_and!.
  - intros Hno. by rewrite Hno.
  - intros Hyes Hip. by rewrite Hyes, Hip.
  - intros Hyes Hip. by rewrite Hyes, Hip.
Qed.

Lemma auto_certificate_gate_witness :
  allowedHost (plain_rt acme_air) acme_air "10.0.0.1" = false
  /\ conn_closed (chi_Conn (snd (GetCertificate_auto (plain_rt acme_air) acme_air
                                   (plain_env ":443") (hello "10.0.0.1")))) = true
  /\ allowedHost (plain_rt bare_air) bare_air "10.0.0.1" = true
  /\ net_ParseIP (plain_env ":443") "10.0.0.1" = true
  /\ GetCertificate_auto (plain_rt bare_air) bare_air (plain_env ":443") (hello "10.0.0.1")
     = ((None, Some "air: unchallengeable host: 10.0.0.1"), hello "10.0.0.1")
  /\ allowedHost (plain_rt acme_air) acme_air "Example.COM" = true
  /\ net_ParseIP (plain_env ":443") "Example.COM" = false
  /\ GetCertificate_auto (plain_rt acme_air) acme_air (plain_env ":443")
       (hello "Example.COM")
     = ((Some (bytes_of_string "example.com"), None), hello "example.com").
Proof.
  destruct (auto_certificate_gate (plain_rt acme_air) acme_air (plain_env ":443")
              key_pair (hello "10.0.0.1")) as (Hclosed & _ & _).
  destruct (auto_certificate_gate (plain_rt bare_air) bare_air (plain_env ":443")
              key_pair (hello "10.0.0.1")) as (_ & Hip & _).
  destruct (auto_certificate_gate (plain_rt acme_air) acme_air (plain_env ":443")
              key_pair (hello "Example.COM")) as (_ & _ & Hname).
  split; [reflexivity|].
  split; [exact (proj2 (proj2 (Hclosed eq_refl)))|].
  split; [reflexivity|]. split; [reflexivity|].
  split; [exact (Hip eq_refl eq_refl)|].
  split; [reflexivity|]. split; [reflexivity|].
  exact (Hname eq_refl eq_refl).
Defined.

Lemma string_append_assoc (s1 s2 s3 : string) :
  (s1 +:+ s2) +:+ s3 = s1 +:+ (s2 +:+ s3).
Proof.
  induction s1 as [|c s1 IH]; [reflexivity|].
  change (String c ((s1 +:+ s2) +:+ s3) = String c (s1 +:+ (s2 +:+ s3))).
  by rewrite IH.
Qed.

(** X14.  Without a key pair, and with ACME switched off or debug mode
    on, [serve] starts one plain listener on the configured address (host
    and port in lower case) and no listener on port 80: the redirect
    handler that [HTTPSEnforced] asks for in the two TLS branches is never
    installed in this one. *)
Theorem serve_without_certificates {A E : Type} (rt : Runtime A E) (a : Air A E)
    (env : ServeEnv) (host port : string) :
  net_SplitHostPort rt (Address env) = (host, port, None) ->
  TLSCertFile a = "" \/ TLSKeyFile a = "" ->
  DebugMode a = true \/ ACMEEnabled a = false ->
  serve rt a env
  = inr (mkPlan (strings_ToLower env host +:+ ":" +:+ strings_ToLower env port)
           Plaintext None).
Proof.
  intros Hsplit Hfiles Hacme. unfold serve. rewrite Hsplit.
  assert (Hstatic : negb (TLSCertFile a =? "") && negb (TLSKeyFile a =? "") = false).
  { destruct Hfiles as [-> | ->]; [done | by rewrite andb_false_r]. }
  assert (Hauto : negb (DebugMode a) && ACMEEnabled a = false).
  { destruct Hacme as [-> | ->]; [done | by rewrite andb_false_r]. }
  by rewrite Hstatic, Hauto.
Qed.

Lemma serve_without_certificates_witness :
  net_SplitHostPort (plain_rt acme_debug_air) (Address (plain_env "Example.com:8080"))
  = ("Example.com", "8080", None)
  /\ (TLSCertFile acme_debug_air = "" \/ TLSKeyFile acme_debug_air = "")
  /\ (DebugMode acme_debug_air = true \/ ACMEEnabled acme_debug_air = false)
  /\ HTTPSEnforced acme_debug_air = true
  /\ serve (plain_rt acme_debug_air) acme_debug_air (plain_env "Example.com:8080")
     = inr (mkPlan "example.com:8080" Plaintext None).
Proof.
  split; [reflexivity|]. split; [by left|]. split; [by left|]. split; [reflexivity|].
  exact (serve_without_certificates (plain_rt acme_debug_air) acme_debug_air
           (plain_env "Example.com:8080") "Example.com" "8080" eq_refl
           (or_introl eq_refl) (or_introl eq_refl)).
Defined.

(** X15.  In the ACME branch the TLS listener is bound to port 443 of the
    configured host whatever the configured port, and a listener on port
    80 always exists; it falls back to the redirect handler exactly when
    HTTPS is enforced and the configured port is neither 80 nor [https].
    That handler still redirects to the configured port: for a port other
    than 443 and [https] a request for a host name is sent to
    [https://host:port], not to the port the TLS listener is bound to. *)
Theorem auto_tls_listens_on_443 {A E : Type} (rt : Runtime A E) (a : Air A E)
    (env : ServeEnv) (host port uri : string) (r : HTTPRequest) :
  net_SplitHostPort rt (Address env) = (host, port, None) ->
  TLSCertFile a = "" \/ TLSKeyFile a = "" ->
  DebugMode a = false ->
  ACMEEnabled a = true ->
  let h := strings_ToLower env host in
  let p := strings_ToLower env port in
  (exists fallback,
     serve rt a env
     = inr (mkPlan (h +:+ ":443") AutoTLS (Some (h +:+ ":80", Challenges fallback)))
     /\ (fallback = FallbackRedirect
         <-> HTTPSEnforced a = true /\ p <> "80" /\ p <> "https"))
  /\ (p <> "443" -> p <> "https" ->
      net_ParseIP env (host_part rt (Host r)) = false ->
      redirector rt env p r uri
      = MovedTo ("https://" +:+ host_part rt (Host r) +:+ ":" +:+ p +:+ uri) 301)
  /\ (forall h' p' e, net_SplitHostPort rt (Host r) = (h', p', e) ->
        host_part rt (Host r) = (if h' =? "" then Host r else h')).
Proof.
  intros Hsplit Hfiles Hdebug Hacme h p.
  split; [|split; [|intros h' p' e; apply host_part_spec]].
  - unfold serve. rewrite Hsplit. fold h p.
    assert (Hstatic : negb (TLSCertFile a =? "") && negb (TLSKeyFile a =? "") = false).
    { destruct Hfiles as [-> | ->]; [done | by rewrite andb_false_r]. }
    rewrite Hstatic, Hdebug, Hacme. cbn [negb andb].
    eexists. split; [reflexivity|].
    destruct (HTTPSEnforced a); cbn [andb]; [|by split; [|intros [? _]]].
    destruct (String.eqb_spec p "80") as [H80|H80]; cbn [negb andb];
      [by split; [|intros (_ & ? & _)]|].
    destruct (String.eqb_spec p "https") as [Hs|Hs]; cbn [negb];
      [by split; [|intros (_ & _ & ?)]|].
    done.
  - intros H443 Hs Hip. unfold redirector. rewrite Hip. cbn [negb].
    apply String.eqb_neq in H443, Hs. rewrite H443, Hs. cbn [negb andb].
    by rewrite !string_append_assoc.
Qed.

Lemma auto_tls_listens_on_443_witness :
  net_SplitHostPort (plain_rt acme_air) (Address (plain_env "example.com:8443"))
  = ("example.com", "8443", None)
  /\ serve (plain_rt acme_air) acme_air (plain_env "example.com:8443")
     = inr (mkPlan "example.com:443" AutoTLS
              (Some ("example.com:80", Challenges FallbackRedirect)))
  /\ redirector (plain_rt acme_air) (plain_env "example.com:8443") "8443"
       (mkHTTPRequest "GET" "example.com:80" ∅) "/a?b=c"
     = MovedTo "https://example.com:8443/a?b=c" 301.
Proof.
  destruct (auto_tls_listens_on_443 (plain_rt acme_air) acme_air
              (plain_env "example.com:8443") "example.com" "8443" "/a?b=c"
              (mkHTTPRequest "GET" "example.com:80" ∅) eq_refl (or_introl eq_refl)
              eq_refl eq_refl) as (_ & Hmoved & _).
  split; [reflexivity|]. split; [reflexivity|].
  exact (Hmoved ltac:(discriminate) ltac:(discriminate) eq_refl).
Defined.

(** X16.  The redirect handler behind the host gate of the listener on
    port 80: for a host that is not allowed the connection is hijacked
    and closed when the writer yields one, and nothing at all is done
    otherwise; such a request is never redirected nor forwarded.  For an
    allowed host that is an IP address the request is forwarded to the
    h2c handler; for any other allowed host it is redirected with status
    301 to [https://], the host without the port it came with, the
    configured port unless that is 443 or [https], and the request
    URI. *)
Theorem port_80_request {A E : Type} (rt : Runtime A E) (a : Air A E) (env : ServeEnv)
    (port uri : string) (hijackable : bool) (r : HTTPRequest) :
  let answer := gated rt a hijackable r (redirector rt env port r uri) in
  (allowedHost rt a (Host r) = false ->
   answer = (if hijackable then ConnectionClosed else Ignored))
  /\ (allowedHost rt a (Host r) = true ->
      net_ParseIP env (host_part rt (Host r)) = true -> answer = Forwarded)
  /\ (allowedHost rt a (Host r) = true ->
      net_ParseIP env (host_part rt (Host r)) = false ->
      answer
      = MovedTo
          ("https://" +:+ host_part rt (Host r)
           +:+ (if (port =? "443") || (port =? "https") then "" else ":" +:+ port)
           +:+ uri) 301)
  /\ (forall h p e, net_SplitHostPort rt (Host r) = (h, p, e) ->
        host_part rt (Host r) = (if h =? "" then Host r else h)).
Proof.
  intros answer. subst answer. unfold gated, redirector. split_and!;
    [| | |intros h p e; apply host_part_spec].
  - by intros ->.
  - intros -> Hip. by rewrite Hip.
  - intros -> Hip. rewrite Hip. cbn [negb].
    destruct (port =? "443"); destruct (port =? "https"); cbn [negb andb orb];
      try reflexivity.
    by rewrite !string_append_assoc.
Qed.

Lemma port_80_request_witness :
  allowedHost (plain_rt acme_air) acme_air "evil.test" = false
  /\ gated (plain_rt acme_air) acme_air false (mkHTTPRequest "GET" "evil.test" ∅)
       (redirector (plain_rt acme_air) (plain_env ":443") "443"
          (mkHTTPRequest "GET" "evil.test" ∅) "/") = Ignored
  /\ allowedHost (plain_rt bare_air) bare_air "10.0.0.1:80" = true
  /\ net_ParseIP (plain_env ":443") (host_part (plain_rt bare_air) "10.0.0.1:80") = true
  /\ gated (plain_rt bare_air) bare_air true (mkHTTPRequest "GET" "10.0.0.1:80" ∅)
       (redirector (plain_rt bare_air) (plain_env ":443") "443"
          (mkHTTPRequest "GET" "10.0.0.1:80" ∅) "/") = Forwarded
  /\ allowedHost (plain_rt acme_air) acme_air "Example.com:80" = true
  /\ net_ParseIP (plain_env ":443") (host_part (plain_rt acme_air) "Example.com:80") = false
  /\ gated (plain_rt acme_air) acme_air true (mkHTTPRequest "GET" "Example.com:80" ∅)
       (redirector (plain_rt acme_air) (plain_env ":443") "443"
          (mkHTTPRequest "GET" "Example.com:80" ∅) "/a?b=c")
     = MovedTo "https://Example.com/a?b=c" 301
  /\ host_part (plain_rt acme_air) "example.com" = "example.com"
  /\ gated (plain_rt acme_air) acme_air true (mkHTTPRequest "GET" "example.com" ∅)
       (redirector (plain_rt acme_air) (plain_env ":8443") "8443"
          (mkHTTPRequest "GET" "example.com" ∅) "/")
     = MovedTo "https://example.com:8443/" 301.
Proof.
  destruct (port_80_request (plain_rt acme_air) acme_air (plain_env ":443") "443" "/"
              false (mkHTTPRequest "GET" "evil.test" ∅)) as (Hno & _ & _).
  destruct (port_80_request (plain_rt bare_air) bare_air (plain_env ":443") "443" "/"
              true (mkHTTPRequest "GET" "10.0.0.1:80" ∅)) as (_ & Hip & _).
  destruct (port_80_request (plain_rt acme_air) acme_air (plain_env ":443") "443" "/a?b=c"
              true (mkHTTPRequest "GET" "Example.com:80" ∅)) as (_ & _ & Hname & _).
  destruct (port_80_request (plain_rt acme_air) acme_air (plain_env ":8443") "8443" "/"
              true (mkHTTPRequest "GET" "example.com" ∅)) as (_ & _ & Hbare & Hpart).
  split; [reflexivity|]. split; [exact (Hno eq_refl)|].
  split; [reflexivity|]. split; [reflexivity|]. split; [exact (Hip eq_refl eq_refl)|].
  split; [reflexivity|]. split; [reflexivity|]. split; [exact (Hname eq_refl eq_refl)|].
  split; [exact (Hpart "" "" (Some "missing port in address") eq_refl)|].
  exact (Hbare eq_refl eq_refl).
Defined.

(** ** Files *)

Section FileFacts.

Context {A E : Type}.
Variable rt : Runtime A E.
Variable fs : FileSystem.

Local Abbreviation World := (World A E).

Lemma headers_kept_refl (ks : list string) (w : World) : headers_kept ks w w.
Proof. by repeat split. Qed.

Lemma headers_kept_trans (ks : list string) (w1 w2 w3 : World) :
  headers_kept ks w1 w2 -> headers_kept ks w2 w3 -> headers_kept ks w1 w3.
Proof.
  intros (Hs1 & Ho1 & ? & ? & ? & ? & ? & ?) (Hs2 & Ho2 & ? & ? & ? & ? & ? & ?).
  split_and!; try congruence.
  - intros k Hk. rewrite Hs2; [by apply Hs1|].
    unfold Header_Get in *. by rewrite Hs1.
  - intros k Hk. by rewrite Ho2, Ho1.
Qed.

Lemma headers_kept_set (ks : list string) (k v : string) (w : World) :
  k ∈ ks ->
  Header_Get (Response_Header w) k = "" ->
  headers_kept ks w (set_Header k v w).
Proof.
  intros Hin Hempty. unfold headers_kept, set_Header, Response_Header, Header_Set.
  cbn [set_raw w_raw w_res w_req w_hreq w_env with_rwHeader rwHeader rwStatus rwBody].
  split_and!; try done.
  - intros k' Hk'. rewrite lookup_insert_ne; [done|]. by intros ->.
  - intros k' Hk'. rewrite lookup_insert_ne; [done|]. by intros ->.
Qed.

Lemma headers_kept_fill (ks : list string) (k v : string) (w : World) :
  k ∈ ks ->
  headers_kept ks w
    (if Header_Get (Response_Header w) k =? "" then set_Header k v w else w).
Proof.
  intros Hin. destruct (String.eqb_spec (Header_Get (Response_Header w) k) "").
  - by apply headers_kept_set.
  - apply headers_kept_refl.
Qed.

Lemma WriteFile_serve_keeps (filename : string) (w : World) :
  match WriteFile_serve fs filename w with
  | FileFailed _ w' => headers_kept ["Content-Type"; "Etag"; "Last-Modified"] w w'
  | FileRedirected _ => False
  | FileReady _ w' =>
      headers_kept ["Content-Type"; "Etag"; "Last-Modified"] w w'
      /\ is_Some (Response_Header w' !! "Etag")
      /\ is_Some (Response_Header w' !! "Last-Modified")
  end.
Proof.
  set (ks := ["Content-Type"; "Etag"; "Last-Modified"]).
  assert (Hct : "Content-Type" ∈ ks) by repeat constructor.
  assert (Het : "Etag" ∈ ks) by repeat constructor.
  assert (Hlm : "Last-Modified" ∈ ks) by repeat constructor.
  assert (Hsome : forall (k v : string) (w0 : World),
            is_Some (Response_Header
                       (if Header_Get (Response_Header w0) k =? ""
                        then set_Header k v w0 else w0) !! k)).
  { intros k v w0.
    destruct (String.eqb_spec (Header_Get (Response_Header w0) k) "") as [|Hne].
    - unfold set_Header, Response_Header, Header_Set.
      cbn [set_raw w_raw with_rwHeader rwHeader]. rewrite lookup_insert_eq. eauto.
    - unfold Header_Get in Hne. destruct (Response_Header w0 !! k); [eauto | done]. }
  unfold WriteFile_serve.
  destruct (match coffer_asset fs filename with
            | inl err => inl err
            | inr (Some x) => _
            | inr None => _
            end) as [err|[[[c ct] et] mt]]; [apply headers_kept_refl|].
  set (w1 := if Header_Get (Response_Header w) "Content-Type" =? "" then _ else w).
  assert (H1 : headers_kept ks w w1).
  { subst w1. destruct (String.eqb_spec (Header_Get (Response_Header w) "Content-Type") "");
      [|apply headers_kept_refl].
    destruct (negb _); [by apply headers_kept_set | apply headers_kept_refl]. }
  clearbody w1.
  destruct (String.eqb_spec (Header_Get (Response_Header w1) "Etag") "") as [Hempty|Hset].
  - assert (Htag : forall sum, headers_kept ks w (set_Header "Etag" (quoted_hex fs sum) w1)).
    { intros sum. eapply headers_kept_trans; [exact H1|]. by apply headers_kept_set. }
    assert (Hready : forall sum,
              let w2 := set_Header "Etag" (quoted_hex fs sum) w1 in
              let w3 := if Header_Get (Response_Header w2) "Last-Modified" =? ""
                        then set_Header "Last-Modified" (http_time fs mt) w2 else w2 in
              headers_kept ks w w3
              /\ is_Some (Response_Header w3 !! "Etag")
              /\ is_Some (Response_Header w3 !! "Last-Modified")).
    { intros sum w2 w3. split; [|split].
      - eapply headers_kept_trans; [apply Htag|]. by apply headers_kept_fill.
      - pose proof (headers_kept_fill ks "Last-Modified" (http_time fs mt) w2 Hlm)
          as (_ & Hother & _).
        subst w3.
        destruct (String.eqb_spec (Header_Get (Response_Header w2) "Last-Modified") "").
        + unfold w2, set_Header, Response_Header, Header_Set.
          cbn [set_raw w_raw with_rwHeader rwHeader].
          rewrite lookup_insert_ne by done. rewrite lookup_insert_eq. eauto.
        + unfold w2, set_Header, Response_Header, Header_Set.
          cbn [set_raw w_raw with_rwHeader rwHeader].
          rewrite lookup_insert_eq. eauto.
      - apply Hsome. }
    destruct et as [sum|].
    + apply (Hready sum).
    + destruct (sha256_of fs (rd_left c)) as [err|sum]; [exact H1|].
      apply (Hready sum).
  - split; [|split].
    + eapply headers_kept_trans; [exact H1|]. by apply headers_kept_fill.
    + assert (Hthere : is_Some (Response_Header w1 !! "Etag")).
      { unfold Header_Get in Hset. destruct (Response_Header w1 !! "Etag"); [eauto|done]. }
      destruct (String.eqb_spec (Header_Get (Response_Header w1) "Last-Modified") "");
        [|done].
      unfold set_Header, Response_Header, Header_Set.
      cbn [set_raw w_raw with_rwHeader rwHeader].
      by rewrite lookup_insert_ne.
    + apply Hsome.
Qed.

End FileFacts.

(** X17.  [WriteFile] on a directory whose URL path lacks the trailing
    slash never opens a file: it redirects with status 301, whatever the
    status of the response was, to the last element of the path followed
    by a slash and, when there is one, by the query. *)
Theorem directory_is_redirected_permanently {A E : Type} (rt : Runtime A E)
    (fs : FileSystem) (hru : URL) (filename abs : string) (w : World A E) :
  filepath_Abs fs filename = inr abs ->
  os_Stat fs abs = inr true ->
  hasLastSlash (EscapedPath hru) = false ->
  let target :=
    if RawQuery hru =? "" then path_Base fs (EscapedPath hru) +:+ "/"
    else (path_Base fs (EscapedPath hru) +:+ "/") +:+ "?" +:+ RawQuery hru in
  WriteFile rt fs hru filename w
  = FileRedirected
      (Returned None,
       set_sink
         (http_Redirect rt target 301 (w_hreq w) (with_Status 301 (w_res w), w_raw w)) w).
Proof.
  intros Habs Hdir Hslash target. unfold WriteFile. rewrite Habs, Hdir, Hslash.
  cbn [negb]. f_equal. subst target.
  destruct w as [hr rq rs x e]. destruct rs. unfold Redirect.
  cbn [set_res w_res with_Status Status]. unfold StatusMovedPermanently.
  cbn [Z.ltb Z.leb Z.compare Pos.compare Pos.compare_cont orb].
  by destruct (RawQuery hru =? "").
Qed.

Lemma directory_is_redirected_permanently_witness :
  filepath_Abs plain_fs "docs" = inr "/srv/docs"
  /\ os_Stat plain_fs "/srv/docs" = inr true
  /\ hasLastSlash (EscapedPath (mkURL "/docs" "page=2")) = false
  /\ (exists w',
        WriteFile (plain_rt bare_air) plain_fs (mkURL "/docs" "page=2") "docs"
          (set_res (with_Status 404) first_world)
        = FileRedirected (Returned None, w')
        /\ rwStatus (w_raw w') = [301%Z]
        /\ Response_Header w' !! "Location" = Some ["docs/?page=2"]).
Proof.
  split; [reflexivity|]. split; [reflexivity|]. split; [reflexivity|].
  eexists. split.
  - exact (directory_is_redirected_permanently (plain_rt bare_air) plain_fs
             (mkURL "/docs" "page=2") "docs" "/srv/docs"
             (set_res (with_Status 404) first_world) eq_refl eq_refl eq_refl).
  - split; reflexivity.
Defined.

(** X18.  When [WriteFile] gets as far as writing, or fails on the way,
    it has sent nothing and has changed nothing but the headers
    [Content-Type], [ETag] and [Last-Modified], and of these only the
    ones that had no value: a value set by the handler is never
    replaced.  When it gets to writing, [ETag] and [Last-Modified] are
    set. *)
Theorem WriteFile_keeps_set_headers {A E : Type} (rt : Runtime A E) (fs : FileSystem)
    (hru : URL) (filename : string) (w w' : World A E) :
  (exists c, WriteFile rt fs hru filename w = FileReady c w')
  \/ (exists err, WriteFile rt fs hru filename w = FileFailed err w') ->
  (forall k, Header_Get (Response_Header w) k <> "" ->
     Response_Header w' !! k = Response_Header w !! k)
  /\ (forall k, k <> "Content-Type" -> k <> "Etag" -> k <> "Last-Modified" ->
        Response_Header w' !! k = Response_Header w !! k)
  /\ w_res w' = w_res w
  /\ rwStatus (w_raw w') = rwStatus (w_raw w)
  /\ rwBody (w_raw w') = rwBody (w_raw w)
  /\ ((exists c, WriteFile rt fs hru filename w = FileReady c w') ->
      is_Some (Response_Header w' !! "Etag")
      /\ is_Some (Response_Header w' !! "Last-Modified")).
Proof.
  intros Hout.
  assert (Hkept : headers_kept ["Content-Type"; "Etag"; "Last-Modified"] w w'
                  /\ ((exists c, WriteFile rt fs hru filename w = FileReady c w') ->
                      is_Some (Response_Header w' !! "Etag")
                      /\ is_Some (Response_Header w' !! "Last-Modified"))).
  { unfold WriteFile in *.
    destruct (filepath_Abs fs filename) as [err|abs].
    { destruct Hout as [[c [=]]|[err' [= _ <-]]].
      split; [apply headers_kept_refl | by intros [c [=]]]. }
    destruct (os_Stat fs abs) as [err|[|]].
    { destruct Hout as [[c [=]]|[err' [= _ <-]]].
      split; [apply headers_kept_refl | by intros [c [=]]]. }
    - destruct (negb (hasLastSlash (EscapedPath hru))).
      { by destruct Hout as [[c [=]]|[err' [=]]]. }
      pose proof (WriteFile_serve_keeps fs (abs +:+ "index.html") w) as Hserve.
      destruct (WriteFile_serve fs (abs +:+ "index.html") w) as [err w0| |c w0].
      + destruct Hout as [[c [=]]|[err' [= _ <-]]]. split; [done | by intros [c [=]]].
      + done.
      + destruct Hout as [[c' [= _ <-]]|[err' [=]]]. destruct Hserve as (? & ? & ?).
        by split.
    - pose proof (WriteFile_serve_keeps fs abs w) as Hserve.
      destruct (WriteFile_serve fs abs w) as [err w0| |c w0].
      + destruct Hout as [[c [=]]|[err' [= _ <-]]]. split; [done | by intros [c [=]]].
      + done.
      + destruct Hout as [[c' [= _ <-]]|[err' [=]]]. destruct Hserve as (? & ? & ?).
        by split. }
  destruct Hkept as [(Hset & Hother & Hres & _ & _ & _ & Hs & Hb) Hready].
  split; [exact Hset|]. split.
  - intros k H1 H2 H3. apply Hother. intros Hin.
    apply list_elem_of_In in Hin. destruct Hin as [<-|[<-|[<-|[]]]]; done.
  - done.
Qed.

Lemma WriteFile_keeps_set_headers_witness :
  WriteFile (plain_rt bare_air) plain_fs (mkURL "/page.html" "") "page.html"
    (set_Header "Etag" "mine" first_world)
  = FileReady (mkReader (bytes_of_string "<p>") (bytes_of_string "<p>"))
      (set_Header "Last-Modified" "date"
         (set_Header "Content-Type" "text/html" (set_Header "Etag" "mine" first_world)))
  /\ Response_Header
       (set_Header "Last-Modified" "date"
          (set_Header "Content-Type" "text/html" (set_Header "Etag" "mine" first_world)))
       !! "Etag" = Some ["mine"].
Proof.
  assert (Hready : WriteFile (plain_rt bare_air) plain_fs (mkURL "/page.html" "")
                     "page.html" (set_Header "Etag" "mine" first_world)
                   = FileReady (mkReader (bytes_of_string "<p>") (bytes_of_string "<p>"))
                       (set_Header "Last-Modified" "date"
                          (set_Header "Content-Type" "text/html"
                             (set_Header "Etag" "mine" first_world))))
    by reflexivity.
  split; [exact Hready|].
  destruct (WriteFile_keeps_set_headers (plain_rt bare_air) plain_fs
              (mkURL "/page.html" "") "page.html" (set_Header "Etag" "mine" first_world)
              _ (or_introl (ex_intro _ _ Hready))) as (Hset & _).
  rewrite (Hset "Etag"); [reflexivity | discriminate].
Defined.

Section FileTags.

Context {A E : Type}.
Variable fs : FileSystem.

Local Abbreviation World := (World A E).

(** The step of [WriteFile] that fills in the content type leaves the
    other headers alone. *)
Lemma content_type_step (ct filename : string) (w : World) (k : string) :
  k <> "Content-Type" ->
  Response_Header
    (if Header_Get (Response_Header w) "Content-Type" =? "" then
       if negb ((if ct =? "" then mime_TypeByExtension fs filename else ct) =? "")
       then set_Header "Content-Type"
              (if ct =? "" then mime_TypeByExtension fs filename else ct) w
       else w
     else w) !! k
  = Response_Header w !! k.
Proof.
  intros Hk. destruct (Header_Get (Response_Header w) "Content-Type" =? ""); [|done].
  destruct (negb _); [|done].
  unfold set_Header, Response_Header, Header_Set.
  cbn [set_raw w_raw with_rwHeader rwHeader]. by rewrite lookup_insert_ne.
Qed.

Lemma last_modified_step (v : string) (w : World) (k : string) :
  k <> "Last-Modified" ->
  Response_Header
    (if Header_Get (Response_Header w) "Last-Modified" =? ""
     then set_Header "Last-Modified" v w else w) !! k
  = Response_Header w !! k.
Proof.
  intros Hk. destruct (Header_Get (Response_Header w) "Last-Modified" =? ""); [|done].
  unfold set_Header, Response_Header, Header_Set.
  cbn [set_raw w_raw with_rwHeader rwHeader]. by rewrite lookup_insert_ne.
Qed.

Lemma WriteFile_serve_cached (filename : string) (x : Asset) (w : World) :
  coffer_asset fs filename = inr (Some x) ->
  exists w',
    WriteFile_serve fs filename w
    = FileReady (mkReader (asset_content x) (asset_content x)) w'
    /\ (Header_Get (Response_Header w) "Etag" = "" ->
        Response_Header w' !! "Etag" = Some [quoted_hex fs (asset_checksum x)]).
Proof.
  intros Hasset. unfold WriteFile_serve. rewrite Hasset.
  set (w1 := if Header_Get (Response_Header w) "Content-Type" =? "" then _ else w).
  assert (Htag : Header_Get (Response_Header w1) "Etag"
                 = Header_Get (Response_Header w) "Etag").
  { unfold Header_Get. subst w1. by rewrite content_type_step. }
  clearbody w1. rewrite Htag.
  destruct (String.eqb_spec (Header_Get (Response_Header w) "Etag") "") as [Hempty|Hset].
  - eexists. split; [reflexivity|]. intros _. rewrite last_modified_step by done.
    unfold set_Header, Response_Header, Header_Set.
    cbn [set_raw w_raw with_rwHeader rwHeader]. by rewrite lookup_insert_eq.
  - eexists. split; [reflexivity|]. done.
Qed.

Lemma WriteFile_serve_disk (filename : string) (f : OpenFile) (mt : Z) (w : World) :
  coffer_asset fs filename = inr None ->
  os_Open fs filename = inr f ->
  file_Stat f = inr mt ->
  (Header_Get (Response_Header w) "Etag" <> "" ->
   exists w',
     WriteFile_serve fs filename w
     = FileReady (mkReader (file_bytes f) (file_bytes f)) w'
     /\ Response_Header w' !! "Etag" = Response_Header w !! "Etag")
  /\ (Header_Get (Response_Header w) "Etag" = "" ->
      (forall sum, sha256_of fs (file_bytes f) = inr sum ->
         exists w',
           WriteFile_serve fs filename w = FileReady (mkReader (file_bytes f) []) w'
           /\ Response_Header w' !! "Etag" = Some [quoted_hex fs sum])
      /\ (forall err, sha256_of fs (file_bytes f) = inl err ->
            exists w', WriteFile_serve fs filename w = FileFailed err w')).
Proof.
  intros Hasset Hopen Hstat. unfold WriteFile_serve. rewrite Hasset, Hopen, Hstat.
  set (w1 := if Header_Get (Response_Header w) "Content-Type" =? "" then _ else w).
  assert (Hlook : Response_Header w1 !! "Etag" = Response_Header w !! "Etag").
  { subst w1. by rewrite content_type_step. }
  assert (Htag : Header_Get (Response_Header w1) "Etag"
                 = Header_Get (Response_Header w) "Etag").
  { unfold Header_Get. by rewrite Hlook. }
  clearbody w1. rewrite Htag. split.
  - intros Hset. apply String.eqb_neq in Hset. rewrite Hset.
    eexists. split; [reflexivity|]. by rewrite last_modified_step.
  - intros Hempty. rewrite Hempty. cbn [String.eqb rd_left rd_all]. split.
    + intros sum ->. eexists. split; [reflexivity|].
      rewrite last_modified_step by done.
      unfold set_Header, Response_Header, Header_Set.
      cbn [set_raw w_raw with_rwHeader rwHeader]. by rewrite lookup_insert_eq.
    + intros err ->. by eexists.
Qed.

End FileTags.

(** X19.  [WriteFile] reads a file for its checksum only when it has to.
    For an asset of the coffer the [ETag] comes from the checksum of the
    coffer.  For a file from disk with an [ETag] already set nothing is
    read and the header stays; with no [ETag] set the file is read to its
    end for the SHA-256, so that the reader handed to [Write] has nothing
    left from its position on, and a failed read ends the call with its
    error. *)
Theorem WriteFile_hashes_when_needed {A E : Type} (rt : Runtime A E) (fs : FileSystem)
    (hru : URL) (filename abs : string) (w : World A E) :
  filepath_Abs fs filename = inr abs ->
  os_Stat fs abs = inr false ->
  (forall x, coffer_asset fs abs = inr (Some x) ->
     exists w',
       WriteFile rt fs hru filename w
       = FileReady (mkReader (asset_content x) (asset_content x)) w'
       /\ (Header_Get (Response_Header w) "Etag" = "" ->
           Response_Header w' !! "Etag" = Some [quoted_hex fs (asset_checksum x)]))
  /\ (forall f mt,
        coffer_asset fs abs = inr None ->
        os_Open fs abs = inr f ->
        file_Stat f = inr mt ->
        (Header_Get (Response_Header w) "Etag" <> "" ->
         exists w',
           WriteFile rt fs hru filename w
           = FileReady (mkReader (file_bytes f) (file_bytes f)) w'
           /\ Response_Header w' !! "Etag" = Response_Header w !! "Etag")
        /\ (Header_Get (Response_Header w) "Etag" = "" ->
            (forall sum, sha256_of fs (file_bytes f) = inr sum ->
               exists w',
                 WriteFile rt fs hru filename w
                 = FileReady (mkReader (file_bytes f) []) w'
                 /\ Response_Header w' !! "Etag" = Some [quoted_hex fs sum])
            /\ (forall err, sha256_of fs (file_bytes f) = inl err ->
                  exists w', WriteFile rt fs hru filename w = FileFailed err w'))).
Proof.
  intros Habs Hfile. unfold WriteFile. rewrite Habs, Hfile. split.
  - intros x Hasset. by apply WriteFile_serve_cached.
  - intros f mt Hasset Hopen Hstat.
    exact (WriteFile_serve_disk fs abs f mt w Hasset Hopen Hstat).
Qed.

Lemma WriteFile_hashes_when_needed_witness :
  filepath_Abs plain_fs "page.html" = inr "/srv/page.html"
  /\ os_Stat plain_fs "/srv/page.html" = inr false
  /\ coffer_asset plain_fs "/srv/page.html" = inr None
  /\ os_Open plain_fs "/srv/page.html" = inr (mkOpenFile (bytes_of_string "<p>") (inr 9%Z))
  /\ Header_Get (Response_Header first_world) "Etag" = ""
  /\ sha256_of plain_fs (bytes_of_string "<p>") = inr (bytes_of_string "hash")
  /\ (exists w',
        WriteFile (plain_rt bare_air) plain_fs (mkURL "/page.html" "") "page.html"
          first_world
        = FileReady (mkReader (bytes_of_string "<p>") []) w'
        /\ Response_Header w' !! "Etag" = Some ["etag"])
  /\ filepath_Abs plain_fs "app.css" = inr "/srv/app.css"
  /\ os_Stat plain_fs "/srv/app.css" = inr false
  /\ (exists w',
        WriteFile (plain_rt bare_air) plain_fs (mkURL "/app.css" "") "app.css" first_world
        = FileReady (mkReader (bytes_of_string "body{}") (bytes_of_string "body{}")) w').
Proof.
  destruct (WriteFile_hashes_when_needed (plain_rt bare_air) plain_fs
              (mkURL "/page.html" "") "page.html" "/srv/page.html" first_world
              eq_refl eq_refl) as [_ Hdisk].
  destruct (Hdisk _ _ eq_refl eq_refl eq_refl) as [_ Hunset].
  destruct (Hunset eq_refl) as [Hsum _].
  destruct (WriteFile_hashes_when_needed (plain_rt bare_air) plain_fs
              (mkURL "/app.css" "") "app.css" "/srv/app.css" first_world
              eq_refl eq_refl) as [Hcached _].
  destruct (Hcached _ eq_refl) as (w' & Hready & _).
  split; [reflexivity|]. split; [reflexivity|]. split; [reflexivity|].
  split; [reflexivity|]. split; [reflexivity|]. split; [reflexivity|].
  split; [exact (Hsum _ eq_refl)|].
  split; [reflexivity|]. split; [reflexivity|].
  by exists w'.
Defined.

(** ** The logger *)

Section LoggerFacts.

Context {A E : Type}.
Variable a : Air A E.
Variable env : LogEnv.

Lemma assign_all_union (e fs : gmap string LogValue) : assign_all e fs = e ∪ fs.
Proof.
  unfold assign_all.
  apply (map_fold_weak_ind (fun r m => r = m ∪ fs)).
  - by rewrite (left_id_L ∅ (∪)).
  - intros k v m r _ ->. by rewrite insert_union_l.
Qed.

Lemma assign_all_absent (es : list (gmap string LogValue)) (fs : gmap string LogValue)
    (k : string) :
  Forall (fun e => e !! k = None) es ->
  foldl (fun fs e => assign_all e fs) fs es !! k = fs !! k.
Proof.
  intros Hes. revert fs. induction Hes as [|e es He _ IH]; intros fs; [done|].
  cbn [foldl]. by rewrite IH, assign_all_union, lookup_union_r.
Qed.

Lemma assign_all_last (before after : list (gmap string LogValue))
    (e fs : gmap string LogValue) (k : string) (v : LogValue) :
  e !! k = Some v ->
  Forall (fun e' => e' !! k = None) after ->
  foldl (fun fs e => assign_all e fs) fs (before ++ e :: after) !! k = Some v.
Proof.
  intros He Hafter. rewrite foldl_app. cbn [foldl].
  rewrite assign_all_absent by done.
  rewrite assign_all_union. by apply lookup_union_Some_l.
Qed.

End LoggerFacts.

(** X20.  Outside debug mode a message below [LoggerLowestLevel] writes
    nothing.  Every other message, and in debug mode every message
    whatever the lowest level, makes exactly one write to the output,
    which ends in a line feed, also when the encoder fails.
    The level [LoggerLevelOff] as lowest level silences the six levels
    from debug to panic, but not a message logged at [LoggerLevelOff]
    itself or above. *)
Theorem log_level_filter {A E : Type} (a : Air A E) (env : LogEnv) (ll : nat)
    (m : string) (es : list (gmap string LogValue)) (out : list bytes) :
  (DebugMode a = false -> ll < LoggerLowestLevel env -> log a env ll m es out = out)
  /\ (DebugMode a = true \/ LoggerLowestLevel env <= ll ->
      exists b, log a env ll m es out = out ++ [b ++ [Byte.x0a]])
  /\ (DebugMode a = false -> LoggerLowestLevel env = LoggerLevelOff ->
      (ll <= LoggerLevelPanic -> log a env ll m es out = out)
      /\ (LoggerLevelOff <= ll -> length (log a env ll m es out) = S (length out))).
Proof.
  assert (Hquiet : DebugMode a = false -> ll < LoggerLowestLevel env ->
                   log a env ll m es out = out).
  { intros Hdebug Hlow. unfold log. rewrite Hdebug.
    apply Nat.ltb_lt in Hlow. by rewrite Hlow. }
  assert (Hloud : DebugMode a = true \/ LoggerLowestLevel env <= ll ->
                  exists b, log a env ll m es out = out ++ [b ++ [Byte.x0a]]).
  { intros Hon. unfold log.
    assert (Hgate : negb (DebugMode a) && (ll <? LoggerLowestLevel env)%nat = false).
    { destruct Hon as [-> | Hle]; [done|].
      apply Nat.ltb_ge in Hle. by rewrite Hle, andb_false_r. }
    rewrite Hgate. by eexists. }
  split; [exact Hquiet|]. split; [exact Hloud|].
  intros Hdebug Hoff. split.
  - intros Hle. apply Hquiet; [done|]. rewrite Hoff.
    unfold LoggerLevelOff, LoggerLevelPanic in *. lia.
  - intros Hle. destruct Hloud as [b ->]; [right; by rewrite Hoff|].
    rewrite length_app. cbn [length]. lia.
Qed.

Lemma log_level_filter_witness :
  DebugMode bare_air = false
  /\ LoggerLowestLevel (plain_log LoggerLevelOff) = LoggerLevelOff
  /\ log bare_air (plain_log LoggerLevelOff) LoggerLevelPanic "fire" [] [] = []
  /\ log bare_air (plain_log LoggerLevelOff) LoggerLevelOff "fire" [] []
     = [bytes_of_string "fire" ++ [Byte.x0a]]
  /\ DebugMode acme_debug_air = true
  /\ log acme_debug_air (plain_log LoggerLevelOff) LoggerLevelDebug "fire" [] []
     = [bytes_of_string "fire" ++ [Byte.x0a]].
Proof.
  destruct (log_level_filter bare_air (plain_log LoggerLevelOff) LoggerLevelPanic "fire"
              [] []) as (_ & _ & Hoff).
  destruct (Hoff eq_refl eq_refl) as [Hsilent _].
  destruct (log_level_filter acme_debug_air (plain_log LoggerLevelOff) LoggerLevelDebug
              "fire" [] []) as (_ & Hloud & _).
  split; [reflexivity|]. split; [reflexivity|].
  split; [apply Hsilent; unfold LoggerLevelPanic; lia|].
  split; [reflexivity|]. split; [reflexivity|].
  destruct (Hloud (or_introl eq_refl)) as [b Hb]. reflexivity.
Defined.

(** X21.  The extra maps of a log call are laid over the standard fields
    in call order: a key of an extra map takes the value of the last map
    that has it, replacing a standard field of that name ([message],
    [level], [time], [app_name], [caller]); a key that no extra map has
    keeps its standard value. *)
Theorem log_fields_last_wins {A E : Type} (a : Air A E) (env : LogEnv) (ll : nat)
    (m : string) (before after : list (gmap string LogValue))
    (e : gmap string LogValue) (k : string) :
  (Forall (fun e' => e' !! k = None) (before ++ e :: after) ->
   log_fields a env ll m (before ++ e :: after) !! k = log_fields a env ll m [] !! k)
  /\ (forall v, e !! k = Some v ->
        Forall (fun e' => e' !! k = None) after ->
        log_fields a env ll m (before ++ e :: after) !! k = Some v)
  /\ log_fields a env ll m [] !! "message" = Some (LogString m)
  /\ log_fields a env ll m [] !! "level" = Some (LogString (LoggerLevel_String ll)).
Proof.
  unfold log_fields. split_and!.
  - intros Hnone. by rewrite assign_all_absent.
  - intros v He Hafter. by apply assign_all_last.
  - cbn [foldl]. destruct (DebugMode a).
    + rewrite lookup_insert_ne by done. by rewrite lookup_insert_eq.
    + by rewrite lookup_insert_eq.
  - cbn [foldl]. destruct (DebugMode a).
    + rewrite lookup_insert_ne by done. rewrite lookup_insert_ne by done.
      by rewrite lookup_insert_eq.
    + rewrite lookup_insert_ne by done. by rewrite lookup_insert_eq.
Qed.

Lemma log_fields_last_wins_witness :
  ({["message" := LogString "forged"]} : gmap string LogValue) !! "message"
  = Some (LogString "forged")
  /\ log_fields bare_air (plain_log 0) LoggerLevelInfo "real"
       ([{["message" := LogString "first"]}] ++ {["message" := LogString "forged"]}
          :: [{["user" := LogInt 7]}]) !! "message"
     = Some (LogString "forged")
  /\ log bare_air (plain_log 0) LoggerLevelInfo "real"
       [{["message" := LogString "first"]}; {["message" := LogString "forged"]};
        {["user" := LogInt 7]}] []
     = [bytes_of_string "forged" ++ [Byte.x0a]].
Proof.
  destruct (log_fields_last_wins bare_air (plain_log 0) LoggerLevelInfo "real"
              [{["message" := LogString "first"]}] [{["user" := LogInt 7]}]
              {["message" := LogString "forged"]} "message") as (_ & Hlast & _).
  split; [reflexivity|].
  split; [apply (Hlast _ eq_refl); by repeat constructor|].
  reflexivity.
Defined.

(** X22.  The seven named levels print seven different names, and every
    other value of the level type prints the empty string: the name tells
    the named levels apart, and a level beyond [LoggerLevelOff] is logged
    without a name. *)
Theorem LoggerLevel_String_names (l1 l2 : nat) :
  (l1 <= LoggerLevelOff -> l2 <= LoggerLevelOff ->
   LoggerLevel_String l1 = LoggerLevel_String l2 -> l1 = l2)
  /\ (l1 <= LoggerLevelOff -> LoggerLevel_String l1 <> "")
  /\ (LoggerLevelOff < l1 -> LoggerLevel_String l1 = "").
Proof.
  unfold LoggerLevelOff. split_and!.
  - intros H1 H2.
    do 7 (destruct l1 as [|l1]; [do 7 (destruct l2 as [|l2]; [done|]); lia|]). lia.
  - intros H1. do 7 (destruct l1 as [|l1]; [done|]). lia.
  - intros H1. do 7 (destruct l1 as [|l1]; [lia|]). done.
Qed.

Lemma LoggerLevel_String_names_witness :
  LoggerLevelWarn <= LoggerLevelOff
  /\ LoggerLevel_String LoggerLevelWarn <> ""
  /\ LoggerLevelOff < 200
  /\ LoggerLevel_String 200 = "".
Proof.
  destruct (LoggerLevel_String_names LoggerLevelWarn 0) as (_ & Hnamed & _).
  destruct (LoggerLevel_String_names 200 0) as (_ & _ & Hnone).
  assert (Hle : LoggerLevelWarn <= LoggerLevelOff) by (unfold LoggerLevelWarn, LoggerLevelOff; lia).
  assert (Hlt : LoggerLevelOff < 200) by (unfold LoggerLevelOff; lia).
  split; [exact Hle|]. split; [exact (Hnamed Hle)|]. split; [exact Hlt | exact (Hnone Hlt)].
Defined.

(** ** What the wrapper never does *)

Section WrapperInvariant.

Context {A E : Type}.
Variable cw : RawWriter -> bytes -> Z * option Err.
Variable a : Air A E.

Lemma WriteHeader_only_appends (status : Z) (k : Sink A) :
  rwBody (snd (rw_WriteHeader a status k)) = rwBody (snd k)
  /\ rwStatus (snd k) `prefix_of` rwStatus (snd (rw_WriteHeader a status k))
  /\ Written (fst (rw_WriteHeader a status k)) = true
  /\ deferredFuncs (fst (rw_WriteHeader a status k)) = deferredFuncs (fst k)
  /\ req (fst (rw_WriteHeader a status k)) = req (fst k).
Proof.
  destruct k as [r x]. unfold rw_WriteHeader. destruct (Written r) eqn:Hw; cbn [fst snd].
  - by split_and!.
  - cbn [raw_WriteHeader with_rwHeader rwBody rwStatus]. split_and!; try done.
    by apply prefix_app_r.
Qed.

Lemma call_only_appends (c : WriterCall) (k : Sink A) :
  rwBody (snd k) `prefix_of` rwBody (snd (do_call cw a c k))
  /\ rwStatus (snd k) `prefix_of` rwStatus (snd (do_call cw a c k))
  /\ (Written (fst k) = true -> Written (fst (do_call cw a c k)) = true)
  /\ deferredFuncs (fst (do_call cw a c k)) = deferredFuncs (fst k)
  /\ req (fst (do_call cw a c k)) = req (fst k).
Proof.
  destruct c as [status|b]; cbn [do_call].
  - destruct (WriteHeader_only_appends status k) as (Hb & Hs & Hw & Hd & Hq).
    rewrite Hb. by split_and!.
  - destruct k as [r x]. unfold rw_Write. cbn [fst]. destruct (Written r) eqn:Hw.
    + unfold raw_Write. destruct (cw x b) as [n [e|]]; cbn [fst snd rwBody rwStatus];
        split_and!; try done; by apply prefix_app_r.
    + destruct (WriteHeader_only_appends (Status r) (r, x)) as (Hb & Hs & _ & Hd & Hq).
      destruct (rw_WriteHeader a (Status r) (r, x)) as [r1 x1]. cbn [fst snd] in *.
      unfold raw_Write. destruct (cw x1 b) as [n [e|]]; cbn [fst snd rwBody rwStatus];
        rewrite Hb; split_and!; try done; by apply prefix_app_r.
Qed.

End WrapperInvariant.

(** X23.  The calls on the wrapper only ever add: through any sequence of
    [WriteHeader] and [Write] calls the bytes sent and the statuses sent
    are extended, never shortened or rewritten, a response once written
    stays written, and the deferred functions and the back-reference of
    the response are left alone. *)
Theorem wrapper_only_appends {A E : Type} (cw : RawWriter -> bytes -> Z * option Err)
    (a : Air A E) (cs : list WriterCall) (k : Sink A) :
  rwBody (snd k) `prefix_of` rwBody (snd (do_calls cw a cs k))
  /\ rwStatus (snd k) `prefix_of` rwStatus (snd (do_calls cw a cs k))
  /\ (Written (fst k) = true -> Written (fst (do_calls cw a cs k)) = true)
  /\ deferredFuncs (fst (do_calls cw a cs k)) = deferredFuncs (fst k)
  /\ req (fst (do_calls cw a cs k)) = req (fst k).
Proof.
  revert k. induction cs as [|c cs IH]; intros k; [by split_and!|].
  unfold do_calls in *. cbn [foldl].
  destruct (call_only_appends cw a c k) as (Hb & Hs & Hw & Hd & Hq).
  destruct (IH (do_call cw a c k)) as (IHb & IHs & IHw & IHd & IHq).
  split_and!.
  - by etrans.
  - by etrans.
  - intros H. by apply IHw, Hw.
  - by rewrite IHd.
  - by rewrite IHq.
Qed.

Lemma wrapper_only_appends_witness :
  Written (fst not_found_sink) = false
  /\ rwBody (snd (do_calls conn_ok bare_air
                    [CallWrite (bytes_of_string "a"); CallWriteHeader 500;
                     CallWrite (bytes_of_string "b")] not_found_sink))
     = bytes_of_string "ab"
  /\ rwStatus (snd (do_calls conn_ok bare_air
                      [CallWrite (bytes_of_string "a"); CallWriteHeader 500;
                       CallWrite (bytes_of_string "b")] not_found_sink))
     = [404%Z]
  /\ rwBody (snd not_found_sink)
     `prefix_of` rwBody (snd (do_calls conn_ok bare_air
                                [CallWrite (bytes_of_string "a"); CallWriteHeader 500;
                                 CallWrite (bytes_of_string "b")] not_found_sink)).
Proof.
  split; [reflexivity|]. split; [reflexivity|]. split; [reflexivity|].
  exact (proj1 (wrapper_only_appends conn_ok bare_air
                  [CallWrite (bytes_of_string "a"); CallWriteHeader 500;
                   CallWrite (bytes_of_string "b")] not_found_sink)).
Defined.

(** ** The body writer *)

(** X24.  [responseBody.Write] on a written response hands the bytes to
    the wrapper and returns what the wrapper returns.  On an unwritten
    response it makes the empty write first, [Write] with a nil content:
    when [http.ServeContent] dereferences that content the call panics
    and no byte of [b] reaches the wrapper; when the preconditions of the
    request end the reply there, the bytes follow on the response as that
    reply left it. *)
Theorem body_write_begins_with_empty_write {A E : Type} (rt : Runtime A E)
    (a : Air A E) (b : bytes) (w : World A E) :
  (Written (w_res w) = true ->
   responseBody_Write rt a b w
   = (Returned (fst (rw_Write (conn_Write rt) a b (sink_of w))),
      set_sink (snd (rw_Write (conn_Write rt) a b (sink_of w))) w))
  /\ (Written (w_res w) = false ->
      let served :=
        http_ServeContent_nil rt (Header_Get (Response_Header w) "Last-Modified")
          (w_hreq w) (sink_of w) in
      (forall v k, served = (Panicked v, k) ->
         responseBody_Write rt a b w = (Panicked v, set_sink k w))
      /\ (forall k, served = (Returned tt, k) ->
            responseBody_Write rt a b w
            = (Returned (fst (rw_Write (conn_Write rt) a b k)),
               set_sink (snd (rw_Write (conn_Write rt) a b k)) w))).
Proof.
  split.
  - intros Hw. unfold responseBody_Write. rewrite Hw.
    by destruct (rw_Write (conn_Write rt) a b (sink_of w)).
  - intros Hw served. unfold responseBody_Write.
    rewrite Hw, (Write_nil_unwritten rt w Hw). fold served.
    split.
    + by intros v k ->.
    + intros k ->. destruct k as [r x]. unfold sink_of, set_sink.
      cbn [w_res w_raw fst snd w_hreq w_req w_env].
      by destruct (rw_Write (conn_Write rt) a b (r, x)).
Qed.

Lemma body_write_begins_with_empty_write_witness :
  Written (w_res first_world) = false
  /\ responseBody_Write (plain_rt bare_air) bare_air (bytes_of_string "hello") first_world
     = (Panicked nil_dereference, first_world)
  /\ Written (w_res written_world) = true
  /\ fst (responseBody_Write (plain_rt bare_air) bare_air (bytes_of_string "hello")
            written_world)
     = Returned (5%Z, None)
  /\ rwBody (w_raw (snd (responseBody_Write (plain_rt bare_air) bare_air
                           (bytes_of_string "hello") written_world)))
     = bytes_of_string "a  bhello".
Proof.
  destruct (body_write_begins_with_empty_write (plain_rt bare_air) bare_air
              (bytes_of_string "hello") first_world) as [_ Hfresh].
  destruct (Hfresh eq_refl) as [Hpanic _].
  destruct (body_write_begins_with_empty_write (plain_rt bare_air) bare_air
              (bytes_of_string "hello") written_world) as [Hwritten _].
  split; [reflexivity|]. split; [exact (Hpanic nil_dereference _ eq_refl)|].
  split; [reflexivity|]. rewrite (Hwritten eq_refl). split; reflexivity.
Defined.
